(** * Course-generation pipeline and progress reconciler

    A shallow embedding of the Supabase edge functions of the learning
    platform:

    - [generate-course-outline]  (outline pipeline),
    - [edit-course-outline]      (refinement loop),
    - [generate-final-course]    (course materializer),
    - [update-progress]          (progress reconciler),
    - [calculateLearningStreak]  of [get-user-analytics].

    The handlers are written in a small state-and-exception monad over an
    explicit picture of the database tables they touch.  What the platform
    around them supplies (the clock, generated row ids, the reply of the
    text-generation provider, whether the store accepts a write) is read
    from an environment record.

    Conventions:
    - a request body is the record its TypeScript interface declares,
      each field present or absent;
    - JSON numbers are integers, strings are byte strings;
    - a read is answered from the tables; a write is applied, or refused
      by the store with an error, as the environment says;
    - the clock is read once per invocation, and [Date] works in UTC;
    - every effect of a run is recorded, in order, in its trace. *)

From Stdlib Require Import ZArith List String Ascii Bool Lia DecimalString Sorted.
Import ListNotations.

#[local] Open Scope string_scope.
#[local] Open Scope Z_scope.

(** ** The JavaScript runtime, as far as the handlers use it *)

Module JS.

(** Values that travel as JSON.  Numbers are modelled on the integers;
    an object is the list of its own properties in property order. *)
#[local] Unset Elimination Schemes.
Inductive JSON : Type :=
| JNull
| JBool (b : bool)
| JNumber (n : Z)
| JString (s : string)
| JArray (items : list JSON)
| JObject (fields : list (string * JSON)).
#[local] Set Elimination Schemes.

(** A JavaScript value read from a JSON document: [None] is [undefined]. *)
Definition value := option JSON.

(** [!!v] *)
Definition truthy (v : JSON) : bool :=
  match v with
  | JNull => false
  | JBool b => b
  | JNumber n => negb (n =? 0)
  | JString s => negb (s =? "")%string
  | JArray _ | JObject _ => true
  end.

Definition truthy_value (v : value) : bool :=
  match v with Some j => truthy j | None => false end.

(** [!!s] for a string that may be absent. *)
Definition truthy_string (s : option string) : bool :=
  match s with Some x => negb (x =? "")%string | None => false end.

(** [a || b] on values. *)
Definition or_else (a : value) (b : JSON) : JSON :=
  match a with
  | Some j => if truthy j then j else b
  | None => b
  end.

(** [n || 0] on a number that may be absent. *)
Definition or_zero (n : option Z) : Z :=
  match n with
  | Some z => if z =? 0 then 0 else z
  | None => 0
  end.

(** [s || fallback] on a string that may be absent. *)
Definition string_or (s : option string) (fallback : string) : string :=
  match s with
  | Some x => if (x =? "")%string then fallback else x
  | None => fallback
  end.

Fixpoint assoc (k : string) (fields : list (string * JSON)) : value :=
  match fields with
  | [] => None
  | (k', v) :: rest => if (k =? k')%string then Some v else assoc k rest
  end.

(** [v.k] for a property [k] that no built-in prototype defines: the own
    property of an object, [undefined] on every other non-null value.
    Reading a property of [null] raises a TypeError, which is the caller's
    business (see [read_property]). *)
Definition get (v : JSON) (k : string) : value :=
  match v with
  | JObject fields => assoc k fields
  | _ => None
  end.

Definition nl : string := String "010"%char "".
Definition dq : string := String "034"%char "".

Definition string_of_Z (n : Z) : string := NilZero.string_of_int (Z.to_int n).

Definition hex_digit (n : nat) : ascii :=
  nth n (list_ascii_of_string "0123456789abcdef") "0"%char.

(** QuoteJSONString, one code unit at a time. *)
Definition quote_char (c : ascii) : string :=
  let n := nat_of_ascii c in
  if (n =? 34)%nat then "\" ++ dq
  else if (n =? 92)%nat then "\\"
  else if (n =? 8)%nat then "\b"
  else if (n =? 9)%nat then "\t"
  else if (n =? 10)%nat then "\n"
  else if (n =? 12)%nat then "\f"
  else if (n =? 13)%nat then "\r"
  else if (n <? 32)%nat then
    "\u00" ++ String (hex_digit (n / 16)) (String (hex_digit (n mod 16)) "")
  else String c "".

Fixpoint quote_body (s : string) : string :=
  match s with
  | EmptyString => ""
  | String c rest => quote_char c ++ quote_body rest
  end.

Definition quote (s : string) : string := dq ++ quote_body s ++ dq.

(** [JSON.stringify(v, null, 2)] below the current [indent]. *)
Fixpoint stringify_at (indent : string) (v : JSON) : string :=
  match v with
  | JNull => "null"
  | JBool true => "true"
  | JBool false => "false"
  | JNumber n => string_of_Z n
  | JString s => quote s
  | JArray [] => "[]"
  | JArray items =>
      let inner := indent ++ "  " in
      "[" ++ nl ++ inner
        ++ String.concat ("," ++ nl ++ inner) (map (stringify_at inner) items)
        ++ nl ++ indent ++ "]"
  | JObject [] => "{}"
  | JObject fields =>
      let inner := indent ++ "  " in
      "{" ++ nl ++ inner
        ++ String.concat ("," ++ nl ++ inner)
             (map (fun kv : string * JSON =>
                     let (k, x) := kv in quote k ++ ": " ++ stringify_at inner x)
                  fields)
        ++ nl ++ indent ++ "}"
  end.

Definition stringify (v : JSON) : string := stringify_at "" v.

(** *** Strings *)

Fixpoint starts_with (p s : string) : option string :=
  match p, s with
  | EmptyString, _ => Some s
  | String a p', String b s' => if Ascii.eqb a b then starts_with p' s' else None
  | String _ _, EmptyString => None
  end.

(** The expansion of a replacement string at one match of a pattern that
    has no capture groups: [$$], [$&], [$`] and [$'] are special, every
    other [$] is literal. *)
Fixpoint expand (repl matched before after : string) : string :=
  match repl with
  | String "$" (String c rest as tail) =>
      if Ascii.eqb c "$" then "$" ++ expand rest matched before after
      else if Ascii.eqb c "&" then matched ++ expand rest matched before after
      else if Ascii.eqb c "`" then before ++ expand rest matched before after
      else if Ascii.eqb c "'" then after ++ expand rest matched before after
      else "$" ++ expand tail matched before after
  | String c rest => String c (expand rest matched before after)
  | EmptyString => ""
  end.

(** [s.replace(/pat/g, repl)] for a literal, non-empty pattern: matches
    are found left to right without overlap.  [seen] is the text already
    passed, reversed; [skip] counts the characters of the current match
    still to be stepped over. *)
Fixpoint replace_from (pat repl : string) (skip : nat) (seen : list ascii) (s : string)
  : string :=
  match s with
  | EmptyString => ""
  | String c rest =>
      match skip with
      | S k => replace_from pat repl k (c :: seen) rest
      | O =>
          match starts_with pat s with
          | Some after =>
              expand repl pat (string_of_list_ascii (rev seen)) after
                ++ replace_from pat repl (Nat.pred (length pat)) (c :: seen) rest
          | None => String c (replace_from pat repl O (c :: seen) rest)
          end
      end
  end.

Definition replace_all (pat repl s : string) : string := replace_from pat repl O [] s.

(** *** The scan [content.match(/\{[\s\S]*\}/)]

    The star is greedy and [[\s\S]] matches every character, so the match
    starts at the first opening brace and runs through the last closing
    brace of the text. *)

Fixpoint through_last_close (s : string) : option string :=
  match s with
  | EmptyString => None
  | String c rest =>
      match through_last_close rest with
      | Some p => Some (String c p)
      | None => if Ascii.eqb c "}" then Some (String c "") else None
      end
  end.

Fixpoint match_braces (s : string) : option string :=
  match s with
  | EmptyString => None
  | String c rest =>
      if Ascii.eqb c "{" then
        match through_last_close rest with
        | Some p => Some (String c p)
        | None => None
        end
      else match_braces rest
  end.

(** *** [JSON.parse]

    The handlers below take the runtime's parser as a parameter.  [parse]
    is a parser for JSON texts to run them on: the JSON grammar over
    byte strings, with integer numerals and with [\u] escapes below
    U+0080.  A text with another numeral or escape is outside the model
    and is reported as a syntax error.  The text of the error is the
    runtime's; a fixed one stands for it. *)

Inductive ParseResult : Type :=
| Parsed (v : JSON)
| SyntaxError (message : string).

Definition is_ws (c : ascii) : bool :=
  let n := nat_of_ascii c in
  ((n =? 32) || (n =? 9) || (n =? 10) || (n =? 13))%nat.

Fixpoint skip_ws (s : string) : string :=
  match s with
  | String c rest => if is_ws c then skip_ws rest else s
  | EmptyString => ""
  end.

Definition digit_of (c : ascii) : option Z :=
  let n := nat_of_ascii c in
  if ((48 <=? n) && (n <=? 57))%nat then Some (Z.of_nat (n - 48)) else None.

Definition hex_of (c : ascii) : option nat :=
  let n := nat_of_ascii c in
  if ((48 <=? n) && (n <=? 57))%nat then Some (n - 48)%nat
  else if ((97 <=? n) && (n <=? 102))%nat then Some (n - 87)%nat
  else if ((65 <=? n) && (n <=? 70))%nat then Some (n - 55)%nat
  else None.

Fixpoint parse_digits (acc : Z) (s : string) : Z * string :=
  match s with
  | String c rest =>
      match digit_of c with
      | Some d => parse_digits (10 * acc + d) rest
      | None => (acc, s)
      end
  | EmptyString => (acc, "")
  end.

Definition ends_numeral (s : string) : bool :=
  match s with
  | String c _ =>
      negb (Ascii.eqb c "." || Ascii.eqb c "e" || Ascii.eqb c "E")
  | EmptyString => true
  end.

(** [0], or a non-zero digit followed by digits. *)
Definition parse_natural (s : string) : option (Z * string) :=
  match s with
  | String c rest =>
      match digit_of c with
      | Some 0 => if ends_numeral rest then Some (0, rest) else None
      | Some d =>
          let (n, rest') := parse_digits d rest in
          if ends_numeral rest' then Some (n, rest') else None
      | None => None
      end
  | EmptyString => None
  end.

Definition parse_number (s : string) : option (Z * string) :=
  match s with
  | String "-" rest =>
      match parse_natural rest with
      | Some (n, rest') => Some (- n, rest')
      | None => None
      end
  | _ => parse_natural s
  end.

(** The characters of a string literal after its opening quote. *)
Fixpoint parse_chars (s : string) : option (string * string) :=
  match s with
  | EmptyString => None
  | String c rest =>
      let n := nat_of_ascii c in
      if (n =? 34)%nat then Some ("", rest)
      else if (n <? 32)%nat then None
      else if (n =? 92)%nat then
        match rest with
        | String e rest' =>
            let unescaped (u : ascii) (tail : string) :=
              match parse_chars tail with
              | Some (body, rest'') => Some (String u body, rest'')
              | None => None
              end in
            if Ascii.eqb e "034" then unescaped "034"%char rest'
            else if Ascii.eqb e "\" then unescaped "\"%char rest'
            else if Ascii.eqb e "/" then unescaped "/"%char rest'
            else if Ascii.eqb e "b" then unescaped "008"%char rest'
            else if Ascii.eqb e "f" then unescaped "012"%char rest'
            else if Ascii.eqb e "n" then unescaped "010"%char rest'
            else if Ascii.eqb e "r" then unescaped "013"%char rest'
            else if Ascii.eqb e "t" then unescaped "009"%char rest'
            else if Ascii.eqb e "u" then
              match rest' with
              | String h1 (String h2 (String h3 (String h4 rest''))) =>
                  match hex_of h1, hex_of h2, hex_of h3, hex_of h4 with
                  | Some 0%nat, Some 0%nat, Some a, Some b =>
                      if (a <? 8)%nat then unescaped (ascii_of_nat (16 * a + b)) rest''
                      else None
                  | _, _, _, _ => None
                  end
              | _ => None
              end
            else None
        | EmptyString => None
        end
      else
        match parse_chars rest with
        | Some (body, rest') => Some (String c body, rest')
        | None => None
        end
  end.

(** Property order of an object: array indices first, in ascending
    order, then the other keys in the order of their first definition; a
    key defined again keeps its place and takes the new value. *)
Definition index_of (k : string) : option Z :=
  match parse_natural k with
  | Some (n, EmptyString) => if n <? 4294967295 then Some n else None
  | _ => None
  end.

Fixpoint define_index (n : Z) (k : string) (v : JSON) (fields : list (string * JSON))
  : list (string * JSON) :=
  match fields with
  | [] => [(k, v)]
  | (k', v') :: rest =>
      match index_of k' with
      | Some n' =>
          if n' =? n then (k, v) :: rest
          else if n <? n' then (k, v) :: fields
          else (k', v') :: define_index n k v rest
      | None => (k, v) :: fields
      end
  end.

Fixpoint define_name (k : string) (v : JSON) (fields : list (string * JSON))
  : list (string * JSON) :=
  match fields with
  | [] => [(k, v)]
  | (k', v') :: rest =>
      if (k =? k')%string then (k, v) :: rest else (k', v') :: define_name k v rest
  end.

Definition define (k : string) (v : JSON) (fields : list (string * JSON))
  : list (string * JSON) :=
  match index_of k with
  | Some n => define_index n k v fields
  | None => define_name k v fields
  end.

Definition expect (word : string) (v : JSON) (s : string) : option (JSON * string) :=
  match starts_with word s with
  | Some rest => Some (v, rest)
  | None => None
  end.

Fixpoint parse_value (fuel : nat) (s : string) {struct fuel} : option (JSON * string) :=
  match fuel with
  | O => None
  | S fuel' =>
      match skip_ws s with
      | EmptyString => None
      | String c rest as s' =>
          if Ascii.eqb c "n" then expect "null" JNull s'
          else if Ascii.eqb c "t" then expect "true" (JBool true) s'
          else if Ascii.eqb c "f" then expect "false" (JBool false) s'
          else if Ascii.eqb c "034" then
            match parse_chars rest with
            | Some (body, rest') => Some (JString body, rest')
            | None => None
            end
          else if Ascii.eqb c "[" then
            match skip_ws rest with
            | String "]" rest' => Some (JArray [], rest')
            | _ =>
                match parse_elements fuel' rest with
                | Some (items, rest') => Some (JArray items, rest')
                | None => None
                end
            end
          else if Ascii.eqb c "{" then
            match skip_ws rest with
            | String "}" rest' => Some (JObject [], rest')
            | _ =>
                match parse_members fuel' [] rest with
                | Some (fields, rest') => Some (JObject fields, rest')
                | None => None
                end
            end
          else
            match parse_number s' with
            | Some (n, rest') => Some (JNumber n, rest')
            | None => None
            end
      end
  end

with parse_elements (fuel : nat) (s : string) {struct fuel}
  : option (list JSON * string) :=
  match fuel with
  | O => None
  | S fuel' =>
      match parse_value fuel' s with
      | Some (v, rest) =>
          match skip_ws rest with
          | String "]" rest' => Some ([v], rest')
          | String "," rest' =>
              match parse_elements fuel' rest' with
              | Some (items, rest'') => Some (v :: items, rest'')
              | None => None
              end
          | _ => None
          end
      | None => None
      end
  end

with parse_members (fuel : nat) (acc : list (string * JSON)) (s : string) {struct fuel}
  : option (list (string * JSON) * string) :=
  match fuel with
  | O => None
  | S fuel' =>
      match skip_ws s with
      | String "034" rest =>
          match parse_chars rest with
          | Some (k, rest') =>
              match skip_ws rest' with
              | String ":" rest'' =>
                  match parse_value fuel' rest'' with
                  | Some (v, rest3) =>
                      match skip_ws rest3 with
                      | String "}" rest4 => Some (define k v acc, rest4)
                      | String "," rest4 => parse_members fuel' (define k v acc) rest4
                      | _ => None
                      end
                  | None => None
                  end
              | _ => None
              end
          | None => None
          end
      | _ => None
      end
  end.

Definition parse (text : string) : ParseResult :=
  match parse_value (2 * length text + 2) text with
  | Some (v, rest) =>
      match skip_ws rest with
      | EmptyString => Parsed v
      | _ => SyntaxError "Unexpected token in JSON"
      end
  | None => SyntaxError "Unexpected token in JSON"
  end.

End JS.

Import JS.

(** ** The tables

    One record per table, with the columns the handlers read or write.  A
    table is the list of its rows in insertion order.  Timestamps are
    milliseconds since the epoch. *)

Module Session.
Record t := mk {
  id : string;
  clerk_user_id : string;
  topic : string;
  context : string;
  knowledge_level : string;
  learning_goals : string;
  preferred_duration : string;
  current_outline : JSON;
  status : string;
  updated_at : Z }.

Definition set_outline (o : JSON) (at_ : Z) (s : t) : t :=
  mk (id s) (clerk_user_id s) (topic s) (context s) (knowledge_level s)
     (learning_goals s) (preferred_duration s) o (status s) at_.

Definition set_status (st : string) (at_ : Z) (s : t) : t :=
  mk (id s) (clerk_user_id s) (topic s) (context s) (knowledge_level s)
     (learning_goals s) (preferred_duration s) (current_outline s) st at_.

(** [.eq('id', session_id).eq('clerk_user_id', clerk_user_id)] *)
Definition owned_by (sid uid : string) (s : t) : bool :=
  (id s =? sid)%string && (clerk_user_id s =? uid)%string.

(** [.update({...}).eq('id', session_id)] *)
Definition update (sid : string) (f : t -> t) (rows : list t) : list t :=
  map (fun s => if (id s =? sid)%string then f s else s) rows.
End Session.

Module Conversation.
Record t := mk {
  session_id : string;
  message_type : string;
  content : string;
  created_at : Z }.
End Conversation.

Module Course.
Record metadata_t := mk_metadata {
  session_id : string;
  approved_outline : JSON;
  generation_timestamp : Z }.

Record t := mk {
  id : string;
  user_id : option string;
  clerk_user_id : option string;
  title : JSON;
  description : JSON;
  topic : string;
  context : string;
  knowledge_level : string;
  objectives : list JSON;
  total_modules : Z;
  status : string;
  ai_generated : bool;
  metadata : metadata_t;
  completed_at : option Z }.

Definition complete (at_ : Z) (c : t) : t :=
  mk (id c) (user_id c) (clerk_user_id c) (title c) (description c) (topic c)
     (context c) (knowledge_level c) (objectives c) (total_modules c)
     "completed" (ai_generated c) (metadata c) (Some at_).
End Course.

Module CourseModule.
Record t := mk {
  course_id : string;
  title : value;
  description : value;
  content : string;
  order_index : Z;
  exercises : list JSON;
  assessment_questions : list JSON }.
End CourseModule.

Module Progress.
Record t := mk {
  user_id : option string;
  clerk_user_id : option string;
  course_id : string;
  progress_percentage : Z;
  completed_modules : list string;
  time_spent : Z;
  last_accessed : Z;
  notes : string }.
End Progress.

Module ModuleProgress.
Record t := mk {
  user_id : string;
  course_id : string;
  module_id : string;
  completed : bool;
  time_spent : Z;
  last_accessed : Z }.
End ModuleProgress.

Inductive Table : Set :=
| tbl_course_generation_sessions
| tbl_course_conversations
| tbl_courses
| tbl_course_modules
| tbl_user_progress
| tbl_module_progress.

Record DB := mkDB {
  course_generation_sessions : list Session.t;
  course_conversations : list Conversation.t;
  courses : list Course.t;
  course_modules : list CourseModule.t;
  user_progress : list Progress.t;
  module_progress : list ModuleProgress.t }.

Definition with_sessions (f : list Session.t -> list Session.t) (d : DB) : DB :=
  mkDB (f (course_generation_sessions d)) (course_conversations d) (courses d)
       (course_modules d) (user_progress d) (module_progress d).

Definition with_conversations (f : list Conversation.t -> list Conversation.t) (d : DB) : DB :=
  mkDB (course_generation_sessions d) (f (course_conversations d)) (courses d)
       (course_modules d) (user_progress d) (module_progress d).

Definition with_courses (f : list Course.t -> list Course.t) (d : DB) : DB :=
  mkDB (course_generation_sessions d) (course_conversations d) (f (courses d))
       (course_modules d) (user_progress d) (module_progress d).

Definition with_modules (f : list CourseModule.t -> list CourseModule.t) (d : DB) : DB :=
  mkDB (course_generation_sessions d) (course_conversations d) (courses d)
       (f (course_modules d)) (user_progress d) (module_progress d).

Definition with_progress (f : list Progress.t -> list Progress.t) (d : DB) : DB :=
  mkDB (course_generation_sessions d) (course_conversations d) (courses d)
       (course_modules d) (f (user_progress d)) (module_progress d).

Definition with_module_progress (f : list ModuleProgress.t -> list ModuleProgress.t)
  (d : DB) : DB :=
  mkDB (course_generation_sessions d) (course_conversations d) (courses d)
       (course_modules d) (user_progress d) (f (module_progress d)).

(** ** The environment of one invocation *)

(** [fetch] to the provider: [response.ok] is false, with its status
    text, or the reply carries [choices[0].message.content]. *)
Inductive ProviderReply : Type :=
| NotOk (statusText : string)
| Completion (content : string).

(** [now] is the clock ([new Date()], and the store's column defaults);
    [new_id] the id the store generates for an inserted row;
    [write_error t] the error, if any, with which the store refuses the
    write this invocation issues to table [t] (a refused write changes
    nothing); [provider system user] the provider's reply to a chat
    request. *)
Record Env := mkEnv {
  now : Z;
  new_id : string;
  write_error : Table -> option string;
  provider : string -> string -> ProviderReply }.

(** ** Responses *)

Record CoursePayload := mkCoursePayload {
  payload_id : string;
  payload_title : JSON;
  payload_description : JSON;
  payload_content : string;
  payload_modules : JSON }.

(** The JSON body of a response.  Every variant but [Error] and
    [Preflight] is an object with [success: true]. *)
Inductive Body : Type :=
| Preflight
| Error (error : string)
| SessionCreated (session_id : string) (outline : JSON)
| OutlineUpdated (updated_outline : JSON)
| CourseCreated (course : CoursePayload)
| ProgressSaved (progress : Progress.t).

Record Response := mkResponse { status : Z; body : Body }.

Definition success (b : Body) : bool :=
  match b with
  | Preflight | Error _ => false
  | _ => true
  end.

(** ** Effects *)

Inductive Event : Type :=
| Read (t : Table)
| Write (t : Table) (applied : bool)
| Fetch (system user : string)
| ConsoleError (message : string).

Record World := mkWorld { db : DB; trace : list Event }.

Inductive Outcome (A : Type) : Type :=
| Next (a : A)
| Return (r : Response)
| Throw (message : string).
Arguments Next {A} a.
Arguments Return {A} r.
Arguments Throw {A} message.

Definition M (A : Type) : Type := World -> Outcome A * World.

Definition ret {A} (a : A) : M A := fun w => (Next a, w).

Definition bind {A B} (c : M A) (k : A -> M B) : M B :=
  fun w =>
    match c w with
    | (Next a, w') => k a w'
    | (Return r, w') => (Return r, w')
    | (Throw m, w') => (Throw m, w')
    end.

#[local] Notation "x <- c ;; k" := (bind c (fun x => k))
  (at level 61, c at next level, right associativity).
#[local] Notation "c ;;; k" := (bind c (fun _ => k))
  (at level 61, right associativity).

Definition respond {A} (st : Z) (b : Body) : M A :=
  fun w => (Return (mkResponse st b), w).

Definition throw {A} (message : string) : M A := fun w => (Throw message, w).

Definition emit (e : Event) : M unit :=
  fun w => (Next tt, mkWorld (db w) (trace w ++ [e])%list).

(** A read of table [t]: the rows are answered from the store. *)
Definition select {A} (t : Table) (rows : DB -> list A) : M (list A) :=
  fun w => (Next (rows (db w)), mkWorld (db w) (trace w ++ [Read t])%list).

(** A write to table [t]: applied, or refused with the store's error. *)
Definition write (env : Env) (t : Table) (apply : DB -> DB) : M (option string) :=
  fun w =>
    match write_error env t with
    | Some message => (Next (Some message), mkWorld (db w) (trace w ++ [Write t false])%list)
    | None => (Next None, mkWorld (apply (db w)) (trace w ++ [Write t true])%list)
    end.

(** [.single()]: the row when there is exactly one. *)
Definition single {A} (rows : list A) : option A :=
  match rows with
  | [r] => Some r
  | _ => None
  end.

Definition console_error (message : string) : M unit := emit (ConsoleError message).

(** The session a handler loads for the caller: the one row with this
    id and this owner. *)
Definition session_of (sid uid : string) (d : DB) : option Session.t :=
  single (filter (Session.owned_by sid uid) (course_generation_sessions d)).

(** [serve]'s frame: the preflight answer, and the [try]/[catch] that
    logs a thrown error under the handler's [label] and turns it into a
    500 carrying its message. *)
Definition run (label method : string) (handler : M Response) (d : DB)
  : Response * DB * list Event :=
  if (method =? "OPTIONS")%string then (mkResponse 200 Preflight, d, [])
  else
    match handler (mkWorld d []) with
    | (Next r, w) | (Return r, w) => (r, db w, trace w)
    | (Throw message, w) =>
        (mkResponse 500 (Error message), db w,
         (trace w ++ [ConsoleError (label ++ " " ++ message)])%list)
    end.

Definition response_of (r : Response * DB * list Event) : Response := fst (fst r).
Definition db_of (r : Response * DB * list Event) : DB := snd (fst r).
Definition trace_of (r : Response * DB * list Event) : list Event := snd r.

(** ** update-progress *)

Module UpdateProgress.

Record ProgressUpdate := mk {
  course_id : option string;
  module_id : option string;
  progress_percentage : option Z;
  completed_modules : option (list string);
  time_spent : option Z;
  notes : option string }.

Definition owned_by (uid cid : string) (p : Progress.t) : bool :=
  match Progress.user_id p with
  | Some u => (u =? uid)%string && (Progress.course_id p =? cid)%string
  | None => false
  end.

(** The [.update({...})] payload applied to an existing row. *)
Definition merge (env : Env) (req : ProgressUpdate) (pct : Z) (existing p : Progress.t)
  : Progress.t :=
  Progress.mk (Progress.user_id p) (Progress.clerk_user_id p) (Progress.course_id p)
    (Z.max (Progress.progress_percentage existing) pct)
    (match completed_modules req with
     | Some l => l
     | None => Progress.completed_modules existing
     end)
    (or_zero (Some (Progress.time_spent existing)) + or_zero (time_spent req))
    (now env)
    (string_or (notes req) (Progress.notes existing)).

(** The [.insert({...})] payload; [last_accessed] is left to the
    column default. *)
Definition fresh (env : Env) (uid cid : string) (req : ProgressUpdate) (pct : Z)
  : Progress.t :=
  Progress.mk (Some uid) None cid pct
    (match completed_modules req with Some l => l | None => [] end)
    (or_zero (time_spent req))
    (now env)
    (string_or (notes req) "").

Definition update_rows (uid cid : string) (f : Progress.t -> Progress.t)
  (rows : list Progress.t) : list Progress.t :=
  map (fun p => if owned_by uid cid p then f p else p) rows.

Definition module_key (uid cid mid : string) (m : ModuleProgress.t) : bool :=
  (ModuleProgress.user_id m =? uid)%string
  && (ModuleProgress.course_id m =? cid)%string
  && (ModuleProgress.module_id m =? mid)%string.

(** Modelled from the spec: the conflict target of the [module_progress]
    upsert, whose table definition is not part of the sources; the row
    is keyed by (user, course, module). *)
Definition upsert_module (row : ModuleProgress.t) (rows : list ModuleProgress.t)
  : list ModuleProgress.t :=
  let hit := module_key (ModuleProgress.user_id row) (ModuleProgress.course_id row)
               (ModuleProgress.module_id row) in
  if existsb hit rows then map (fun m => if hit m then row else m) rows
  else (rows ++ [row])%list.

Definition course_of (uid cid : string) (c : Course.t) : bool :=
  (Course.id c =? cid)%string
  && match Course.user_id c with Some u => (u =? uid)%string | None => false end.

Definition complete_course (env : Env) (uid cid : string) (rows : list Course.t)
  : list Course.t :=
  map (fun c => if course_of uid cid c then Course.complete (now env) c else c) rows.

Definition handler (env : Env) (user : option string) (req : ProgressUpdate)
  : M Response :=
  match user with
  | None => respond 401 (Error "Unauthorized")
  | Some uid =>
      match progress_percentage req with
      | None => respond 400 (Error "Missing required fields: course_id, progress_percentage")
      | Some pct =>
          if negb (truthy_string (course_id req)) then
            respond 400 (Error "Missing required fields: course_id, progress_percentage")
          else
            let cid := string_or (course_id req) "" in
            found <- select tbl_user_progress
                       (fun d => filter (owned_by uid cid) (user_progress d)) ;;
            progressData <-
              match single found with
              | Some existing =>
                  error <- write env tbl_user_progress
                             (with_progress (update_rows uid cid (merge env req pct existing))) ;;
                  match error with
                  | Some message => throw message
                  | None => ret (merge env req pct existing existing)
                  end
              | None =>
                  error <- write env tbl_user_progress
                             (with_progress (fun rows => (rows ++ [fresh env uid cid req pct])%list)) ;;
                  match error with
                  | Some message => throw message
                  | None => ret (fresh env uid cid req pct)
                  end
              end ;;
            (if truthy_string (module_id req) then
               _ <- write env tbl_module_progress
                      (with_module_progress
                         (upsert_module
                            (ModuleProgress.mk uid cid (string_or (module_id req) "")
                               (100 <=? pct) (or_zero (time_spent req)) (now env)))) ;;
               ret tt
             else ret tt) ;;;
            (if 100 <=? pct then
               _ <- write env tbl_courses (with_courses (complete_course env uid cid)) ;;
               ret tt
             else ret tt) ;;;
            respond 200 (ProgressSaved progressData)
      end
  end.

Definition serve (env : Env) (method : string) (user : option string)
  (req : ProgressUpdate) (d : DB) : Response * DB * list Event :=
  run "Error updating progress:" method (handler env user req) d.

(** A request that passes the validation: course [cid], percentage
    [pct]. *)
Definition valid (method : string) (req : ProgressUpdate) (cid : string) (pct : Z) : Prop :=
  method <> "OPTIONS" /\ course_id req = Some cid /\ cid <> ""
  /\ progress_percentage req = Some pct.

End UpdateProgress.

(** ** The parsing of the provider's text

    The same [try]/[catch] stands in generate-course-outline and in
    edit-course-outline: the text is parsed as it is; when that fails the
    brace scan is parsed instead; [inr] is the message of the error
    thrown. *)

Section ModelOutput.
Variable JSON_parse : string -> ParseResult.

Definition parse_model_output (content : string) : JSON + string :=
  match JSON_parse content with
  | Parsed v => inl v
  | SyntaxError _ =>
      match match_braces content with
      | Some jsonMatch =>
          match JSON_parse jsonMatch with
          | Parsed v => inl v
          | SyntaxError message => inr message
          end
      | None => inr "Failed to parse AI response as JSON"
      end
  end.
End ModelOutput.

Definition or_throw {A} (r : A + string) : M A :=
  match r with
  | inl a => ret a
  | inr message => throw message
  end.

(** [await fetch(...)] to the provider, and the check of [response.ok]. *)
Definition chat (env : Env) (system user : string) : M string :=
  emit (Fetch system user) ;;;
  match provider env system user with
  | NotOk statusText => throw ("OpenRouter API error: " ++ statusText)
  | Completion content => ret content
  end.

(** ** generate-course-outline *)

Module GenerateCourseOutline.

Record OutlineRequest := mk {
  topic : option string;
  context : option string;
  knowledge_level : option string;
  learning_goals : option string;
  preferred_duration : option string;
  clerk_user_id : option string }.

Definition OUTLINE_SYSTEM_PROMPT : string :=
  "Research & Adaptive Course Overview Generation
Your task is to conduct in-depth, accurate research on a specified topic and propose a structured, learner-centered self-teaching course. The research and proposal must strictly adhere to the following guidelines:

Variables (retain as placeholders):
(1) Topic/Subject: {TOPIC}
(2) Context & Background: {CONTEXT}
(3) Current Knowledge Level of User: {KNOWLEDGE_LEVEL}
(4) User's Learning Goals: {LEARNING_GOALS}
(5) Preferred Duration: {PREFERRED_DURATION}

Possible options: 1) 1–2 hours, 2) 3–5 hours, 3) 6–10 hours, 4) 10+ hours

Instructions
Research Approach

Search for comprehensive, up-to-date, and accurate information on {TOPIC}, prioritizing academically reputable, trusted, and authoritative sources that fit {CONTEXT}.

Favor primary sources, recent peer-reviewed studies, and educational websites.

Document all sources clearly for fact verification.

User Adaptation

Adapt the depth, detail, and terminology of all course content to suit {KNOWLEDGE_LEVEL}.

Focus material and module selection to support {LEARNING_GOALS}.

Use {PREFERRED_DURATION} as a constraint to determine the scope and depth of coverage, ensuring the content fits the allotted timeframe while maximizing relevance.

Course Overview/Proposal (Step 1)

Design a proposed overview of the self-teaching course, outlining its structure before generating the full content.

The overview/proposal must include:

Working course title and high-level description.

A modular breakdown (e.g., sections, lessons, or topics/modules to be covered).

For each module: a brief summary, rationale for inclusion, and how it helps fulfill {LEARNING_GOALS}.

Clear alignment of depth/detail to fit {PREFERRED_DURATION}.

Clear statement that this is a review phase for the user to request changes before course creation.

Present the proposed structure as a list or table for easy review.

Transparency & Trust

Clearly cite all key sources found in the overview.

Note any significant gaps, open questions, or areas where source confidence is limited.

IMPORTANT: Return your response as a JSON object with this exact structure:
{
  " ++ dq ++ "title" ++ dq ++ ": " ++ dq ++ "Course Title" ++ dq ++ ",
  " ++ dq ++ "description" ++ dq ++ ": " ++ dq ++ "High-level course description" ++ dq ++ ",
  " ++ dq ++ "duration" ++ dq ++ ": " ++ dq ++ "Expected duration" ++ dq ++ ",
  " ++ dq ++ "modules" ++ dq ++ ": [
    {
      " ++ dq ++ "title" ++ dq ++ ": " ++ dq ++ "Module Title" ++ dq ++ ",
      " ++ dq ++ "description" ++ dq ++ ": " ++ dq ++ "Module description" ++ dq ++ ",
      " ++ dq ++ "rationale" ++ dq ++ ": " ++ dq ++ "Why this module is included and how it helps fulfill learning goals" ++ dq ++ ",
      " ++ dq ++ "topics" ++ dq ++ ": [" ++ dq ++ "Topic 1" ++ dq ++ ", " ++ dq ++ "Topic 2" ++ dq ++ ", " ++ dq ++ "Topic 3" ++ dq ++ "]
    }
  ],
  " ++ dq ++ "sources" ++ dq ++ ": [" ++ dq ++ "Source 1" ++ dq ++ ", " ++ dq ++ "Source 2" ++ dq ++ ", " ++ dq ++ "Source 3" ++ dq ++ "],
  " ++ dq ++ "notes" ++ dq ++ ": " ++ dq ++ "Any gaps, limitations, or areas of uncertainty" ++ dq ++ ",
  " ++ dq ++ "review_message" ++ dq ++ ": " ++ dq ++ "Clear statement that this is a review phase for the user to request changes before course creation" ++ dq ++ "
}".

Definition system_message : string :=
  "You are an expert educational researcher and course designer. Generate comprehensive, well-researched course outlines. Always respond with valid JSON in the exact format requested.".

Definition personalizedPrompt (topic context knowledge_level learning_goals
  preferred_duration : string) : string :=
  replace_all "{PREFERRED_DURATION}" preferred_duration
    (replace_all "{LEARNING_GOALS}" learning_goals
       (replace_all "{KNOWLEDGE_LEVEL}" knowledge_level
          (replace_all "{CONTEXT}" context
             (replace_all "{TOPIC}" topic OUTLINE_SYSTEM_PROMPT)))).

Section Handler.
Variable JSON_parse : string -> ParseResult.

Definition handler (env : Env) (req : OutlineRequest) : M Response :=
  if negb (truthy_string (topic req)) || negb (truthy_string (context req))
     || negb (truthy_string (knowledge_level req))
     || negb (truthy_string (learning_goals req))
     || negb (truthy_string (preferred_duration req))
     || negb (truthy_string (clerk_user_id req))
  then respond 400 (Error "Missing required fields")
  else
    let topic := string_or (topic req) "" in
    let context := string_or (context req) "" in
    let knowledge_level := string_or (knowledge_level req) "" in
    let learning_goals := string_or (learning_goals req) "" in
    let preferred_duration := string_or (preferred_duration req) "" in
    let clerk_user_id := string_or (clerk_user_id req) "" in
    content <- chat env system_message
                 (personalizedPrompt topic context knowledge_level learning_goals
                    preferred_duration) ;;
    courseOutline <- or_throw (parse_model_output JSON_parse content) ;;
    let session :=
      Session.mk (new_id env) clerk_user_id topic context knowledge_level
        learning_goals preferred_duration courseOutline "outline_review" (now env) in
    sessionError <- write env tbl_course_generation_sessions
                      (with_sessions (fun rows => (rows ++ [session])%list)) ;;
    match sessionError with
    | Some message => throw ("Database error: " ++ message)
    | None => respond 200 (SessionCreated (Session.id session) courseOutline)
    end.

Definition serve (env : Env) (method : string) (req : OutlineRequest) (d : DB)
  : Response * DB * list Event :=
  run "Error generating course outline:" method (handler env req) d.
End Handler.

(** A request that passes the validation. *)
Definition valid (method : string) (req : OutlineRequest)
  (topic' context' level goals duration uid : string) : Prop :=
  method <> "OPTIONS"
  /\ topic req = Some topic' /\ topic' <> ""
  /\ context req = Some context' /\ context' <> ""
  /\ knowledge_level req = Some level /\ level <> ""
  /\ learning_goals req = Some goals /\ goals <> ""
  /\ preferred_duration req = Some duration /\ duration <> ""
  /\ clerk_user_id req = Some uid /\ uid <> "".

End GenerateCourseOutline.

(** ** edit-course-outline *)

Module EditCourseOutline.

Record EditRequest := mk {
  session_id : option string;
  user_message : option string;
  current_outline : value;
  clerk_user_id : option string }.

(** [.order('created_at', { ascending: true })]; rows created at the
    same instant stay in insertion order. *)
Fixpoint insert_by_created_at (c : Conversation.t) (sorted : list Conversation.t)
  : list Conversation.t :=
  match sorted with
  | [] => [c]
  | c' :: rest =>
      if Conversation.created_at c <? Conversation.created_at c' then c :: sorted
      else c' :: insert_by_created_at c rest
  end.

Definition order_by_created_at (rows : list Conversation.t) : list Conversation.t :=
  fold_left (fun sorted c => insert_by_created_at c sorted) rows [].

Definition history (sid : string) (d : DB) : list Conversation.t :=
  order_by_created_at
    (filter (fun c => (Conversation.session_id c =? sid)%string) (course_conversations d)).

Definition render (conv : Conversation.t) : string :=
  (if (Conversation.message_type conv =? "user")%string then "User" else "Assistant")
    ++ ": " ++ Conversation.content conv.

Definition conversationContext (conversations : list Conversation.t) : string :=
  match conversations with
  | [] => ""
  | _ => String.concat (nl ++ nl) (map render conversations)
  end.

Definition editPrompt (session : Session.t) (current_outline : JSON)
  (conversationContext user_message : string) : string :=
  "You are helping a user refine their course outline. Here's the context:

ORIGINAL COURSE REQUEST:
- Topic: "
    ++ Session.topic session
    ++ "
- Context: "
    ++ Session.context session
    ++ "
- Knowledge Level: "
    ++ Session.knowledge_level session
    ++ "
- Learning Goals: "
    ++ Session.learning_goals session
    ++ "
- Preferred Duration: "
    ++ Session.preferred_duration session
    ++ "

CURRENT COURSE OUTLINE:
"
    ++ stringify current_outline
    ++ "

CONVERSATION HISTORY:
"
    ++ conversationContext
    ++ "

USER'S NEW REQUEST:
"
    ++ user_message
    ++ "

Please update the course outline based on the user's request. Maintain the same JSON structure as the current outline, but modify the content according to their feedback. If they want to add modules, remove modules, change the focus, or adjust the difficulty, please make those changes while keeping the overall structure coherent.

Return the updated outline as a JSON object with the same structure as the current outline.".

Definition system_message : string :=
  "You are an expert educational course designer. Help users refine their course outlines based on their feedback. Always respond with valid JSON in the same format as the input outline.".

Definition assistant_message (updatedOutline : JSON) : string :=
  "I've updated your course outline based on your feedback. Here are the key changes I made:"
    ++ nl ++ nl ++ stringify updatedOutline.

(** The two rows of the insert into [course_conversations]; their
    [created_at] is left to the column default. *)
Definition exchange (env : Env) (sid msg : string) (updatedOutline : JSON)
  : list Conversation.t :=
  [Conversation.mk sid "user" msg (now env);
   Conversation.mk sid "assistant" (assistant_message updatedOutline) (now env)].

Section Handler.
Variable JSON_parse : string -> ParseResult.

Definition handler (env : Env) (req : EditRequest) : M Response :=
  match current_outline req with
  | None => respond 400 (Error "Missing required fields")
  | Some current_outline =>
      if negb (truthy_string (session_id req)) || negb (truthy_string (user_message req))
         || negb (truthy current_outline) || negb (truthy_string (clerk_user_id req))
      then respond 400 (Error "Missing required fields")
      else
        let session_id := string_or (session_id req) "" in
        let user_message := string_or (user_message req) "" in
        let clerk_user_id := string_or (clerk_user_id req) "" in
        found <- select tbl_course_generation_sessions
                   (fun d => filter (Session.owned_by session_id clerk_user_id)
                               (course_generation_sessions d)) ;;
        match single found with
        | None => respond 404 (Error "Session not found or unauthorized")
        | Some session =>
            conversations <- select tbl_course_conversations (history session_id) ;;
            content <- chat env system_message
                         (editPrompt session current_outline
                            (conversationContext conversations) user_message) ;;
            updatedOutline <- or_throw (parse_model_output JSON_parse content) ;;
            _ <- write env tbl_course_conversations
                   (with_conversations
                      (fun rows =>
                         (rows ++ exchange env session_id user_message updatedOutline)%list)) ;;
            _ <- write env tbl_course_generation_sessions
                   (with_sessions
                      (Session.update session_id
                         (Session.set_outline updatedOutline (now env)))) ;;
            respond 200 (OutlineUpdated updatedOutline)
        end
  end.

Definition serve (env : Env) (method : string) (req : EditRequest) (d : DB)
  : Response * DB * list Event :=
  run "Error editing course outline:" method (handler env req) d.
End Handler.

(** A request that passes the validation. *)
Definition valid (method : string) (req : EditRequest) (sid msg : string) (cur : JSON)
  (uid : string) : Prop :=
  method <> "OPTIONS"
  /\ session_id req = Some sid /\ sid <> ""
  /\ user_message req = Some msg /\ msg <> ""
  /\ current_outline req = Some cur /\ truthy cur = true
  /\ clerk_user_id req = Some uid /\ uid <> "".

End EditCourseOutline.

(** ** generate-final-course *)

Module GenerateFinalCourse.

Record FinalCourseRequest := mk {
  session_id : option string;
  approved_outline : value;
  clerk_user_id : option string }.

Definition FINAL_COURSE_SYSTEM_PROMPT : string :=
  "Full Self-Teaching Course Generation
Your task is to generate a fully detailed self-teaching course based on the approved course proposal and the following user requirements and constraints.

Variables (retain placeholders):
(1) Topic/Subject: {TOPIC}
(2) Context & Background: {CONTEXT}
(3) Current Knowledge Level of User: {KNOWLEDGE_LEVEL}
(4) User's Learning Goals: {LEARNING_GOALS}
(5) Preferred Duration: {PREFERRED_DURATION}
(6) Approved Course Outline: {COURSE_OUTLINE}

Instructions
Strict Adherence to Proposal

Use the provided {COURSE_OUTLINE} as the structure for the course.

Maintain the agreed number of modules, order, and depth as specified in the outline.

Only make minor adjustments (e.g., sequencing, examples) if absolutely necessary for logical flow; otherwise, request clarification.

Content Creation

For each module and lesson, generate:

A clear, descriptive title.

Concise learning objectives/outcomes aligned with {LEARNING_GOALS} and {KNOWLEDGE_LEVEL}.

Detailed explanations, structured logically and written accessibly for the user's background.

Diverse instructional methods and learning styles (e.g., concise readings, hands-on or practical tasks, relevant multimedia suggestions, interactive exercises, discussion prompts, or quizzes), as appropriate per section.

Real-world examples, analogies, or case studies where relevant.

At least one suggested assessment or self-evaluation activity per lesson/module.

End-of-lesson summary or key takeaway points.

Adjust the quantity and depth of content to fit {PREFERRED_DURATION}, balancing comprehensiveness with efficiency.

Give actionable study and progression advice (e.g., recommended pace, optional deeper learning).

References and Transparency

Cite all sources clearly at the end of each lesson and in a consolidated reference list at the end of the course.

Only use reputable, authoritative, and/or peer-reviewed sources.

Explicitly note any limitations, open questions, or areas of uncertainty.

Output Formatting

Present the course as a clear, hierarchical outline of modules and lessons.

Use bullet points, numbered lists, tables, or clear sections as needed for readability.

Include an introductory section summarizing the overall course aim, prerequisites (if any), and instructions for the learner.

Responsiveness to User Needs

Keep all language and instructional detail directly matched to {KNOWLEDGE_LEVEL} and {LEARNING_GOALS}.

Ensure tone and examples are appropriate for the user profile.".

Definition system_message : string :=
  "You are an expert educational content creator. Generate comprehensive, detailed course content based on approved outlines. Create engaging, practical learning materials with clear structure and actionable content.".

Definition personalizedPrompt (session : Session.t) (approved_outline : JSON) : string :=
  replace_all "{COURSE_OUTLINE}" (stringify approved_outline)
    (replace_all "{PREFERRED_DURATION}" (Session.preferred_duration session)
       (replace_all "{LEARNING_GOALS}" (Session.learning_goals session)
          (replace_all "{KNOWLEDGE_LEVEL}" (Session.knowledge_level session)
             (replace_all "{CONTEXT}" (Session.context session)
                (replace_all "{TOPIC}" (Session.topic session)
                   FINAL_COURSE_SYSTEM_PROMPT))))).

(** [m.k] inside a callback of [map]: a TypeError on [null]. *)
Definition read_property (m : JSON) (k : string) : value + string :=
  match m with
  | JNull => inr ("Cannot read properties of null (reading '" ++ k ++ "')")
  | _ => inl (get m k)
  end.

(** [modules.map(f)] for a callback that may throw. *)
Fixpoint map_items {A} (f : nat -> JSON -> A + string) (index : nat) (items : list JSON)
  : list A + string :=
  match items with
  | [] => inl []
  | m :: rest =>
      match f index m with
      | inr message => inr message
      | inl a =>
          match map_items f (S index) rest with
          | inr message => inr message
          | inl l => inl (a :: l)
          end
      end
  end.

(** An array element that is [undefined] is sent as [null]. *)
Definition sent (v : value) : JSON :=
  match v with Some j => j | None => JNull end.

(** [approved_outline.modules?.map((m) => m.title) || []] *)
Definition objectives_of (modules : value) : list JSON + string :=
  match modules with
  | None | Some JNull => inl []
  | Some (JArray items) =>
      map_items (fun _ m =>
                   match read_property m "title" with
                   | inl t => inl (sent t)
                   | inr message => inr message
                   end) O items
  | Some _ => inr "approved_outline.modules?.map is not a function"
  end.

(** [approved_outline.modules?.length || 0], reached only when
    [objectives_of] did not throw. *)
Definition total_modules_of (modules : value) : Z :=
  match modules with
  | Some (JArray items) => or_zero (Some (Z.of_nat (List.length items)))
  | _ => 0
  end.

Definition module_rows (course_id courseContent : string) (items : list JSON)
  : list CourseModule.t + string :=
  map_items (fun index module =>
               match read_property module "title", read_property module "description" with
               | inl t, inl d =>
                   inl (CourseModule.mk course_id t d courseContent
                          (Z.of_nat index + 1) [] [])
               | inr message, _ | _, inr message => inr message
               end) O items.

(** The payload of the insert into [courses]. *)
Definition course_row (env : Env) (sid uid : string) (session : Session.t)
  (approved_outline : JSON) (objectives : list JSON) : Course.t :=
  Course.mk (new_id env) None (Some uid)
    (or_else (get approved_outline "title") (JString (Session.topic session)))
    (or_else (get approved_outline "description")
       (JString ("A comprehensive course on " ++ Session.topic session)))
    (Session.topic session) (Session.context session) (Session.knowledge_level session)
    objectives (total_modules_of (get approved_outline "modules")) "active" true
    (Course.mk_metadata sid approved_outline (now env)) None.

Definition handler (env : Env) (req : FinalCourseRequest) : M Response :=
  match approved_outline req with
  | None => respond 400 (Error "Missing required fields")
  | Some approved_outline =>
      if negb (truthy_string (session_id req)) || negb (truthy approved_outline)
         || negb (truthy_string (clerk_user_id req))
      then respond 400 (Error "Missing required fields")
      else
        let session_id := string_or (session_id req) "" in
        let clerk_user_id := string_or (clerk_user_id req) "" in
        found <- select tbl_course_generation_sessions
                   (fun d => filter (Session.owned_by session_id clerk_user_id)
                               (course_generation_sessions d)) ;;
        match single found with
        | None => respond 404 (Error "Session not found or unauthorized")
        | Some session =>
            courseContent <- chat env system_message
                               (personalizedPrompt session approved_outline) ;;
            let modules := get approved_outline "modules" in
            objectives <- or_throw (objectives_of modules) ;;
            let course :=
              course_row env session_id clerk_user_id session approved_outline objectives in
            courseError <- write env tbl_courses
                             (with_courses (fun rows => (rows ++ [course])%list)) ;;
            match courseError with
            | Some message => throw ("Database error creating course: " ++ message)
            | None =>
                match modules with
                | Some (JArray items) =>
                    rows <- or_throw (module_rows (Course.id course) courseContent items) ;;
                    modulesError <- write env tbl_course_modules
                                      (with_modules (fun old => (old ++ rows)%list)) ;;
                    match modulesError with
                    | Some message => console_error ("Error creating modules: " ++ message)
                    | None => ret tt
                    end
                | _ => ret tt
                end ;;;
                progressError <- write env tbl_user_progress
                                   (with_progress
                                      (fun rows =>
                                         (rows ++
                                          [Progress.mk None (Some clerk_user_id)
                                             (Course.id course) 0 [] 0 (now env) ""])%list)) ;;
                match progressError with
                | Some message => console_error ("Error creating progress record: " ++ message)
                | None => ret tt
                end ;;;
                _ <- write env tbl_course_generation_sessions
                       (with_sessions
                          (Session.update session_id
                             (Session.set_status "completed" (now env)))) ;;
                respond 200
                  (CourseCreated
                     (mkCoursePayload (Course.id course) (Course.title course)
                        (Course.description course) courseContent
                        (or_else modules (JArray []))))
            end
        end
  end.

Definition serve (env : Env) (method : string) (req : FinalCourseRequest) (d : DB)
  : Response * DB * list Event :=
  run "Error generating final course:" method (handler env req) d.

(** The modules of an outline: the entries of its [modules] array, none
    when it has no such array. *)
Definition modules_of (approved_outline : JSON) : list JSON :=
  match get approved_outline "modules" with
  | Some (JArray items) => items
  | _ => []
  end.

End GenerateFinalCourse.

(** ** get-user-analytics: the learning streak *)

Module GetUserAnalytics.

Definition MS_PER_DAY : Z := 1000 * 60 * 60 * 24.

(** [date.setHours(0, 0, 0, 0)], the runtime's time zone being UTC. *)
Definition midnight (t : Z) : Z := t - t mod MS_PER_DAY.

(** [.order('last_accessed', { ascending: false })] *)
Fixpoint insert_desc (x : Z) (sorted : list Z) : list Z :=
  match sorted with
  | [] => [x]
  | y :: rest => if y <? x then x :: sorted else y :: insert_desc x rest
  end.

Definition order_desc (l : list Z) : list Z := fold_right insert_desc [] l.

Definition accesses (userId : string) (d : DB) : list Z :=
  order_desc
    (map Progress.last_accessed
       (filter (fun p => match Progress.user_id p with
                         | Some u => (u =? userId)%string
                         | None => false
                         end)
          (user_progress d))).

(** The [for ... of] loop with its [break]. *)
Fixpoint count_streak (today : Z) (progressData : list Z) (streak : Z) : Z :=
  match progressData with
  | [] => streak
  | last_accessed :: rest =>
      let daysDiff := (today - midnight last_accessed) / MS_PER_DAY in
      if daysDiff =? streak then count_streak today rest (streak + 1) else streak
  end.

Definition calculateLearningStreak (env : Env) (userId : string) (d : DB) : Z :=
  match accesses userId d with
  | [] => 0
  | progressData => count_streak (midnight (now env)) progressData 0
  end.

End GetUserAnalytics.

(** ** Reading the store and the trace *)

(** The progress record the reconciler finds for (user, course). *)
Definition stored_progress (uid cid : string) (d : DB) : option Progress.t :=
  single (filter (UpdateProgress.owned_by uid cid) (user_progress d)).

(** [time_spent], when the request carries one. *)
Definition delta (req : UpdateProgress.ProgressUpdate) : Z :=
  match UpdateProgress.time_spent req with
  | Some z => z
  | None => 0
  end.

(** The chat requests of a trace, in order. *)
Fixpoint fetched (t : list Event) : list (string * string) :=
  match t with
  | [] => []
  | Fetch system user :: rest => (system, user) :: fetched rest
  | _ :: rest => fetched rest
  end.

(** The writes of a trace, in order, each with whether it was applied. *)
Fixpoint written (t : list Event) : list (Table * bool) :=
  match t with
  | [] => []
  | Write tbl applied :: rest => (tbl, applied) :: written rest
  | _ :: rest => written rest
  end.

Definition is_refused (w : Table * bool) : bool := negb (snd w).

(** A response that reports the operation as done. *)
Definition reports_success (r : Response) : bool :=
  (status r =? 200) && success (body r).

(** Two environments that differ at most in which writes the store
    refuses. *)
Definition same_inputs (env env' : Env) : Prop :=
  now env = now env' /\ new_id env = new_id env'
  /\ forall system user, provider env system user = provider env' system user.

(** A sequence of progress updates, each with the environment it runs
    in. *)
Record Invocation := mkInvocation {
  inv_env : Env;
  inv_method : string;
  inv_user : option string;
  inv_request : UpdateProgress.ProgressUpdate }.

Definition invoke (d : DB) (i : Invocation) : DB :=
  db_of (UpdateProgress.serve (inv_env i) (inv_method i) (inv_user i) (inv_request i) d).

Definition invoke_all (invocations : list Invocation) (d : DB) : DB :=
  fold_left invoke invocations d.

(** The outcome of [serve] on a thrown error. *)
Definition failed (label message : string) (d : DB) (t : list Event)
  : Response * DB * list Event :=
  (mkResponse 500 (Error message), d, (t ++ [ConsoleError (label ++ " " ++ message)])%list).

(** A write as the store takes it: the table afterwards and the event. *)
Definition attempt (env : Env) (t : Table) (apply : DB -> DB) (d : DB) : DB * Event :=
  match write_error env t with
  | None => (apply d, Write t true)
  | Some _ => (d, Write t false)
  end.

(** The course rows of the caller [uid] with the id [cid]: the rows that
    carry that id and the caller as their [user_id]. *)
Definition callers_course (uid cid : string) (c : Course.t) : Prop :=
  Course.id c = cid /\ Course.user_id c = Some uid.

(** A course row [c] and the row [c'] it is once completed at the time
    [at_]: the status is completed, completed_at is [at_], and every other
    column is as it was. *)
Definition completed_at_time (at_ : Z) (c c' : Course.t) : Prop :=
  Course.status c' = "completed"
  /\ Course.completed_at c' = Some at_
  /\ Course.id c' = Course.id c
  /\ Course.user_id c' = Course.user_id c
  /\ Course.clerk_user_id c' = Course.clerk_user_id c
  /\ Course.title c' = Course.title c
  /\ Course.description c' = Course.description c
  /\ Course.topic c' = Course.topic c
  /\ Course.context c' = Course.context c
  /\ Course.knowledge_level c' = Course.knowledge_level c
  /\ Course.objectives c' = Course.objectives c
  /\ Course.total_modules c' = Course.total_modules c
  /\ Course.ai_generated c' = Course.ai_generated c
  /\ Course.metadata c' = Course.metadata c.

(** What a progress update with a percentage of 100 or more makes of a
    course row [c]: a row of the caller with the id of the request is
    completed at the time of the call, whatever its status and its
    completed_at were; any other row is left as it was. *)
Definition completion (env : Env) (uid cid : string) (c c' : Course.t) : Prop :=
  (callers_course uid cid c -> completed_at_time (now env) c c')
  /\ (~ callers_course uid cid c -> c' = c).

(** A row of the caller's course is completed, with completed_at the
    time [at_]. *)
Definition stamped (uid cid : string) (at_ : Z) (c : Course.t) : Prop :=
  callers_course uid cid c ->
  Course.status c = "completed" /\ Course.completed_at c = Some at_.

(** A course row [c] and what it has become: the same id, the status it
    had or the status completed, and no way back from completed. *)
Definition kept (c c' : Course.t) : Prop :=
  Course.id c' = Course.id c
  /\ (Course.status c' = Course.status c \/ Course.status c' = "completed")
  /\ (Course.status c = "completed" -> Course.status c' = "completed").

Fixpoint occurs (c : ascii) (s : string) : bool :=
  match s with
  | EmptyString => false
  | String c' rest => Ascii.eqb c c' || occurs c rest
  end.

(** ** The fallback of the model gateway, as the specification words it

    "attempt to extract the first balanced [{...}] span and parse that" *)

(** The text up to the brace that closes an open one, [depth] further
    braces being open. *)
Fixpoint balanced_prefix (depth : nat) (s : string) : option string :=
  match s with
  | EmptyString => None
  | String c rest =>
      if Ascii.eqb c "}" then
        match depth with
        | O => Some (String c "")
        | S depth' => option_map (String c) (balanced_prefix depth' rest)
        end
      else if Ascii.eqb c "{" then option_map (String c) (balanced_prefix (S depth) rest)
      else option_map (String c) (balanced_prefix depth rest)
  end.

Fixpoint first_balanced_span (s : string) : option string :=
  match s with
  | EmptyString => None
  | String c rest =>
      if Ascii.eqb c "{" then
        match balanced_prefix O rest with
        | Some p => Some (String c p)
        | None => first_balanced_span rest
        end
      else first_balanced_span rest
  end.

Definition spec_parse_model_output (JSON_parse : string -> ParseResult) (content : string)
  : JSON + string :=
  match JSON_parse content with
  | Parsed v => inl v
  | SyntaxError _ =>
      match first_balanced_span content with
      | Some span =>
          match JSON_parse span with
          | Parsed v => inl v
          | SyntaxError message => inr message
          end
      | None => inr "Failed to parse AI response as JSON"
      end
  end.

(** ** The learning streak, as the specification words it

    "count of consecutive calendar days (most-recent-first) with at least
    one access, broken on the first gap; streak of 0 if no access
    records" *)

(** The calendar day of a timestamp. *)
Definition day_of (t : Z) : Z := t / GetUserAnalytics.MS_PER_DAY.

Definition accessed_on (accesses : list Z) (day : Z) : bool :=
  existsb (fun t => day_of t =? day) accesses.

(** The days [day], [day - 1], ... that each have an access, up to the
    first day without one.  No more days than there are accesses can
    count. *)
Fixpoint consecutive_days (fuel : nat) (accesses : list Z) (day : Z) : Z :=
  match fuel with
  | O => 0
  | S fuel' =>
      if accessed_on accesses day
      then 1 + consecutive_days fuel' accesses (day - 1)
      else 0
  end.

Definition spec_learning_streak (env : Env) (userId : string) (d : DB) : Z :=
  let accesses := GetUserAnalytics.accesses userId d in
  consecutive_days (List.length accesses) accesses (day_of (now env)).

(** ** Scenarios *)

Module Scenario.

Definition same_table (a b : Table) : bool :=
  match a, b with
  | tbl_course_generation_sessions, tbl_course_generation_sessions
  | tbl_course_conversations, tbl_course_conversations
  | tbl_courses, tbl_courses
  | tbl_course_modules, tbl_course_modules
  | tbl_user_progress, tbl_user_progress
  | tbl_module_progress, tbl_module_progress => true
  | _, _ => false
  end.

(** The store applies every write; the clock shows [t]; the provider
    answers [reply]. *)
Definition at_time (t : Z) (reply : string) : Env :=
  mkEnv t "course-1" (fun _ => None) (fun _ _ => Completion reply).

(** The same, but the store refuses the write to table [refused]. *)
Definition refusing (refused : Table) (t : Z) (reply : string) : Env :=
  mkEnv t "course-1"
    (fun tbl => if same_table tbl refused then Some "write refused" else None)
    (fun _ _ => Completion reply).

Definition field (k v : string) : string * JSON := (k, JString v).

Definition module_draft (title description : string) : JSON :=
  JObject [field "title" title; field "description" description].

Definition outline (title : string) (modules : list JSON) : JSON :=
  JObject [field "title" title;
           field "description" "How plants turn light into sugar";
           ("modules", JArray modules)].

Definition stored_outline : JSON :=
  outline "Photosynthesis" [module_draft "Light reactions" "Capturing light"].

Definition client_outline : JSON :=
  outline "Photosynthesis for the exam"
    [module_draft "Light reactions" "Capturing light";
     module_draft "Calvin cycle" "Fixing carbon"].

Definition session : Session.t :=
  Session.mk "session-1" "user-1" "Photosynthesis" "for a biology exam" "beginner"
    "pass the exam" "3-5" stored_outline "outline_review" 0.

Definition sessions_only : DB := mkDB [session] [] [] [] [] [].

(** The text of a reply that is one JSON object. *)
Definition reply : string :=
  "{" ++ dq ++ "title" ++ dq ++ ": " ++ dq ++ "Photosynthesis" ++ dq ++ ", "
      ++ dq ++ "modules" ++ dq ++ ": []}".

(** A reply with prose around the object, and a second pair of braces
    in the prose. *)
Definition chatty_reply : string :=
  "Here you go: " ++ reply ++ " (send {} to start over)".

Definition edit_request : EditCourseOutline.EditRequest :=
  EditCourseOutline.mk (Some "session-1") (Some "add a module on chlorophyll")
    (Some client_outline) (Some "user-1").

Definition outline_request : GenerateCourseOutline.OutlineRequest :=
  GenerateCourseOutline.mk (Some "Photosynthesis") (Some "for a biology exam")
    (Some "beginner") (Some "pass the exam") (Some "3-5") (Some "user-1").

Definition final_request : GenerateFinalCourse.FinalCourseRequest :=
  GenerateFinalCourse.mk (Some "session-1") (Some client_outline) (Some "user-1").

Definition course : Course.t :=
  Course.mk "course-1" (Some "user-1") None (JString "Photosynthesis")
    (JString "How plants turn light into sugar") "Photosynthesis" "for a biology exam"
    "beginner" [] 2 "active" true (Course.mk_metadata "session-1" client_outline 0) None.

Definition progress (pct spent at_ : Z) : Progress.t :=
  Progress.mk (Some "user-1") None "course-1" pct [] spent at_ "".

(** One course of the user, begun: 10 percent, 5 units of time. *)
Definition begun : DB := mkDB [] [] [course] [] [progress 10 5 0] [].

(** One course of the user, no progress record yet. *)
Definition untouched : DB := mkDB [] [] [course] [] [] [].

Definition update (pct spent : Z) : UpdateProgress.ProgressUpdate :=
  UpdateProgress.mk (Some "course-1") None (Some pct) None (Some spent) None.

Definition day : Z := GetUserAnalytics.MS_PER_DAY.
Definition hour : Z := 1000 * 60 * 60.

(** Three courses of the user: two opened today (day 20), at 9 and at 10
    o'clock, one opened yesterday at noon. *)
Definition three_courses : DB :=
  mkDB [] [] [] []
    [Progress.mk (Some "user-1") None "course-1" 50 [] 0 (20 * day + 9 * hour) "";
     Progress.mk (Some "user-1") None "course-2" 20 [] 0 (19 * day + 12 * hour) "";
     Progress.mk (Some "user-1") None "course-3" 10 [] 0 (20 * day + 10 * hour) ""]
    [].

(** Day 20, 6 o'clock in the evening. *)
Definition this_evening : Env := at_time (20 * day + 18 * hour) reply.

End Scenario.

(** ** Further readings of the store *)

(** At most one progress record for each (user, course). *)
Definition unique_progress (d : DB) : Prop :=
  forall uid cid,
    (List.length (filter (UpdateProgress.owned_by uid cid) (user_progress d)) <= 1)%nat.

(** The progress records of everyone and everything else. *)
Definition other_progress (uid cid : string) (d : DB) : list Progress.t :=
  filter (fun p => negb (UpdateProgress.owned_by uid cid p)) (user_progress d).

(** A trace none of whose writes was applied. *)
Definition nothing_applied (t : list Event) : Prop :=
  Forall (fun w => snd w = false) (written t).

(** The checks of the handlers on the fields of a request. *)
Definition edit_fields_present (req : EditCourseOutline.EditRequest) : bool :=
  truthy_string (EditCourseOutline.session_id req)
  && truthy_string (EditCourseOutline.user_message req)
  && truthy_value (EditCourseOutline.current_outline req)
  && truthy_string (EditCourseOutline.clerk_user_id req).

Definition outline_fields_present (req : GenerateCourseOutline.OutlineRequest) : bool :=
  truthy_string (GenerateCourseOutline.topic req)
  && truthy_string (GenerateCourseOutline.context req)
  && truthy_string (GenerateCourseOutline.knowledge_level req)
  && truthy_string (GenerateCourseOutline.learning_goals req)
  && truthy_string (GenerateCourseOutline.preferred_duration req)
  && truthy_string (GenerateCourseOutline.clerk_user_id req).

Definition final_fields_present (req : GenerateFinalCourse.FinalCourseRequest) : bool :=
  truthy_string (GenerateFinalCourse.session_id req)
  && truthy_value (GenerateFinalCourse.approved_outline req)
  && truthy_string (GenerateFinalCourse.clerk_user_id req).

(** No session [sid] of user [uid]: every session of that id belongs to
    someone else. *)
Definition not_the_callers (sid uid : string) (d : DB) : Prop :=
  Forall (fun s => Session.id s = sid -> Session.clerk_user_id s <> uid)
    (course_generation_sessions d).

(** What an edit may make of a session row: the outline and the time of
    update of a row with the id of the request, and nothing else. *)
Definition same_session_but_outline (sid : option string) (s s' : Session.t) : Prop :=
  Session.id s' = Session.id s
  /\ Session.clerk_user_id s' = Session.clerk_user_id s
  /\ Session.topic s' = Session.topic s
  /\ Session.context s' = Session.context s
  /\ Session.knowledge_level s' = Session.knowledge_level s
  /\ Session.learning_goals s' = Session.learning_goals s
  /\ Session.preferred_duration s' = Session.preferred_duration s
  /\ Session.status s' = Session.status s
  /\ (sid <> Some (Session.id s) -> s' = s).

(** A materialization request that passes the validation. *)
Definition final_valid (method : string) (req : GenerateFinalCourse.FinalCourseRequest)
  (sid : string) (approved : JSON) (uid : string) : Prop :=
  method <> "OPTIONS"
  /\ GenerateFinalCourse.session_id req = Some sid /\ sid <> ""
  /\ GenerateFinalCourse.approved_outline req = Some approved /\ truthy approved = true
  /\ GenerateFinalCourse.clerk_user_id req = Some uid /\ uid <> "".

(** What a materialization may make of a session row: the status and
    the time of update of a row with the id of the request, and nothing
    else. *)
Definition same_session_but_status (sid : option string) (s s' : Session.t) : Prop :=
  Session.id s' = Session.id s
  /\ Session.clerk_user_id s' = Session.clerk_user_id s
  /\ Session.topic s' = Session.topic s
  /\ Session.context s' = Session.context s
  /\ Session.knowledge_level s' = Session.knowledge_level s
  /\ Session.learning_goals s' = Session.learning_goals s
  /\ Session.preferred_duration s' = Session.preferred_duration s
  /\ Session.current_outline s' = Session.current_outline s
  /\ (sid <> Some (Session.id s) -> s' = s).

(** The rows a write adds to a table when the store applies it. *)
Definition added {A} (env : Env) (t : Table) (rows : list A) : list A :=
  match write_error env t with
  | None => rows
  | Some _ => []
  end.

(** A [modules] value the insert payload can be built from: absent,
    null, or an array without a null entry. *)
Definition mappable (modules : value) : bool :=
  match modules with
  | None | Some JNull => true
  | Some (JArray items) =>
      forallb (fun m => match m with JNull => false | _ => true end) items
  | Some _ => false
  end.

(** ** get-user-analytics: the progress of the week *)

Module WeeklyProgress.
Import GetUserAnalytics.

(** An entry of the answer: [{ date, time_spent, sessions }]. *)
Record Daily := mkDaily {
  date : string;
  time_spent : Z;
  sessions : Z }.

(** [oneWeekAgo.setDate(oneWeekAgo.getDate() - 7)], the runtime's time
    zone being UTC. *)
Definition oneWeekAgo (env : Env) : Z := now env - 7 * MS_PER_DAY.

(** [.eq('user_id', userId).gte('last_accessed', oneWeekAgo.toISOString())] *)
Definition weeklyData (env : Env) (userId : string) (d : DB) : list Progress.t :=
  filter (fun p => match Progress.user_id p with
                   | Some u => (u =? userId)%string
                   | None => false
                   end
                   && (oneWeekAgo env <=? Progress.last_accessed p))
    (user_progress d).

(** The body of the [forEach] on the object [dailyProgress], whose keys
    are kept in the order of their creation: the entry of [date] is
    created at zero when there is none, and the item is added to it. *)
Fixpoint add_item (date : string) (spent : Z) (dailyProgress : list Daily) : list Daily :=
  match dailyProgress with
  | [] => [mkDaily date (0 + spent) (0 + 1)]
  | entry :: rest =>
      if (WeeklyProgress.date entry =? date)%string
      then mkDaily date (time_spent entry + spent) (sessions entry + 1) :: rest
      else entry :: add_item date spent rest
  end.

Section DateString.
(** [new Date(t).toDateString()]: the text of the day of [t], which is
    never the name of a property that every object has, nor the text of
    a number. *)
Variable toDateString : Z -> string.

Definition getWeeklyProgress (env : Env) (userId : string) (d : DB) : list Daily :=
  fold_left
    (fun dailyProgress item =>
       add_item (toDateString (Progress.last_accessed item))
         (or_zero (Some (Progress.time_spent item))) dailyProgress)
    (weeklyData env userId d) [].

(** The records of a day among [rows]. *)
Definition on_day (day : string) (rows : list Progress.t) : list Progress.t :=
  filter (fun p => (toDateString (Progress.last_accessed p) =? day)%string) rows.
End DateString.

Definition total (l : list Z) : Z := fold_right Z.add 0 l.

(** [dailyProgress[day]] *)
Definition entry_of (day : string) (l : list Daily) : option Daily :=
  find (fun e => (date e =? day)%string) l.

End WeeklyProgress.

(** The user's progress records. *)
Definition records_of (userId : string) (d : DB) : list Progress.t :=
  filter (fun p => match Progress.user_id p with
                   | Some u => (u =? userId)%string
                   | None => false
                   end)
    (user_progress d).

(** ** Sequences of invocations *)

(** A sequence of outline edits, each with the environment it runs in. *)
Record Edit := mkEdit {
  edit_env : Env;
  edit_method : string;
  edit_request : EditCourseOutline.EditRequest }.

Section Edits.
Variable JSON_parse : string -> ParseResult.

Definition edit (d : DB) (e : Edit) : DB :=
  db_of (EditCourseOutline.serve JSON_parse (edit_env e) (edit_method e) (edit_request e) d).

Definition edit_all (edits : list Edit) (d : DB) : DB := fold_left edit edits d.
End Edits.

(** Two session rows of the same id, owner and parameters. *)
Definition same_parameters (s s' : Session.t) : Prop :=
  Session.id s' = Session.id s
  /\ Session.clerk_user_id s' = Session.clerk_user_id s
  /\ Session.topic s' = Session.topic s
  /\ Session.context s' = Session.context s
  /\ Session.knowledge_level s' = Session.knowledge_level s
  /\ Session.learning_goals s' = Session.learning_goals s
  /\ Session.preferred_duration s' = Session.preferred_duration s.

(** The progress record a materialization inserts for its new course
    and the caller [uid]: it is stored under the caller's
    [clerk_user_id], with no [user_id]. *)
Definition initial_progress (env : Env) (uid : string) : Progress.t :=
  Progress.mk None (Some uid) (new_id env) 0 [] 0 (now env) "".

(** ** Further scenarios *)

Module MoreScenarios.
Import Scenario.

(** The outline that [reply] parses to. *)
Definition parsed_reply : JSON :=
  JObject [field "title" "Photosynthesis"; ("modules", JArray [])].

(** The request of scenario A, sent by another user. *)
Definition foreign_edit_request : EditCourseOutline.EditRequest :=
  EditCourseOutline.mk (Some "session-1") (Some "add a module on chlorophyll")
    (Some client_outline) (Some "user-2").

(** The request as the review panel sends it: without the user's id. *)
Definition anonymous_edit_request : EditCourseOutline.EditRequest :=
  EditCourseOutline.mk (Some "session-1") (Some "add a module on chlorophyll")
    (Some client_outline) None.

Definition second_edit_request : EditCourseOutline.EditRequest :=
  EditCourseOutline.mk (Some "session-1") (Some "make it shorter")
    (Some parsed_reply) (Some "user-1").

(** An outline request whose context is the empty string. *)
Definition incomplete_outline_request : GenerateCourseOutline.OutlineRequest :=
  GenerateCourseOutline.mk (Some "Photosynthesis") (Some "") (Some "beginner")
    (Some "pass the exam") (Some "3-5") (Some "user-1").

Definition foreign_final_request : GenerateFinalCourse.FinalCourseRequest :=
  GenerateFinalCourse.mk (Some "session-1") (Some client_outline) (Some "user-2").

Definition anonymous_final_request : GenerateFinalCourse.FinalCourseRequest :=
  GenerateFinalCourse.mk (Some "session-1") (Some client_outline) None.

(** An outline whose second module is null. *)
Definition broken_outline : JSON :=
  outline "Photosynthesis" [module_draft "Light reactions" "Capturing light"; JNull].

Definition broken_final_request : GenerateFinalCourse.FinalCourseRequest :=
  GenerateFinalCourse.mk (Some "session-1") (Some broken_outline) (Some "user-1").

Definition nothing_stored : DB := mkDB [] [] [] [] [] [].

(** The course of scenario B as generate-final-course stores it: under
    the caller's clerk_user_id, without a user_id; and the user's record
    of it. *)
Definition clerk_course : Course.t :=
  Course.mk "course-1" None (Some "user-1") (JString "Photosynthesis")
    (JString "How plants turn light into sugar") "Photosynthesis" "for a biology exam"
    "beginner" [] 2 "active" true (Course.mk_metadata "session-1" client_outline 0) None.

Definition generated : DB := mkDB [] [] [clerk_course] [] [progress 10 5 0] [].

(** The environment of an outline request: the session is given the id
    session-1. *)
Definition opening (t : Z) : Env :=
  mkEnv t "session-1" (fun _ => None) (fun _ _ => Completion reply).

(** The user's records of scenario C and one of last month. *)
Definition a_month : DB :=
  mkDB [] [] [] []
    [Progress.mk (Some "user-1") None "course-1" 50 [] 30 (20 * day + 9 * hour) "";
     Progress.mk (Some "user-1") None "course-2" 20 [] 45 (19 * day + 12 * hour) "";
     Progress.mk (Some "user-1") None "course-3" 10 [] 15 (20 * day + 10 * hour) "";
     Progress.mk (Some "user-1") None "course-4" 90 [] 600 (2 * day) "";
     Progress.mk (Some "user-2") None "course-1" 10 [] 5 (20 * day) ""]
    [].

(** A date text that tells the days apart: the number of the day. *)
Definition day_number (t : Z) : string := string_of_Z (day_of t).

(** Tomorrow: day 21. *)
Definition tomorrow : Env := at_time (21 * day + 8 * hour) reply.




End MoreScenarios.

(** * The client *)

(** ** The helpers of [api] *)

Module Api.

(** [response.ok] *)
Definition ok (r : Response) : bool := (200 <=? status r) && (status r <=? 299).

(** [response.json()]: the preflight answer is the text ok, which is no
    JSON. *)
Definition json (b : Body) : Body + string :=
  match b with
  | Preflight => inr "Unexpected token in JSON"
  | _ => inl b
  end.

(** The answer of a helper: the parsed body; for a response that is not
    ok, the throw of its [error], or of [fallback] when it has none. *)
Definition settle (fallback : string) (r : Response) : Body + string :=
  if ok r then json (body r)
  else match json (body r) with
       | inl (Error error) => inr (string_or (Some error) fallback)
       | inl _ => inr fallback
       | inr message => inr message
       end.

Section Server.
Variable JSON_parse : string -> ParseResult.


Definition editCourseOutline (env : Env) (data : EditCourseOutline.EditRequest) (d : DB)
  : (Body + string) * DB * list Event :=
  let r := EditCourseOutline.serve JSON_parse env "POST" data d in
  (settle "Failed to edit course outline" (response_of r), db_of r, trace_of r).
End Server.

Definition generateFinalCourse (env : Env) (data : GenerateFinalCourse.FinalCourseRequest)
  (d : DB) : (Body + string) * DB * list Event :=
  let r := GenerateFinalCourse.serve env "POST" data d in
  (settle "Failed to generate final course" (response_of r), db_of r, trace_of r).

End Api.

(** The text of a value in a template literal. *)
Fixpoint to_text (v : JSON) : string :=
  match v with
  | JNull => "null"
  | JBool true => "true"
  | JBool false => "false"
  | JNumber n => string_of_Z n
  | JString s => s
  | JArray items =>
      String.concat ","
        (map (fun item => match item with JNull => "" | _ => to_text item end) items)
  | JObject _ => "[object Object]"
  end.

(** ** The review of an outline *)

Module CourseOutlineReview.

Record Message := mkMessage {
  role : string;
  content : string;
  timestamp : Z }.

Record Toast := mkToast {
  title : string;
  description : string;
  destructive : bool }.

(** The state of the component. *)
Record State := mkState {
  currentOutline : value;
  isEditing : bool;
  userMessage : string;
  isProcessing : bool;
  isCreating : bool;
  conversationHistory : list Message }.

(** A handler run to its end: the state, the store, what the server
    did, the toasts shown, the errors logged, and the course handed to
    [onCreateCourse]. *)
Record Outcome := mkOutcome {
  state : State;
  store : DB;
  served : list Event;
  toasts : list Toast;
  logged : list string;
  created : option CoursePayload }.

(** [result.outline] *)
Definition outline_of (result : Body) : value :=
  match result with
  | SessionCreated _ outline => Some outline
  | _ => None
  end.

(** [result.course] *)
Definition course_of (result : Body) : option CoursePayload :=
  match result with
  | CourseCreated course => Some course
  | _ => None
  end.

Section Handlers.
(** [String.prototype.trim] *)
Variable trim : string -> string.
Variable JSON_parse : string -> ParseResult.

(** [at_] and [later] are the client's clock at the two [new Date()]. *)
Definition handleSendMessage (env : Env) (at_ later : Z) (sessionId : string) (s : State)
  (d : DB) : Outcome :=
  if negb (truthy_string (Some (trim (userMessage s)))) || isProcessing s
  then mkOutcome s d [] [] [] None
  else
    let newUserMessage := mkMessage "user" (userMessage s) at_ in
    let history := (conversationHistory s ++ [newUserMessage])%list in
    let after outline history :=
      mkState outline (isEditing s) "" false (isCreating s) history in
    match Api.editCourseOutline JSON_parse env
            (EditCourseOutline.mk (Some sessionId) (Some (userMessage s))
               (currentOutline s) None) d with
    | (inl result, d', t) =>
        if success result
        then
          let assistantMessage :=
            mkMessage "assistant"
              "I've updated the course outline based on your feedback. Please review the changes above."
              later in
          mkOutcome (after (outline_of result) (history ++ [assistantMessage])%list) d' t
            [mkToast "Outline updated"
               "The course outline has been revised based on your feedback." false]
            [] None
        else mkOutcome (after (currentOutline s) history) d' t [] [] None
    | (inr message, d', t) =>
        mkOutcome (after (currentOutline s) history) d' t
          [mkToast "Update failed" message true]
          ["Failed to edit outline: " ++ message] None
    end.

Definition handleCreateCourse (env : Env) (sessionId : string) (s : State) (d : DB)
  : Outcome :=
  let after :=
    mkState (currentOutline s) (isEditing s) (userMessage s) (isProcessing s) false
      (conversationHistory s) in
  match Api.generateFinalCourse env
          (GenerateFinalCourse.mk (Some sessionId) (currentOutline s) None) d with
  | (inl result, d', t) =>
      if success result
      then
        match course_of result with
        | Some course =>
            mkOutcome after d' t
              [mkToast "Course created successfully!"
                 ("Your personalized course " ++ dq ++ to_text (payload_title course) ++ dq
                  ++ " is ready.") false]
              [] (Some course)
        | None =>
            let message := "Cannot read properties of undefined (reading 'title')" in
            mkOutcome after d' t
              [mkToast "Course creation failed" message true]
              ["Failed to create course: " ++ message] None
        end
      else mkOutcome after d' t [] [] None
  | (inr message, d', t) =>
      mkOutcome after d' t
        [mkToast "Course creation failed" message true]
        ["Failed to create course: " ++ message] None
  end.
End Handlers.

(** The state in which the panel opens on [outline]. *)
Definition opened (outline : JSON) : State := mkState (Some outline) false "" false false [].

End CourseOutlineReview.

(** ** The lessons of a course *)

Module CourseContent.

Record State := mkState {
  currentLesson : Z;
  completedLessons : list Z }.

Definition initial : State := mkState 0 [].

Definition toggleLessonComplete (lessonIndex : Z) (s : State) : State :=
  if existsb (Z.eqb lessonIndex) (completedLessons s)
  then mkState (currentLesson s)
         (filter (fun i => negb (i =? lessonIndex)) (completedLessons s))
  else mkState (currentLesson s) (completedLessons s ++ [lessonIndex])%list.

(** What the user can do: click the row or the circle of the lesson
    [index], a row there being for each lesson, or one of the three
    buttons under the lesson. *)
Inductive Click : Type :=
| Row (index : nat)
| Circle (index : nat)
| PreviousLesson
| MarkComplete
| NextLesson.

Section Lessons.
(** [lessons.length] *)
Variable lessons : nat.

Definition click (s : State) (c : Click) : State :=
  match c with
  | Row index =>
      if (index <? lessons)%nat then mkState (Z.of_nat index) (completedLessons s) else s
  | Circle index =>
      if (index <? lessons)%nat then toggleLessonComplete (Z.of_nat index) s else s
  | PreviousLesson =>
      if currentLesson s =? 0 then s
      else mkState (Z.max 0 (currentLesson s - 1)) (completedLessons s)
  | MarkComplete => toggleLessonComplete (currentLesson s) s
  | NextLesson =>
      if currentLesson s =? Z.of_nat lessons - 1 then s
      else mkState (Z.min (Z.of_nat lessons - 1) (currentLesson s + 1)) (completedLessons s)
  end.

Definition clicks (l : list Click) : State := fold_left click l initial.

(** A list of completed lessons that holds lessons only, each once. *)
Definition tidy (s : State) : Prop :=
  NoDup (completedLessons s)
  /\ Forall (fun i => 0 <= i < Z.of_nat lessons) (completedLessons s).
End Lessons.

End CourseContent.

(** ** The user's profile *)

Module UserProfiles.

(** What the helper reads of the user object of the identity provider:
    [emailAddresses] may be absent, and each of its entries may lack its
    [emailAddress]. *)
Record ClerkUser := mkClerkUser {
  id : string;
  emailAddresses : option (list (option string));
  firstName : option string }.

(** A row of [user_profiles], with the columns the insert sets. *)
Record Profile := mkProfile {
  profile_id : string;
  clerk_user_id : string;
  email : string;
  display_name : string;
  interests : list string;
  personality_traits : list string;
  language : string;
  created_at : Z;
  updated_at : Z }.

(** What the store and the clock answer to the helper: the id given to
    a new row, the two readings of the clock, and the error of the
    insert when the store refuses it. *)
Record ProfileEnv := mkProfileEnv {
  new_profile_id : string;
  at_created : Z;
  at_updated : Z;
  insert_error : option string }.

(** [clerkUser.emailAddresses?.[0]?.emailAddress] *)
Definition first_email (clerkUser : ClerkUser) : option string :=
  match emailAddresses clerkUser with
  | Some (first :: _) => first
  | _ => None
  end.

(** [.eq('clerk_user_id', clerkUser.id)] *)
Definition profile_of (uid : string) (p : Profile) : bool := (clerk_user_id p =? uid)%string.

(** The payload of the insert. *)
Definition new_profile (env : ProfileEnv) (clerkUser : ClerkUser) : Profile :=
  mkProfile (new_profile_id env) (id clerkUser)
    (string_or (first_email clerkUser) "")
    (string_or (firstName clerkUser) (string_or (first_email clerkUser) "User"))
    [] [] "en" (at_created env) (at_updated env).

(** The profile returned, the table afterwards, and what was logged. *)
Definition ensureUserExists (env : ProfileEnv) (clerkUser : option ClerkUser)
  (rows : list Profile) : option Profile * list Profile * list string :=
  match clerkUser with
  | None => (None, rows, [])
  | Some clerkUser =>
      match single (filter (profile_of (id clerkUser)) rows) with
      | Some existingUser => (Some existingUser, rows, [])
      | None =>
          match insert_error env with
          | Some message => (None, rows, ["Error creating user: " ++ message])
          | None =>
              let newUser := new_profile env clerkUser in
              (Some newUser, (rows ++ [newUser])%list, [])
          end
      end
  end.

(** At most one profile for each user. *)
Definition one_profile_each (rows : list Profile) : Prop :=
  forall uid, (List.length (filter (profile_of uid) rows) <= 1)%nat.

End UserProfiles.

(** ** The wizard *)

Module CourseGenerator.

Record CourseData := mkCourseData {
  topic : string;
  context : string;
  currentLevel : string;
  goals : string;
  duration : string;
  difficulty : string }.

Record State := mkState {
  step : Z;
  generating : bool;
  courseData : CourseData;
  generatedOutline : value;
  sessionId : option string }.

(** The wizard as it opens; [generatedOutline] and [sessionId] are
    null. *)
Definition initial : State := mkState 1 false (mkCourseData "" "" "" "" "" "") None None.

(** A run of [generateOutline] to its end: the state, the profiles, the
    store, what the server did, the alerts shown and the errors
    logged. *)
Record Outcome := mkOutcome {
  state : State;
  profiles : list UserProfiles.Profile;
  store : DB;
  served : list Event;
  alerts : list string;
  logged : list string }.




Section Handlers.
(** [String.prototype.trim] *)
Variable trim : string -> string.
Variable JSON_parse : string -> ParseResult.


End Handlers.

End CourseGenerator.

(** ** Scenarios of the client *)

Module ClientScenarios.

Definition ada : UserProfiles.ClerkUser :=
  UserProfiles.mkClerkUser "user-1" (Some [Some "ada@example.org"]) None.

Definition first_visit : UserProfiles.ProfileEnv :=
  UserProfiles.mkProfileEnv "profile-1" 1000 1001 None.

(** The store refuses the insert of a profile. *)
Definition later_visit : UserProfiles.ProfileEnv :=
  UserProfiles.mkProfileEnv "profile-2" 2000 2001 (Some "write refused").


End ClientScenarios.

(** * Theorems *)

(** ** The frame and small facts *)

Lemma single_inv {A} (l : list A) (x : A) : single l = Some x -> l = [x].
Proof.
  destruct l as [|a [|b l]]; simpl; intro H; try discriminate.
  now inversion H.
Qed.

Lemma not_options (method : string) :
  method <> "OPTIONS" -> (method =? "OPTIONS")%string = false.
Proof. intro H. now apply String.eqb_neq. Qed.

Lemma truthy_string_Some (s : string) :
  s <> "" -> truthy_string (Some s) = true /\ string_or (Some s) "" = s.
Proof.
  intro H. apply String.eqb_neq in H. unfold truthy_string, string_or.
  now rewrite H.
Qed.

Lemma or_zero_Some (z : Z) : or_zero (Some z) = z.
Proof.
  unfold or_zero. destruct (Z.eqb_spec z 0); congruence.
Qed.

Lemma or_zero_delta (req : UpdateProgress.ProgressUpdate) :
  or_zero (UpdateProgress.time_spent req) = delta req.
Proof.
  unfold delta. destruct (UpdateProgress.time_spent req); [apply or_zero_Some | reflexivity].
Qed.

Lemma truthy_string_inv (o : option string) :
  truthy_string o = true -> exists s, o = Some s /\ s <> "".
Proof.
  destruct o as [s|]; [|discriminate]. unfold truthy_string.
  destruct (String.eqb_spec s ""); [discriminate|]. intros _. now exists s.
Qed.

Lemma session_update_spec sid f rows :
  Forall2 (fun s s' => s' = if (Session.id s =? sid)%string then f s else s)
    rows (Session.update sid f rows).
Proof.
  unfold Session.update. induction rows; simpl; constructor; auto.
Qed.

(** Symbolic execution of a handler: the monad's operations are unfolded
    and the projections of the world reduced; what the store and the
    provider answer stays as it is, for a case analysis. *)
Ltac exec :=
  cbv beta iota zeta
      delta [bind select write respond throw ret emit console_error or_throw chat run
             response_of db_of trace_of fst snd negb orb andb];
  cbn [db trace status body].

(** ** update-progress *)

Module UpdateProgressFacts.
Import UpdateProgress.

Lemma filter_update_rows (uid cid : string) (f : Progress.t -> Progress.t)
  (rows : list Progress.t) :
  (forall p, owned_by uid cid (f p) = owned_by uid cid p) ->
  filter (owned_by uid cid) (update_rows uid cid f rows)
  = map f (filter (owned_by uid cid) rows).
Proof.
  intro Hf. unfold update_rows.
  induction rows as [|p rows IH]; simpl; [reflexivity|].
  destruct (owned_by uid cid p) eqn:E.
  - rewrite Hf, E. simpl. now rewrite IH.
  - rewrite E. exact IH.
Qed.

Lemma owned_by_merge env req pct existing uid cid p :
  owned_by uid cid (merge env req pct existing p) = owned_by uid cid p.
Proof. reflexivity. Qed.

Lemma stored_after_merge env req pct existing uid cid d :
  stored_progress uid cid d = Some existing ->
  stored_progress uid cid
    (with_progress (update_rows uid cid (merge env req pct existing)) d)
  = Some (merge env req pct existing existing).
Proof.
  unfold stored_progress. intro H. apply single_inv in H.
  simpl. rewrite filter_update_rows by (intro; apply owned_by_merge).
  now rewrite H.
Qed.

Ltac enter H :=
  let Hm := fresh "Hm" in
  let Hc := fresh "Hc" in
  let Hne := fresh "Hne" in
  let Hp := fresh "Hp" in
  destruct H as (Hm & Hc & Hne & Hp);
  unfold serve, run; rewrite (not_options _ Hm);
  unfold handler; rewrite Hp, Hc;
  destruct (truthy_string_Some _ Hne) as [-> ->].

Ltac tail env req pct :=
  destruct (truthy_string (module_id req)); exec;
  [destruct (write_error env tbl_module_progress); exec|];
  (destruct (100 <=? pct) eqn:?; exec;
   [destruct (write_error env tbl_courses) eqn:?; exec|]).

(** The update of an existing record, when the store applies it. *)
Lemma serve_update env method uid req d cid pct existing :
  valid method req cid pct ->
  stored_progress uid cid d = Some existing ->
  write_error env tbl_user_progress = None ->
  let r := serve env method (Some uid) req d in
  response_of r = mkResponse 200 (ProgressSaved (merge env req pct existing existing))
  /\ user_progress (db_of r)
     = update_rows uid cid (merge env req pct existing) (user_progress d).
Proof.
  intros H Hs Hw. enter H. unfold stored_progress in Hs.
  exec. rewrite Hs. exec. rewrite Hw. exec.
  tail env req pct; split; reflexivity.
Qed.

(** The first record of a (user, course), when the store applies it. *)
Lemma serve_insert env method uid req d cid pct :
  valid method req cid pct ->
  stored_progress uid cid d = None ->
  write_error env tbl_user_progress = None ->
  let r := serve env method (Some uid) req d in
  response_of r = mkResponse 200 (ProgressSaved (fresh env uid cid req pct))
  /\ user_progress (db_of r) = (user_progress d ++ [fresh env uid cid req pct])%list.
Proof.
  intros H Hs Hw. enter H. unfold stored_progress in Hs.
  exec. rewrite Hs. exec. rewrite Hw. exec.
  tail env req pct; split; reflexivity.
Qed.

(** A refused progress write is thrown, and nothing is changed. *)
Lemma serve_refused env method uid req d cid pct message :
  valid method req cid pct ->
  write_error env tbl_user_progress = Some message ->
  let r := serve env method (Some uid) req d in
  response_of r = mkResponse 500 (Error message) /\ db_of r = d.
Proof.
  intros H Hw. enter H.
  exec. destruct (single _); exec; rewrite Hw; exec; destruct d; split; reflexivity.
Qed.

(** What a valid request does to the courses table. *)
Lemma serve_courses env method uid req d cid pct :
  valid method req cid pct ->
  write_error env tbl_user_progress = None ->
  courses (db_of (serve env method (Some uid) req d))
  = if (100 <=? pct)
    then match write_error env tbl_courses with
         | None => complete_course env uid cid (courses d)
         | Some _ => courses d
         end
    else courses d.
Proof.
  intros H Hw. enter H.
  exec. destruct (single _); exec; rewrite Hw; exec; tail env req pct; reflexivity.
Qed.

(** Every invocation leaves the courses as they were or completes the
    caller's rows of one course, and the latter only on a percentage of
    100 or more. *)
Lemma serve_courses_cases env method user req d :
  courses (db_of (serve env method user req d)) = courses d
  \/ exists uid cid pct,
       progress_percentage req = Some pct /\ 100 <= pct
       /\ courses (db_of (serve env method user req d))
          = complete_course env uid cid (courses d).
Proof.
  unfold serve, run.
  destruct (method =? "OPTIONS")%string; [now left|].
  unfold handler.
  destruct user as [uid|]; [|now left].
  destruct (progress_percentage req) as [pct|] eqn:Hp; [|now left].
  destruct (truthy_string (course_id req)); [|now left].
  exec.
  destruct (single _); exec;
    (destruct (write_error env tbl_user_progress); exec; [now left|]);
    tail env req pct; try (now left);
    right; exists uid, (string_or (course_id req) ""), pct;
    (split; [reflexivity | split; [now apply Z.leb_le | reflexivity]]).
Qed.

Lemma accepted_not_refused env method uid req d cid pct :
  valid method req cid pct ->
  status (response_of (serve env method (Some uid) req d)) = 200 ->
  write_error env tbl_user_progress = None.
Proof.
  intros H Hr.
  destruct (write_error env tbl_user_progress) as [message|] eqn:Hw; [|reflexivity].
  destruct (serve_refused env method uid req d cid pct message H Hw) as [E _].
  rewrite E in Hr. discriminate.
Qed.

(** C3. An accepted update of an existing progress record stores the
    maximum of the stored and the incoming percentage and adds the
    incoming time to the stored one.  So, of two accepted updates in a
    row, a second one that does not exceed the first leaves the percentage
    where it was (40 then 30 stays at 40), and the same update submitted
    twice keeps the percentage the second time and adds its time both
    times. *)
Theorem progress_is_max_and_time_is_added
  env1 env2 method uid req1 req2 d cid p q existing :
  valid method req1 cid p ->
  valid method req2 cid q ->
  stored_progress uid cid d = Some existing ->
  let r1 := serve env1 method (Some uid) req1 d in
  let r2 := serve env2 method (Some uid) req2 (db_of r1) in
  status (response_of r1) = 200 ->
  status (response_of r2) = 200 ->
  exists u1 u2,
    stored_progress uid cid (db_of r1) = Some u1
    /\ stored_progress uid cid (db_of r2) = Some u2
    /\ Progress.progress_percentage u1 = Z.max (Progress.progress_percentage existing) p
    /\ Progress.time_spent u1 = Progress.time_spent existing + delta req1
    /\ Progress.progress_percentage u2 = Z.max (Progress.progress_percentage u1) q
    /\ Progress.time_spent u2 = Progress.time_spent u1 + delta req2
    /\ (q <= p -> Progress.progress_percentage u2 = Progress.progress_percentage u1)
    /\ (Progress.progress_percentage existing <= p -> q <= p ->
        Progress.progress_percentage u2 = p)
    /\ (req2 = req1 ->
        Progress.progress_percentage u2 = Progress.progress_percentage u1
        /\ Progress.time_spent u2 = Progress.time_spent existing + 2 * delta req1).
Proof.
  intros H1 H2 Hs r1 r2 Hr1 Hr2.
  pose proof (accepted_not_refused _ _ _ _ _ _ _ H1 Hr1) as Hw1.
  pose proof (accepted_not_refused _ _ _ _ _ _ _ H2 Hr2) as Hw2.
  destruct (serve_update env1 method uid req1 d cid p existing H1 Hs Hw1) as [_ E1].
  assert (S1 : stored_progress uid cid (db_of r1) = Some (merge env1 req1 p existing existing)).
  { rewrite <- (stored_after_merge env1 req1 p existing uid cid d Hs).
    unfold stored_progress. subst r1. now rewrite E1. }
  set (u1 := merge env1 req1 p existing existing) in *.
  destruct (serve_update env2 method uid req2 (db_of r1) cid q u1 H2 S1 Hw2) as [_ E2].
  assert (S2 : stored_progress uid cid (db_of r2) = Some (merge env2 req2 q u1 u1)).
  { rewrite <- (stored_after_merge env2 req2 q u1 uid cid (db_of r1) S1).
    unfold stored_progress. subst r2. now rewrite E2. }
  exists u1, (merge env2 req2 q u1 u1).
  assert (T1 : Progress.time_spent u1 = Progress.time_spent existing + delta req1).
  { subst u1. cbn [merge Progress.time_spent]. now rewrite or_zero_Some, or_zero_delta. }
  assert (T2 : Progress.time_spent (merge env2 req2 q u1 u1)
               = Progress.time_spent u1 + delta req2).
  { cbn [merge Progress.time_spent]. now rewrite or_zero_Some, or_zero_delta. }
  assert (P1 : Progress.progress_percentage u1
               = Z.max (Progress.progress_percentage existing) p) by reflexivity.
  assert (P2 : Progress.progress_percentage (merge env2 req2 q u1 u1)
               = Z.max (Progress.progress_percentage u1) q) by reflexivity.
  do 6 (split; [assumption|]).
  split; [|split].
  - intro Hqp. rewrite P2, P1. lia.
  - intros Hep Hqp. rewrite P2, P1. lia.
  - intros ->. destruct H1 as (_ & _ & _ & Hp), H2 as (_ & _ & _ & Hq).
    rewrite Hp in Hq. injection Hq as <-. rewrite P2, T2, T1, P1. split; lia.
Qed.

(** The same from a first record: 40 sent when there is no record, then
    30, leaves 40. *)
Lemma first_record_then_lower_percentage
  env1 env2 method uid req1 req2 d cid p q :
  valid method req1 cid p ->
  valid method req2 cid q ->
  filter (owned_by uid cid) (user_progress d) = [] ->
  let r1 := serve env1 method (Some uid) req1 d in
  let r2 := serve env2 method (Some uid) req2 (db_of r1) in
  status (response_of r1) = 200 ->
  status (response_of r2) = 200 ->
  q <= p ->
  exists u2,
    stored_progress uid cid (db_of r2) = Some u2
    /\ Progress.progress_percentage u2 = p
    /\ Progress.time_spent u2 = delta req1 + delta req2.
Proof.
  intros H1 H2 Hnone r1 r2 Hr1 Hr2 Hqp.
  pose proof (accepted_not_refused _ _ _ _ _ _ _ H1 Hr1) as Hw1.
  pose proof (accepted_not_refused _ _ _ _ _ _ _ H2 Hr2) as Hw2.
  assert (S0 : stored_progress uid cid d = None)
    by (unfold stored_progress; now rewrite Hnone).
  destruct (serve_insert env1 method uid req1 d cid p H1 S0 Hw1) as [_ E1].
  set (u1 := fresh env1 uid cid req1 p) in *.
  assert (S1 : stored_progress uid cid (db_of r1) = Some u1).
  { unfold stored_progress. subst r1. rewrite E1, filter_app, Hnone.
    destruct H1 as (_ & _ & Hne & _). apply String.eqb_neq in Hne.
    cbn [app filter u1 fresh owned_by Progress.user_id Progress.course_id].
    now rewrite !String.eqb_refl. }
  destruct (serve_update env2 method uid req2 (db_of r1) cid q u1 H2 S1 Hw2) as [_ E2].
  exists (merge env2 req2 q u1 u1). split; [|split].
  - rewrite <- (stored_after_merge env2 req2 q u1 uid cid (db_of r1) S1).
    unfold stored_progress. subst r2. now rewrite E2.
  - cbn [merge u1 fresh Progress.progress_percentage]. lia.
  - cbn [merge u1 fresh Progress.time_spent].
    now rewrite or_zero_Some, !or_zero_delta.
Qed.

Lemma course_of_spec uid cid c :
  course_of uid cid c = true <-> callers_course uid cid c.
Proof.
  unfold course_of, callers_course. rewrite andb_true_iff, String.eqb_eq.
  destruct (Course.user_id c) as [u|].
  - rewrite String.eqb_eq. split; intros [H1 H2]; split; congruence.
  - split; intros [_ H]; discriminate H.
Qed.

Lemma complete_course_spec env uid cid rows :
  Forall2 (completion env uid cid) rows (complete_course env uid cid rows).
Proof.
  unfold complete_course, completion.
  induction rows as [|c rows IH]; cbn [map]; constructor; [|exact IH].
  destruct (course_of uid cid c) eqn:E.
  - split; [intros _; unfold completed_at_time; cbn; now repeat split|].
    intro N. apply course_of_spec in E. contradiction.
  - split; [|reflexivity].
    intro H. apply course_of_spec in H. congruence.
Qed.

(** Completing a completed row again keeps every column but
    completed_at, which is the later time. *)
Lemma completion_twice env1 env2 uid cid rows1 rows2 rows3 :
  Forall2 (completion env1 uid cid) rows1 rows2 ->
  Forall2 (completion env2 uid cid) rows2 rows3 ->
  Forall2 (completion env2 uid cid) rows1 rows3.
Proof.
  intro H12. revert rows3.
  induction H12 as [|a b l1 l2 [Hc Hn] _ IH]; intros rows3 H23;
    inversion H23 as [|? c ? l3 [Hc' Hn'] H23']; subst;
    constructor; [|now apply IH].
  split.
  - intro Ha. specialize (Hc Ha). unfold completed_at_time in Hc.
    assert (Hb : callers_course uid cid b)
      by (destruct Ha as [<- Hu]; unfold callers_course; intuition congruence).
    specialize (Hc' Hb). unfold completed_at_time in *. intuition congruence.
  - intro Na. pose proof (Hn Na) as E. subst b. now apply Hn'.
Qed.

Lemma completion_stamps env uid cid rows rows' :
  Forall2 (completion env uid cid) rows rows' ->
  Forall (stamped uid cid (now env)) rows'.
Proof.
  induction 1 as [|a b l l' [Hc Hn] _ IH]; constructor; [|exact IH].
  intro Hb. destruct (course_of uid cid a) eqn:E.
  - apply course_of_spec in E. specialize (Hc E). unfold completed_at_time in Hc. tauto.
  - assert (Na : ~ callers_course uid cid a)
      by (intro Ha; apply course_of_spec in Ha; congruence).
    rewrite (Hn Na) in Hb. contradiction.
Qed.

(** C4 (amended). An accepted update that carries a percentage of 100 or
    more, the course write being applied, completes every course row
    that has the id of the request and the caller as its user_id: the
    status is completed, completed_at is the time of the call, and every
    other column is as it was; and it leaves every other row as it was.
    The status is idempotent, completed_at is not: after a second
    identical update the rows that the first call completed are completed
    still, and their completed_at is the time of the second call.  It is
    the percentage of the request that counts: a later update of the
    caller with a percentage below 100 writes no course, whatever the
    percentage stored. *)
Theorem completion_is_stamped_at_each_update
  env1 env2 method uid req d cid pct :
  valid method req cid pct ->
  100 <= pct ->
  let r1 := serve env1 method (Some uid) req d in
  let r2 := serve env2 method (Some uid) req (db_of r1) in
  status (response_of r1) = 200 -> write_error env1 tbl_courses = None ->
  status (response_of r2) = 200 -> write_error env2 tbl_courses = None ->
  Forall2 (completion env1 uid cid) (courses d) (courses (db_of r1))
  /\ Forall2 (completion env2 uid cid) (courses (db_of r1)) (courses (db_of r2))
  /\ Forall2 (completion env2 uid cid) (courses d) (courses (db_of r2))
  /\ Forall (stamped uid cid (now env1)) (courses (db_of r1))
  /\ Forall (stamped uid cid (now env2)) (courses (db_of r2))
  /\ (forall env3 req3 lower,
        progress_percentage req3 = Some lower -> lower < 100 ->
        courses (db_of (serve env3 method (Some uid) req3 (db_of r2)))
        = courses (db_of r2)).
Proof.
  intros H Hpct r1 r2 Hr1 Hc1 Hr2 Hc2.
  pose proof (accepted_not_refused _ _ _ _ _ _ _ H Hr1) as Hw1.
  pose proof (accepted_not_refused _ _ _ _ _ _ _ H Hr2) as Hw2.
  apply Z.leb_le in Hpct.
  assert (F1 : Forall2 (completion env1 uid cid) (courses d) (courses (db_of r1))).
  { subst r1. rewrite (serve_courses env1 method uid req d cid pct H Hw1), Hpct, Hc1.
    apply complete_course_spec. }
  assert (F2 : Forall2 (completion env2 uid cid) (courses (db_of r1)) (courses (db_of r2))).
  { subst r2. rewrite (serve_courses env2 method uid req _ cid pct H Hw2), Hpct, Hc2.
    apply complete_course_spec. }
  split; [exact F1|]. split; [exact F2|].
  split; [exact (completion_twice _ _ _ _ _ _ _ F1 F2)|].
  split; [exact (completion_stamps _ _ _ _ _ F1)|].
  split; [exact (completion_stamps _ _ _ _ _ F2)|].
  intros env3 req3 lower Hl Hlow.
  destruct (serve_courses_cases env3 method (Some uid) req3 (db_of r2))
    as [E | (u & c & p & Hp & Hge & _)]; [exact E|].
  rewrite Hl in Hp. injection Hp as <-. lia.
Qed.

(** C5 (amended). No range check is made.  With a course id and a
    percentage present, whatever the number (0, 100, -1, 101), the
    request is never answered 400: it is reported as done whenever the
    store applies the progress write.  What is then stored is the number
    as sent where the caller has no record of the course, the row being
    appended and answered; and the larger of the stored and the sent
    number where the caller has one, that record being answered: so a
    number above 100 is stored over any smaller one, and a negative
    number is stored as a first record and leaves a larger stored one as
    it is.  The answer is 400 when the course id is missing or empty or
    the percentage is missing, and then nothing has been read or
    written.  The percentage of a request is a number where it is
    present, as the interface of the request declares it. *)
Theorem percentage_is_not_range_checked env method uid req d :
  method <> "OPTIONS" ->
  let r := serve env method (Some uid) req d in
  (forall cid pct,
      course_id req = Some cid -> cid <> "" -> progress_percentage req = Some pct ->
      status (response_of r) <> 400
      /\ (write_error env tbl_user_progress = None ->
          reports_success (response_of r) = true
          /\ (stored_progress uid cid d = None ->
              exists p, In p (user_progress (db_of r))
                        /\ Progress.progress_percentage p = pct
                        /\ user_progress (db_of r) = (user_progress d ++ [p])%list
                        /\ body (response_of r) = ProgressSaved p)
          /\ (forall existing,
                stored_progress uid cid d = Some existing ->
                exists p, stored_progress uid cid (db_of r) = Some p
                          /\ Progress.progress_percentage p
                             = Z.max (Progress.progress_percentage existing) pct
                          /\ body (response_of r) = ProgressSaved p)))
  /\ (truthy_string (course_id req) = false \/ progress_percentage req = None ->
      status (response_of r) = 400 /\ db_of r = d /\ trace_of r = []).
Proof.
  intros Hm r. split.
  - intros cid pct Hc Hne Hp.
    assert (H : valid method req cid pct) by (repeat split; assumption).
    destruct (write_error env tbl_user_progress) as [message|] eqn:Hw.
    + destruct (serve_refused env method uid req d cid pct message H Hw) as [E _].
      subst r. rewrite E. split; [discriminate | discriminate].
    + destruct (stored_progress uid cid d) as [existing|] eqn:Hs.
      * destruct (serve_update env method uid req d cid pct existing H Hs Hw) as [E E'].
        subst r. rewrite E. split; [discriminate|]. intros _.
        split; [reflexivity|]. split; [discriminate|].
        intros existing' Hex. injection Hex as <-.
        exists (merge env req pct existing existing). split; [|split; reflexivity].
        rewrite <- (stored_after_merge env req pct existing uid cid d Hs).
        unfold stored_progress. now rewrite E'.
      * destruct (serve_insert env method uid req d cid pct H Hs Hw) as [E E'].
        subst r. rewrite E, E'. split; [discriminate|]. intros _. split; [reflexivity|].
        split; [|discriminate].
        intros _. exists (fresh env uid cid req pct).
        split; [apply in_or_app; right; now left|]. now repeat split.
  - intros Hbad. subst r. unfold serve, run. rewrite (not_options _ Hm). unfold handler.
    destruct Hbad as [Hc | Hp].
    + rewrite Hc. destruct (progress_percentage req); exec; now repeat split.
    + rewrite Hp. exec. now repeat split.
Qed.

Lemma kept_refl rows : Forall2 kept rows rows.
Proof. induction rows; constructor; unfold kept; auto. Qed.

Lemma kept_trans l1 l2 l3 :
  Forall2 kept l1 l2 -> Forall2 kept l2 l3 -> Forall2 kept l1 l3.
Proof.
  intro H12. revert l3.
  induction H12 as [|a b l1 l2 (Hi & Hs & Hc) _ IH]; intros l3 H23; inversion H23; subst.
  - constructor.
  - constructor; [|now apply IH].
    match goal with H : kept b _ |- _ => destruct H as (Hi' & Hs' & Hc') end.
    unfold kept. repeat split.
    + congruence.
    + destruct Hs' as [Hs'|Hs']; [|now right]. destruct Hs as [Hs|Hs]; [left|right]; congruence.
    + auto.
Qed.

Lemma kept_complete env uid cid rows :
  Forall2 kept rows (complete_course env uid cid rows).
Proof.
  unfold complete_course.
  induction rows as [|c rows IH]; simpl; constructor; [|exact IH].
  destruct (course_of uid cid c); unfold kept; simpl; auto.
Qed.

Lemma kept_serve env method user req d :
  Forall2 kept (courses d) (courses (db_of (serve env method user req d))).
Proof.
  destruct (serve_courses_cases env method user req d) as [E | (uid & cid & pct & _ & _ & E)];
    rewrite E; [apply kept_refl | apply kept_complete].
Qed.

(** C10. The reconciler never takes a course back from completed.  A
    request whose percentage is below 100 (or missing) leaves the courses
    table as it was; and through any sequence of invocations every course
    row keeps its id, has the status it had or the status completed, and
    is completed at the end if it was completed at the start. *)
Theorem completed_courses_stay_completed :
  (forall env method user req d,
      (forall pct, progress_percentage req = Some pct -> pct < 100) ->
      courses (db_of (serve env method user req d)) = courses d)
  /\ (forall invocations d,
        Forall2 kept (courses d) (courses (invoke_all invocations d))).
Proof.
  split.
  - intros env method user req d Hlow.
    destruct (serve_courses_cases env method user req d)
      as [E | (uid & cid & pct & Hp & Hge & _)]; [exact E|].
    specialize (Hlow pct Hp). lia.
  - intros invocations. unfold invoke_all.
    induction invocations as [|i rest IH]; intro d; simpl.
    + apply kept_refl.
    + eapply kept_trans; [|apply IH]. apply kept_serve.
Qed.

End UpdateProgressFacts.

(** ** The brace scan *)

Lemma ascii_eqb_sym (a b : ascii) : Ascii.eqb a b = Ascii.eqb b a.
Proof.
  destruct (Ascii.eqb_spec a b) as [->|N].
  - now rewrite Ascii.eqb_refl.
  - symmetry. apply Ascii.eqb_neq. congruence.
Qed.

Lemma through_last_close_None (s : string) :
  through_last_close s = None <-> occurs "}" s = false.
Proof.
  induction s as [|c rest IH]; cbn [through_last_close occurs]; [tauto|].
  rewrite (ascii_eqb_sym "}" c).
  destruct (through_last_close rest) as [p|].
  - split; [discriminate|]. intro H. apply orb_false_iff in H as [_ H].
    apply IH in H. discriminate.
  - destruct (Ascii.eqb c "}"); cbn [orb]; [split; discriminate|].
    split; intros _; [now apply IH | reflexivity].
Qed.

(** [through_last_close] cuts after the last closing brace. *)
Lemma through_last_close_spec (s p : string) :
  through_last_close s = Some p <->
  exists middle after,
    s = middle ++ "}" ++ after /\ occurs "}" after = false /\ p = middle ++ "}".
Proof.
  split.
  - revert p. induction s as [|c rest IH]; cbn [through_last_close]; intros p H;
      [discriminate|].
    destruct (through_last_close rest) as [p'|] eqn:E.
    + injection H as <-.
      destruct (IH p' eq_refl) as (middle & after & -> & Hn & ->).
      now exists (String c middle), after.
    + destruct (Ascii.eqb_spec c "}") as [->|]; [|discriminate].
      injection H as <-. apply through_last_close_None in E.
      now exists "", rest.
  - intros (middle & after & -> & Hn & ->).
    induction middle as [|c middle IH]; cbn [append through_last_close].
    + apply through_last_close_None in Hn. rewrite Hn. now rewrite Ascii.eqb_refl.
    + cbn [append] in IH. now rewrite IH.
Qed.

(** The scan yields the text from the first opening brace through the
    last closing brace, and nothing else. *)
Lemma match_braces_spec (s span : string) :
  match_braces s = Some span <->
  exists before middle after,
    s = before ++ "{" ++ middle ++ "}" ++ after
    /\ occurs "{" before = false /\ occurs "}" after = false
    /\ span = "{" ++ middle ++ "}".
Proof.
  split.
  - revert span. induction s as [|c rest IH]; cbn [match_braces]; intros span H;
      [discriminate|].
    destruct (Ascii.eqb_spec c "{") as [->|N].
    + destruct (through_last_close rest) as [p|] eqn:E; [|discriminate].
      injection H as <-.
      apply through_last_close_spec in E as (middle & after & -> & Hn & ->).
      now exists "", middle, after.
    + destruct (IH span H) as (before & middle & after & -> & Hb & Ha & ->).
      exists (String c before), middle, after. repeat split; try assumption.
      cbn [occurs]. rewrite Hb. apply Ascii.eqb_neq in N. rewrite ascii_eqb_sym in N.
      now rewrite N.
  - intros (before & middle & after & -> & Hb & Ha & ->).
    induction before as [|c before IH]; cbn [append match_braces].
    + assert (E : through_last_close (middle ++ "}" ++ after) = Some (middle ++ "}"))
        by (apply through_last_close_spec; now exists middle, after).
      cbn [append] in E. rewrite Ascii.eqb_refl. now rewrite E.
    + cbn [occurs] in Hb. apply orb_false_iff in Hb as [Hc Hb].
      rewrite ascii_eqb_sym in Hc. rewrite Hc. now apply IH.
Qed.

Lemma occurs_app (c : ascii) (a b : string) :
  occurs c (a ++ b) = occurs c a || occurs c b.
Proof.
  induction a as [|x a IH]; cbn [append occurs]; [reflexivity|].
  now rewrite IH, orb_assoc.
Qed.

Lemma occurs_head (c : ascii) (s : string) : occurs c (String c s) = true.
Proof. cbn [occurs]. now rewrite Ascii.eqb_refl. Qed.

Lemma match_braces_None (s : string) :
  match_braces s = None <->
  forall before middle after, s <> before ++ "{" ++ middle ++ "}" ++ after.
Proof.
  split.
  - intros H before middle after ->.
    revert H. induction before as [|c before IH]; cbn [append match_braces].
    + rewrite Ascii.eqb_refl.
      destruct (through_last_close _) eqn:E; [discriminate|].
      apply through_last_close_None in E.
      change (String "}" after) with (String "}" "" ++ after) in E.
      rewrite !occurs_app, occurs_head in E. cbn [orb] in E.
      rewrite orb_true_r in E. discriminate.
    + destruct (Ascii.eqb c "{"); [|exact IH].
      destruct (through_last_close _) eqn:E; [discriminate|]. intros _.
      apply through_last_close_None in E.
      change (String "{" (middle ++ String "}" after))
        with (String "{" middle ++ String "}" "" ++ after) in E.
      rewrite !occurs_app, occurs_head in E. cbn [orb] in E.
      rewrite !orb_true_r in E. discriminate.
  - intro H. destruct (match_braces s) as [span|] eqn:E; [|reflexivity].
    apply match_braces_spec in E as (before & middle & after & -> & _).
    now destruct (H before middle after).
Qed.

(** ** generate-course-outline *)

Module GenerateCourseOutlineFacts.
Import GenerateCourseOutline.

Section Parser.
Variable JSON_parse : string -> ParseResult.

(** The whole run of a request that passes the validation. *)
Lemma outline_run env method req d topic' context' level goals duration uid :
  valid method req topic' context' level goals duration uid ->
  let prompt := personalizedPrompt topic' context' level goals duration in
  serve JSON_parse env method req d
  = match provider env system_message prompt with
    | NotOk statusText =>
        failed "Error generating course outline:" ("OpenRouter API error: " ++ statusText) d
          [Fetch system_message prompt]
    | Completion content =>
        match parse_model_output JSON_parse content with
        | inr message =>
            failed "Error generating course outline:" message d [Fetch system_message prompt]
        | inl courseOutline =>
            let session :=
              Session.mk (new_id env) uid topic' context' level goals duration courseOutline
                "outline_review" (now env) in
            match write_error env tbl_course_generation_sessions with
            | Some message =>
                failed "Error generating course outline:" ("Database error: " ++ message) d
                  [Fetch system_message prompt; Write tbl_course_generation_sessions false]
            | None =>
                (mkResponse 200 (SessionCreated (new_id env) courseOutline),
                 with_sessions (fun rows => (rows ++ [session])%list) d,
                 [Fetch system_message prompt; Write tbl_course_generation_sessions true])
            end
        end
    end.
Proof.
  intros (Hm & Ht & Ht' & Hc & Hc' & Hk & Hk' & Hg & Hg' & Hd & Hd' & Hu & Hu') prompt.
  unfold serve, run. rewrite (not_options _ Hm). unfold handler.
  rewrite Ht, Hc, Hk, Hg, Hd, Hu.
  destruct (truthy_string_Some _ Ht') as [-> ->].
  destruct (truthy_string_Some _ Hc') as [-> ->].
  destruct (truthy_string_Some _ Hk') as [-> ->].
  destruct (truthy_string_Some _ Hg') as [-> ->].
  destruct (truthy_string_Some _ Hd') as [-> ->].
  destruct (truthy_string_Some _ Hu') as [-> ->].
  exec. fold prompt.
  destruct (provider env system_message prompt) as [statusText|content]; exec;
    [now destruct d|].
  destruct (parse_model_output JSON_parse content) as [courseOutline|message]; exec;
    [|now destruct d].
  destruct (write_error env tbl_course_generation_sessions); exec; [now destruct d|].
  reflexivity.
Qed.

End Parser.
End GenerateCourseOutlineFacts.

(** ** edit-course-outline *)

Lemma string_app_assoc (a b c : string) : (a ++ b) ++ c = a ++ b ++ c.
Proof. induction a as [|x a IH]; cbn [append]; [reflexivity | now rewrite IH]. Qed.

(** Finding a piece [x] in a text put together from pieces. *)
Lemma embedded_here (x rest : string) : x ++ rest = "" ++ x ++ rest.
Proof. reflexivity. Qed.

Lemma embedded_later (p rest before x after : string) :
  rest = before ++ x ++ after -> p ++ rest = (p ++ before) ++ x ++ after.
Proof. intros ->. now rewrite string_app_assoc. Qed.

Module EditCourseOutlineFacts.
Import EditCourseOutline.

Section Parser.
Variable JSON_parse : string -> ParseResult.

(** The whole run of a request that passes the validation and names a
    session of the caller. *)
Lemma edit_run env method req d sid msg cur uid session :
  valid method req sid msg cur uid ->
  session_of sid uid d = Some session ->
  let prompt := editPrompt session cur (conversationContext (history sid d)) msg in
  let reads := [Read tbl_course_generation_sessions; Read tbl_course_conversations;
                Fetch system_message prompt] in
  serve JSON_parse env method req d
  = match provider env system_message prompt with
    | NotOk statusText =>
        failed "Error editing course outline:" ("OpenRouter API error: " ++ statusText) d reads
    | Completion content =>
        match parse_model_output JSON_parse content with
        | inr message => failed "Error editing course outline:" message d reads
        | inl updatedOutline =>
            let (d1, w1) :=
              attempt env tbl_course_conversations
                (with_conversations
                   (fun rows => (rows ++ exchange env sid msg updatedOutline)%list)) d in
            let (d2, w2) :=
              attempt env tbl_course_generation_sessions
                (with_sessions
                   (Session.update sid (Session.set_outline updatedOutline (now env)))) d1 in
            (mkResponse 200 (OutlineUpdated updatedOutline), d2, (reads ++ [w1; w2])%list)
        end
    end.
Proof.
  intros (Hm & Hs & Hs' & Hu & Hu' & Hc & Hc' & Hi & Hi') Hfound prompt reads.
  unfold serve, run. rewrite (not_options _ Hm). unfold handler.
  rewrite Hc, Hs, Hu, Hi, Hc'.
  destruct (truthy_string_Some _ Hs') as [-> ->].
  destruct (truthy_string_Some _ Hu') as [-> ->].
  destruct (truthy_string_Some _ Hi') as [-> ->].
  unfold session_of in Hfound.
  exec. rewrite Hfound. exec. fold prompt.
  destruct (provider env system_message prompt) as [statusText|content]; exec;
    [now destruct d|].
  destruct (parse_model_output JSON_parse content) as [updatedOutline|message]; exec;
    [|now destruct d].
  unfold attempt.
  destruct (write_error env tbl_course_conversations);
    destruct (write_error env tbl_course_generation_sessions); exec; reflexivity.
Qed.

(** Only a valid request on a session of the caller is reported as
    done. *)
Lemma success_inv env method req d :
  reports_success (response_of (serve JSON_parse env method req d)) = true ->
  exists sid msg cur uid session,
    valid method req sid msg cur uid /\ session_of sid uid d = Some session.
Proof.
  unfold serve, run.
  destruct (String.eqb_spec method "OPTIONS") as [|Hm]; [discriminate|].
  unfold handler.
  destruct (current_outline req) as [cur|] eqn:Hc; [|discriminate].
  destruct (truthy_string (session_id req)) eqn:Hs; [|discriminate].
  destruct (truthy_string (user_message req)) eqn:Hu; [|discriminate].
  destruct (truthy cur) eqn:Hc'; [|discriminate].
  destruct (truthy_string (clerk_user_id req)) eqn:Hi; [|discriminate].
  apply truthy_string_inv in Hs as (sid & Hs & Hs').
  apply truthy_string_inv in Hu as (msg & Hu & Hu').
  apply truthy_string_inv in Hi as (uid & Hi & Hi').
  rewrite Hs, Hu, Hi.
  destruct (truthy_string_Some _ Hs') as [_ ->].
  destruct (truthy_string_Some _ Hu') as [_ ->].
  destruct (truthy_string_Some _ Hi') as [_ ->].
  exec.
  destruct (single (filter (Session.owned_by sid uid) (course_generation_sessions d)))
    as [session|] eqn:Hf; [|discriminate].
  intros _. exists sid, msg, cur, uid, session. now repeat split.
Qed.

(** C2 (amended). On a valid request for a session of the caller, one
    chat request is sent, and its prompt is [editPrompt] of the session's
    five parameters, the outline the client supplied, the transcript and
    the new message.  The prompt is a fixed text around the rendering of
    the client's outline: the outline stored with the session does not
    enter it. *)
Theorem prompt_embeds_the_client_outline env method req d sid msg cur uid session :
  valid method req sid msg cur uid ->
  session_of sid uid d = Some session ->
  let r := serve JSON_parse env method req d in
  let transcript := conversationContext (history sid d) in
  fetched (trace_of r) = [(system_message, editPrompt session cur transcript msg)]
  /\ exists before after,
      forall stored client at_,
        editPrompt (Session.set_outline stored at_ session) client transcript msg
        = before ++ stringify client ++ after.
Proof.
  intros H Hf r transcript. split.
  - subst r. rewrite (edit_run env method req d sid msg cur uid session H Hf).
    fold transcript.
    destruct (provider env system_message _); [reflexivity|].
    destruct (parse_model_output JSON_parse content); [|reflexivity].
    unfold attempt.
    destruct (write_error env tbl_course_conversations);
      destruct (write_error env tbl_course_generation_sessions); reflexivity.
  - eexists. eexists. intros stored client at_. unfold editPrompt.
    cbn [Session.set_outline Session.topic Session.context Session.knowledge_level
         Session.learning_goals Session.preferred_duration].
    repeat first [apply embedded_here | apply embedded_later].
Qed.

Lemma length_insert_by_created_at c sorted :
  List.length (insert_by_created_at c sorted) = S (List.length sorted).
Proof.
  induction sorted as [|c' rest IH]; simpl; [reflexivity|].
  destruct (Conversation.created_at c <? Conversation.created_at c'); simpl; congruence.
Qed.

Lemma length_order_by_created_at rows :
  List.length (order_by_created_at rows) = List.length rows.
Proof.
  unfold order_by_created_at.
  enough (G : forall acc,
             List.length (fold_left (fun sorted c => insert_by_created_at c sorted) rows acc)
             = (List.length rows + List.length acc)%nat)
    by (rewrite G; simpl; lia).
  induction rows as [|c rows IH]; intro acc; simpl; [reflexivity|].
  rewrite IH, length_insert_by_created_at. lia.
Qed.

(** C6 (amended). An edit that is reported as done, the store having
    applied its two writes, has appended exactly two conversation rows
    for the session, the user's message and then the assistant's reply
    that quotes the new outline, so that the session's history is longer
    by two; and the outline stored with the session, and answered, is the
    parsed reply of the model: what [parse_model_output] makes of the
    provider's completion of the one chat request, whose prompt is built
    for the caller's session.  It replaces whatever was stored before,
    every other session being left as it was. *)
Theorem edit_appends_two_entries_and_replaces_the_outline env method req d :
  let r := serve JSON_parse env method req d in
  reports_success (response_of r) = true ->
  write_error env tbl_course_conversations = None ->
  write_error env tbl_course_generation_sessions = None ->
  exists sid msg updatedOutline,
    session_id req = Some sid /\ user_message req = Some msg
    /\ body (response_of r) = OutlineUpdated updatedOutline
    /\ (exists uid cur session content,
          clerk_user_id req = Some uid /\ current_outline req = Some cur
          /\ session_of sid uid d = Some session
          /\ fetched (trace_of r)
             = [(system_message,
                 editPrompt session cur (conversationContext (history sid d)) msg)]
          /\ provider env system_message
               (editPrompt session cur (conversationContext (history sid d)) msg)
             = Completion content
          /\ parse_model_output JSON_parse content = inl updatedOutline)
    /\ course_conversations (db_of r)
       = (course_conversations d
          ++ [Conversation.mk sid "user" msg (now env);
              Conversation.mk sid "assistant" (assistant_message updatedOutline) (now env)])%list
    /\ List.length (history sid (db_of r)) = (List.length (history sid d) + 2)%nat
    /\ Forall2
         (fun s s' =>
            s' = if (Session.id s =? sid)%string
                 then Session.set_outline updatedOutline (now env) s
                 else s)
         (course_generation_sessions d) (course_generation_sessions (db_of r))
    /\ Forall
         (fun s' => Session.id s' = sid -> Session.current_outline s' = updatedOutline)
         (course_generation_sessions (db_of r)).
Proof.
  intros r Hok Hw1 Hw2.
  destruct (success_inv env method req d Hok)
    as (sid & msg & cur & uid & session & H & Hf).
  pose proof (edit_run env method req d sid msg cur uid session H Hf) as E.
  cbv zeta in E. subst r. rewrite E in Hok |- *.
  destruct (provider env system_message _) as [|content] eqn:Hp; [discriminate|].
  destruct (parse_model_output JSON_parse content) as [updatedOutline|] eqn:Hparse;
    [|discriminate].
  unfold attempt. rewrite Hw1, Hw2.
  destruct H as (_ & Hs & _ & Hu & _ & Hc & _ & Hi & _).
  exists sid, msg, updatedOutline.
  cbn [response_of db_of trace_of fst snd body course_conversations
       course_generation_sessions with_sessions with_conversations].
  split; [exact Hs|]. split; [exact Hu|].
  split; [reflexivity|].
  split.
  { exists uid, cur, session, content.
    split; [exact Hi|]. split; [exact Hc|]. split; [exact Hf|].
    split; [reflexivity|]. split; [exact Hp | exact Hparse]. }
  split; [reflexivity|].
  split; [|split].
  - unfold history.
    cbn [course_conversations with_sessions with_conversations].
    rewrite filter_app, !length_order_by_created_at, length_app.
    cbn [exchange filter Conversation.session_id]. rewrite String.eqb_refl. reflexivity.
  - apply session_update_spec.
  - unfold Session.update. apply Forall_forall. intros s' Hin.
    apply in_map_iff in Hin as (s & <- & _).
    destruct (Session.id s =? sid)%string eqn:Eid; [reflexivity|].
    intro Hid. apply String.eqb_neq in Eid. contradiction.
Qed.

End Parser.
End EditCourseOutlineFacts.

(** ** The model gateway *)

Section ModelGateway.
Variable JSON_parse : string -> ParseResult.

(** C8 (amended). The provider's text is parsed as it is.  When that
    fails, the text from its first opening brace through its last closing
    brace is parsed instead; when that fails too, or the text has no such
    span, the error is thrown.  In both handlers a thrown parse error is
    answered 500 with its message, after the one chat request and without
    any write. *)
Theorem malformed_output_is_answered_500_without_retry :
  (forall content v,
      JSON_parse content = Parsed v -> parse_model_output JSON_parse content = inl v)
  /\ (forall content message before middle after,
        JSON_parse content = SyntaxError message ->
        content = before ++ "{" ++ middle ++ "}" ++ after ->
        occurs "{" before = false -> occurs "}" after = false ->
        parse_model_output JSON_parse content
        = match JSON_parse ("{" ++ middle ++ "}") with
          | Parsed v => inl v
          | SyntaxError message' => inr message'
          end)
  /\ (forall content message,
        JSON_parse content = SyntaxError message ->
        (forall before middle after, content <> before ++ "{" ++ middle ++ "}" ++ after) ->
        parse_model_output JSON_parse content = inr "Failed to parse AI response as JSON")
  /\ (forall env method req d sid msg cur uid session content message,
        EditCourseOutline.valid method req sid msg cur uid ->
        session_of sid uid d = Some session ->
        provider env EditCourseOutline.system_message
          (EditCourseOutline.editPrompt session cur
             (EditCourseOutline.conversationContext (EditCourseOutline.history sid d)) msg)
        = Completion content ->
        parse_model_output JSON_parse content = inr message ->
        let r := EditCourseOutline.serve JSON_parse env method req d in
        response_of r = mkResponse 500 (Error message) /\ db_of r = d
        /\ List.length (fetched (trace_of r)) = 1%nat /\ written (trace_of r) = [])
  /\ (forall env method req d topic context level goals duration uid content message,
        GenerateCourseOutline.valid method req topic context level goals duration uid ->
        provider env GenerateCourseOutline.system_message
          (GenerateCourseOutline.personalizedPrompt topic context level goals duration)
        = Completion content ->
        parse_model_output JSON_parse content = inr message ->
        let r := GenerateCourseOutline.serve JSON_parse env method req d in
        response_of r = mkResponse 500 (Error message) /\ db_of r = d
        /\ List.length (fetched (trace_of r)) = 1%nat /\ written (trace_of r) = []).
Proof.
  split; [|split; [|split; [|split]]].
  - intros content v H. unfold parse_model_output. now rewrite H.
  - intros content message before middle after H -> Hb Ha.
    unfold parse_model_output. rewrite H.
    assert (E : match_braces (before ++ "{" ++ middle ++ "}" ++ after)
                = Some ("{" ++ middle ++ "}"))
      by (apply match_braces_spec; now exists before, middle, after).
    now rewrite E.
  - intros content message H Hnone.
    unfold parse_model_output. rewrite H.
    apply match_braces_None in Hnone. now rewrite Hnone.
  - intros env method req d sid msg cur uid session content message H Hf Hp Hbad r.
    subst r. rewrite (EditCourseOutlineFacts.edit_run JSON_parse env method req d
                        sid msg cur uid session H Hf).
    cbv zeta. rewrite Hp, Hbad. now repeat split.
  - intros env method req d topic context level goals duration uid content message H Hp Hbad r.
    subst r. rewrite (GenerateCourseOutlineFacts.outline_run JSON_parse env method req d
                        topic context level goals duration uid H).
    cbv zeta. rewrite Hp, Hbad. now repeat split.
Qed.

End ModelGateway.

(** ** generate-final-course *)

Module GenerateFinalCourseFacts.
Import GenerateFinalCourse.

Lemma map_items_length {A} (f : nat -> JSON -> A + string) index items rows :
  map_items f index items = inl rows -> List.length rows = List.length items.
Proof.
  revert index rows. induction items as [|m items IH]; intros index rows; simpl.
  - intro H. injection H as <-. reflexivity.
  - destruct (f index m); [|discriminate].
    destruct (map_items f (S index) items) eqn:E; [|discriminate].
    intro H. injection H as <-. simpl. f_equal. now apply (IH (S index)).
Qed.

(** The rows made of an outline's modules: one per module, in order,
    numbered from [index + 1]. *)
Lemma module_rows_from cid content index items rows :
  map_items (fun index module =>
               match read_property module "title", read_property module "description" with
               | inl t, inl d => inl (CourseModule.mk cid t d content (Z.of_nat index + 1) [] [])
               | inr message, _ | _, inr message => inr message
               end) index items = inl rows ->
  map CourseModule.order_index rows
  = map Z.of_nat (seq (S index) (List.length items))
  /\ map CourseModule.title rows = map (fun m => get m "title") items
  /\ map CourseModule.description rows = map (fun m => get m "description") items
  /\ Forall (fun row => CourseModule.course_id row = cid
                        /\ CourseModule.content row = content) rows.
Proof.
  revert index rows. induction items as [|m items IH]; intros index rows; simpl.
  - intro H. injection H as <-. simpl. repeat split. constructor.
  - destruct m; simpl; try discriminate;
      (destruct (map_items _ (S index) items) as [rest|] eqn:E; [|discriminate];
       intro H; injection H as <-;
       destruct (IH (S index) rest E) as (Ho & Ht & Hd & Hc);
       simpl; rewrite Ho, Ht, Hd;
       repeat split; try (f_equal; lia); constructor; [now split | exact Hc]).
Qed.

Lemma module_rows_spec cid content items rows :
  module_rows cid content items = inl rows ->
  List.length rows = List.length items
  /\ map CourseModule.order_index rows = map Z.of_nat (seq 1 (List.length items))
  /\ map CourseModule.title rows = map (fun m => get m "title") items
  /\ map CourseModule.description rows = map (fun m => get m "description") items
  /\ Forall (fun row => CourseModule.course_id row = cid
                        /\ CourseModule.content row = content) rows.
Proof.
  intro H. split; [exact (map_items_length _ _ _ _ H)|].
  exact (module_rows_from cid content O items rows H).
Qed.

Lemma objectives_modules approved objectives :
  objectives_of (get approved "modules") = inl objectives ->
  total_modules_of (get approved "modules") = Z.of_nat (List.length (modules_of approved))
  /\ (get approved "modules" = Some (JArray (modules_of approved))
      \/ (modules_of approved = []
          /\ forall items, get approved "modules" <> Some (JArray items))).
Proof.
  unfold modules_of, objectives_of, total_modules_of.
  destruct (get approved "modules") as [[| | | |items|]|]; try discriminate; intros _;
    try (split; [reflexivity | right; split; [reflexivity | discriminate]]).
  split; [apply or_zero_Some | now left].
Qed.

(** A request reported as done, all of whose writes the store applied:
    what was read, and what the tables hold afterwards. *)
Lemma serve_success env method req d :
  let r := serve env method req d in
  reports_success (response_of r) = true ->
  write_error env tbl_course_modules = None ->
  write_error env tbl_user_progress = None ->
  write_error env tbl_course_generation_sessions = None ->
  exists sid uid approved session objectives rows,
    session_id req = Some sid /\ clerk_user_id req = Some uid
    /\ approved_outline req = Some approved
    /\ session_of sid uid d = Some session
    /\ objectives_of (get approved "modules") = inl objectives
    /\ (exists courseContent,
          module_rows (new_id env) courseContent (modules_of approved) = inl rows)
    /\ db_of r
       = mkDB (Session.update sid (Session.set_status "completed" (now env))
                 (course_generation_sessions d))
              (course_conversations d)
              (courses d ++ [course_row env sid uid session approved objectives])
              (course_modules d ++ rows)
              (user_progress d
               ++ [Progress.mk None (Some uid) (new_id env) 0 [] 0 (now env) ""])
              (module_progress d).
Proof.
  intros r. subst r. unfold serve, run.
  destruct (String.eqb_spec method "OPTIONS") as [|Hm]; [discriminate|].
  unfold handler.
  destruct (approved_outline req) as [approved|] eqn:Ha; [|discriminate].
  destruct (truthy_string (session_id req)) eqn:Hs; [|discriminate].
  destruct (truthy approved) eqn:Ha'; [|discriminate].
  destruct (truthy_string (clerk_user_id req)) eqn:Hi; [|discriminate].
  apply truthy_string_inv in Hs as (sid & Hs & Hs').
  apply truthy_string_inv in Hi as (uid & Hi & Hi').
  rewrite Hs, Hi.
  destruct (truthy_string_Some _ Hs') as [_ ->].
  destruct (truthy_string_Some _ Hi') as [_ ->].
  exec.
  destruct (single (filter (Session.owned_by sid uid) (course_generation_sessions d)))
    as [session|] eqn:Hf; [|discriminate].
  exec.
  destruct (provider env system_message _) as [|courseContent]; exec; [discriminate|].
  destruct (objectives_of (get approved "modules")) as [objectives|] eqn:Ho; exec;
    [|discriminate].
  destruct (write_error env tbl_courses); exec; [discriminate|].
  intros Hok Hw1 Hw2 Hw3.
  exists sid, uid, approved, session, objectives.
  unfold modules_of.
  destruct (get approved "modules") as [[| | | |items|]|] eqn:Hg; exec;
    try (discriminate Ho);
    try (rewrite Hw2; exec; rewrite Hw3; exec;
         exists []; do 5 (split; [first [assumption | reflexivity]|]);
         split; [now exists courseContent | now rewrite app_nil_r]).
  destruct (module_rows (new_id env) courseContent items) as [rows|] eqn:Hr;
    [|revert Hok; cbn [course_row Course.id]; rewrite Hr; exec; discriminate].
  cbn [course_row Course.id]. rewrite Hr. exec. rewrite Hw1. exec.
  rewrite Hw2. exec. rewrite Hw3. exec.
  exists rows. do 5 (split; [first [assumption | reflexivity]|]).
  split; [now exists courseContent | reflexivity].
Qed.

(** C7 (amended). A materialization that is reported as done, the store
    having applied the module, progress and session writes, has created
    one course row, whose total_modules is the number N of modules of the
    approved outline; N module rows, numbered 1 to N in the outline's
    order, with the titles and descriptions of the outline's modules; and
    one progress record at 0 for the caller and the course; and it has set
    the status of the session to completed. *)
Theorem materialize_creates_course_modules_and_progress env method req d :
  let r := serve env method req d in
  reports_success (response_of r) = true ->
  write_error env tbl_course_modules = None ->
  write_error env tbl_user_progress = None ->
  write_error env tbl_course_generation_sessions = None ->
  exists sid uid approved course rows,
    session_id req = Some sid /\ clerk_user_id req = Some uid
    /\ approved_outline req = Some approved
    /\ courses (db_of r) = (courses d ++ [course])%list
    /\ Course.id course = new_id env
    /\ Course.clerk_user_id course = Some uid
    /\ Course.status course = "active"
    /\ Course.total_modules course = Z.of_nat (List.length (modules_of approved))
    /\ course_modules (db_of r) = (course_modules d ++ rows)%list
    /\ List.length rows = List.length (modules_of approved)
    /\ map CourseModule.order_index rows
       = map Z.of_nat (seq 1 (List.length (modules_of approved)))
    /\ map CourseModule.title rows = map (fun m => get m "title") (modules_of approved)
    /\ map CourseModule.description rows
       = map (fun m => get m "description") (modules_of approved)
    /\ Forall (fun row => CourseModule.course_id row = new_id env) rows
    /\ user_progress (db_of r)
       = (user_progress d
          ++ [Progress.mk None (Some uid) (new_id env) 0 [] 0 (now env) ""])%list
    /\ Forall2
         (fun s s' =>
            s' = if (Session.id s =? sid)%string
                 then Session.set_status "completed" (now env) s
                 else s)
         (course_generation_sessions d) (course_generation_sessions (db_of r)).
Proof.
  intros r Hok Hw1 Hw2 Hw3.
  destruct (serve_success env method req d Hok Hw1 Hw2 Hw3)
    as (sid & uid & approved & session & objectives & rows
        & Hs & Hi & Ha & Hf & Ho & (courseContent & Hr) & E).
  destruct (objectives_modules approved objectives Ho) as [Ht _].
  destruct (module_rows_spec _ _ _ _ Hr) as (Hl & Hx & Htitle & Hdesc & Hc).
  exists sid, uid, approved, (course_row env sid uid session approved objectives), rows.
  subst r. rewrite E. cbn [courses course_modules user_progress course_generation_sessions].
  do 3 (split; [assumption|]).
  do 4 (split; [reflexivity|]).
  split; [exact Ht|].
  split; [reflexivity|].
  do 4 (split; [assumption|]).
  split; [eapply Forall_impl; [|exact Hc]; now intros row [? _]|].
  split; [reflexivity|].
  apply session_update_spec.
Qed.

(** Two environments that agree on everything but the outcome of the
    module insert and of the progress insert. *)
Lemma response_ignores_module_and_progress_writes env env' method req d :
  same_inputs env env' ->
  (forall t, t <> tbl_course_modules -> t <> tbl_user_progress ->
             write_error env t = write_error env' t) ->
  response_of (serve env method req d) = response_of (serve env' method req d).
Proof.
  intros (Hnow & Hid & Hprov) Hsame.
  unfold serve, run.
  destruct (method =? "OPTIONS")%string; [reflexivity|].
  unfold handler.
  destruct (approved_outline req) as [approved|]; [|reflexivity].
  destruct (negb (truthy_string (session_id req)) || negb (truthy approved)
            || negb (truthy_string (clerk_user_id req))); [reflexivity|].
  exec. destruct (single _) as [session|]; [|reflexivity].
  exec. rewrite <- Hprov.
  destruct (provider env system_message _) as [|courseContent]; exec; [reflexivity|].
  destruct (objectives_of (get approved "modules")) as [objectives|]; exec; [|reflexivity].
  rewrite <- (Hsame tbl_courses) by discriminate.
  rewrite <- (Hsame tbl_course_generation_sessions) by discriminate.
  unfold course_row. rewrite <- Hid, <- Hnow. cbn [Course.id Course.title Course.description].
  destruct (write_error env tbl_courses); exec; [reflexivity|].
  destruct (get approved "modules") as [[| | | |items|]|]; exec;
    try (destruct (write_error env tbl_user_progress);
         destruct (write_error env' tbl_user_progress); exec;
         destruct (write_error env tbl_course_generation_sessions); exec; reflexivity).
  destruct (module_rows (new_id env) courseContent items); exec; [|reflexivity].
  destruct (write_error env tbl_course_modules);
    destruct (write_error env' tbl_course_modules); exec;
    destruct (write_error env tbl_user_progress);
    destruct (write_error env' tbl_user_progress); exec;
    destruct (write_error env tbl_course_generation_sessions); exec; reflexivity.
Qed.

Ltac no_such_write :=
  exec; cbn [written app]; cbn [In];
  repeat split; intros;
  repeat match goal with
         | H : _ \/ _ |- _ => destruct H
         | H : False |- _ => destruct H
         | H : (_, _) = (_, _) |- _ => try discriminate H; clear H
         end.

(** What the trace tells of the three inserts. *)
Lemma refusals env method req d :
  let r := serve env method req d in
  (In (tbl_courses, false) (written (trace_of r)) ->
   status (response_of r) = 500 /\ reports_success (response_of r) = false)
  /\ (In (tbl_course_modules, false) (written (trace_of r)) ->
      exists message,
        write_error env tbl_course_modules = Some message
        /\ In (ConsoleError ("Error creating modules: " ++ message)) (trace_of r))
  /\ (In (tbl_user_progress, false) (written (trace_of r)) ->
      exists message,
        write_error env tbl_user_progress = Some message
        /\ In (ConsoleError ("Error creating progress record: " ++ message)) (trace_of r)).
Proof.
  intro r. subst r. unfold serve, run.
  destruct (method =? "OPTIONS")%string; [no_such_write|].
  unfold handler.
  destruct (approved_outline req) as [approved|]; [|exec; no_such_write].
  destruct (negb (truthy_string (session_id req)) || negb (truthy approved)
            || negb (truthy_string (clerk_user_id req))); [exec; no_such_write|].
  exec. destruct (single _) as [session|]; [|exec; no_such_write].
  exec.
  destruct (provider env system_message _) as [|courseContent]; exec; [no_such_write|].
  destruct (objectives_of (get approved "modules")) as [objectives|]; exec;
    [|no_such_write].
  destruct (write_error env tbl_courses); exec; [no_such_write|].
  destruct (get approved "modules") as [[| | | |items|]|]; exec;
    try (destruct (write_error env tbl_user_progress) eqn:?; exec;
         destruct (write_error env tbl_course_generation_sessions); exec;
         no_such_write; try reflexivity;
         eexists; (split; [reflexivity | cbn [app In]; tauto])).
  destruct (module_rows _ courseContent items); exec; [|no_such_write].
  destruct (write_error env tbl_course_modules) eqn:?; exec;
    destruct (write_error env tbl_user_progress) eqn:?; exec;
    destruct (write_error env tbl_course_generation_sessions); exec;
    no_such_write; try reflexivity;
    eexists; (split; [reflexivity | cbn [app In]; tauto]).
Qed.

(** C1 (amended). In a materialization, a refused course insert is
    reported as a failure: the answer is a 500.  A refused module insert
    and a refused progress insert are logged and decide nothing: the
    answer is the one given when the store applies them. *)
Theorem materialize_reports_only_the_course_insert env env' method req d :
  same_inputs env env' ->
  (forall t, t <> tbl_course_modules -> t <> tbl_user_progress ->
             write_error env t = write_error env' t) ->
  let r := serve env method req d in
  response_of r = response_of (serve env' method req d)
  /\ (In (tbl_courses, false) (written (trace_of r)) ->
      status (response_of r) = 500 /\ reports_success (response_of r) = false)
  /\ (In (tbl_course_modules, false) (written (trace_of r)) ->
      exists message,
        write_error env tbl_course_modules = Some message
        /\ In (ConsoleError ("Error creating modules: " ++ message)) (trace_of r))
  /\ (In (tbl_user_progress, false) (written (trace_of r)) ->
      exists message,
        write_error env tbl_user_progress = Some message
        /\ In (ConsoleError ("Error creating progress record: " ++ message)) (trace_of r)).
Proof.
  intros Hin Hsame r. split.
  - now apply response_ignores_module_and_progress_writes.
  - apply refusals.
Qed.

End GenerateFinalCourseFacts.

(** ** The learning streak *)

Module GetUserAnalyticsFacts.
Import GetUserAnalytics Scenario.

Lemma MS_PER_DAY_pos : 0 < MS_PER_DAY.
Proof. reflexivity. Qed.

Lemma midnight_day (t : Z) : midnight t = MS_PER_DAY * day_of t.
Proof.
  unfold midnight, day_of. pose proof MS_PER_DAY_pos.
  rewrite Z.mod_eq by lia. lia.
Qed.

(** [daysDiff] is the difference of the calendar days. *)
Lemma days_diff (now t : Z) :
  (midnight now - midnight t) / MS_PER_DAY = day_of now - day_of t.
Proof.
  rewrite !midnight_day, <- Z.mul_sub_distr_l, Z.mul_comm.
  apply Z.div_mul. pose proof MS_PER_DAY_pos. lia.
Qed.

Lemma day_of_mono (a b : Z) : a <= b -> day_of a <= day_of b.
Proof. intro H. apply Z.div_le_mono; [exact MS_PER_DAY_pos | exact H]. Qed.

Lemma not_accessed (accesses : list Z) (day : Z) :
  Forall (fun t => day_of t < day) accesses -> accessed_on accesses day = false.
Proof.
  unfold accessed_on. induction 1 as [|t rest Ht _ IH]; simpl; [reflexivity|].
  rewrite IH. destruct (Z.eqb_spec (day_of t) day); [lia | reflexivity].
Qed.

Lemma consecutive_days_ext (fuel : nat) (l l' : list Z) (day : Z) :
  (forall day', day' <= day -> accessed_on l day' = accessed_on l' day') ->
  consecutive_days fuel l day = consecutive_days fuel l' day.
Proof.
  revert day. induction fuel as [|fuel IH]; intros day H; cbn [consecutive_days];
    [reflexivity|].
  rewrite (H day) by lia. destruct (accessed_on l' day); [|reflexivity].
  f_equal. apply IH. intros day' Hd. apply H. lia.
Qed.

(** The loop and the count of consecutive days agree from any running
    streak [s] on, when the remaining accesses fall on earlier and earlier
    days, none later than [s] days back. *)
Lemma count_streak_consecutive (now : Z) (l : list Z) :
  forall (s : Z) (fuel : nat),
    StronglySorted (fun a b => day_of b < day_of a) l ->
    Forall (fun t => day_of t <= day_of now - s) l ->
    (List.length l <= fuel)%nat ->
    count_streak (midnight now) l s = s + consecutive_days fuel l (day_of now - s).
Proof.
  induction l as [|t rest IH]; intros s fuel Hsorted Hpast Hfuel.
  - destruct fuel; cbn [count_streak consecutive_days accessed_on existsb]; lia.
  - destruct fuel as [|fuel]; [simpl in Hfuel; lia|].
    apply StronglySorted_inv in Hsorted as [Hsorted Hlater].
    apply Forall_cons_iff in Hpast as [Ht Hpast].
    cbn [count_streak consecutive_days]. rewrite days_diff.
    destruct (Z.eqb_spec (day_of now - day_of t) s) as [E|N].
    + assert (A : accessed_on (t :: rest) (day_of now - s) = true).
      { unfold accessed_on. simpl. apply orb_true_iff. left. apply Z.eqb_eq. lia. }
      rewrite A.
      rewrite (IH (s + 1) fuel Hsorted); [| |simpl in Hfuel; lia].
      * rewrite (consecutive_days_ext fuel (t :: rest) rest (day_of now - s - 1)).
        -- replace (day_of now - (s + 1)) with (day_of now - s - 1) by lia. lia.
        -- intros day' Hd. unfold accessed_on. simpl.
           destruct (Z.eqb_spec (day_of t) day'); [lia | reflexivity].
      * eapply Forall_impl; [|exact Hlater]. cbv beta. intros t' Ht'. lia.
    + rewrite not_accessed; [lia|].
      constructor; [lia|].
      eapply Forall_impl; [|exact Hlater]. cbv beta. intros t' Ht'. lia.
Qed.

Lemma insert_desc_In (x y : Z) (sorted : list Z) :
  In y (insert_desc x sorted) <-> y = x \/ In y sorted.
Proof.
  induction sorted as [|z rest IH]; simpl; [intuition|].
  destruct (z <? x); simpl; [intuition|]. rewrite IH. intuition.
Qed.

Lemma insert_desc_sorted (x : Z) (sorted : list Z) :
  StronglySorted (fun a b => b <= a) sorted ->
  StronglySorted (fun a b => b <= a) (insert_desc x sorted).
Proof.
  induction 1 as [|z rest Hrest IH Hz]; simpl.
  - repeat constructor.
  - destruct (Z.ltb_spec z x).
    + constructor; [now constructor|].
      constructor; [lia|]. eapply Forall_impl; [|exact Hz]. cbv beta. intros; lia.
    + constructor; [exact IH|].
      apply Forall_forall. intros y Hy. apply insert_desc_In in Hy as [->|Hy]; [lia|].
      rewrite Forall_forall in Hz. now apply Hz.
Qed.

Lemma order_desc_sorted (l : list Z) :
  StronglySorted (fun a b => b <= a) (order_desc l).
Proof.
  unfold order_desc. induction l as [|x l IH]; simpl; [constructor|].
  now apply insert_desc_sorted.
Qed.

Lemma distinct_days_decrease (l : list Z) :
  StronglySorted (fun a b => b <= a) l ->
  NoDup (map day_of l) ->
  StronglySorted (fun a b => day_of b < day_of a) l.
Proof.
  induction 1 as [|t rest Hrest IH Ht]; intro Hnodup; [constructor|].
  simpl in Hnodup. apply NoDup_cons_iff in Hnodup as [Hnew Hnodup].
  constructor; [now apply IH|].
  apply Forall_forall. intros t' Hin.
  rewrite Forall_forall in Ht. pose proof (day_of_mono _ _ (Ht t' Hin)).
  assert (day_of t' <> day_of t)
    by (intro E; apply Hnew; rewrite <- E; now apply in_map).
  lia.
Qed.

(** With at most one access a day, and none dated after today, the
    loop counts the consecutive days. *)
Lemma streak_of_distinct_days env userId d :
  NoDup (map day_of (accesses userId d)) ->
  Forall (fun t => day_of t <= day_of (now env)) (accesses userId d) ->
  calculateLearningStreak env userId d = spec_learning_streak env userId d.
Proof.
  intros Hnodup Hpast.
  unfold calculateLearningStreak, spec_learning_streak.
  assert (Hsorted : StronglySorted (fun a b => day_of b < day_of a) (accesses userId d))
    by (apply distinct_days_decrease; [apply order_desc_sorted | exact Hnodup]).
  destruct (accesses userId d) as [|t rest] eqn:E; [reflexivity|].
  rewrite (count_streak_consecutive (now env) (t :: rest) 0 (List.length (t :: rest))).
  - now rewrite Z.sub_0_r.
  - exact Hsorted.
  - eapply Forall_impl; [|exact Hpast]. cbv beta. intros; lia.
  - apply Nat.le_refl.
Qed.

(** C9. With two courses opened today and one yesterday, today and
    yesterday each have an access, so the streak of consecutive days is 2;
    [calculateLearningStreak] answers 1, because the second record of
    today is 0 days back where the loop expects 1.  Without any progress
    record both are 0. *)
Theorem streak_breaks_on_second_access_of_a_day :
  accesses "user-1" three_courses
  = [20 * day + 10 * hour; 20 * day + 9 * hour; 19 * day + 12 * hour]
  /\ spec_learning_streak this_evening "user-1" three_courses = 2
  /\ calculateLearningStreak this_evening "user-1" three_courses = 1
  /\ calculateLearningStreak this_evening "user-1" sessions_only = 0
  /\ spec_learning_streak this_evening "user-1" sessions_only = 0.
Proof. repeat split; vm_compute; reflexivity. Qed.

End GetUserAnalyticsFacts.

(** ** The scenarios, run *)

Module Runs.
Import Scenario.

(** C1, as stated, fails: the module insert is refused after the
    provider has answered, and the materialization is reported as done,
    with a course and no module. *)
Lemma refused_module_insert_is_reported_as_success :
  let r := GenerateFinalCourse.serve (refusing tbl_course_modules 1000 "Lesson text")
             "POST" final_request sessions_only in
  List.length (fetched (trace_of r)) = 1%nat
  /\ written (trace_of r)
     = [(tbl_courses, true); (tbl_course_modules, false); (tbl_user_progress, true);
        (tbl_course_generation_sessions, true)]
  /\ reports_success (response_of r) = true
  /\ map Course.total_modules (courses (db_of r)) = [2]
  /\ course_modules (db_of r) = [].
Proof. vm_compute. repeat split. Qed.

(** The same request, the module insert refused and applied. *)
Lemma materialize_reports_only_the_course_insert_witness :
  let env := refusing tbl_course_modules 1000 "Lesson text" in
  let r := GenerateFinalCourse.serve env "POST" final_request sessions_only in
  response_of r
  = response_of (GenerateFinalCourse.serve (at_time 1000 "Lesson text") "POST"
                   final_request sessions_only)
  /\ (In (tbl_courses, false) (written (trace_of r)) ->
      status (response_of r) = 500 /\ reports_success (response_of r) = false)
  /\ (In (tbl_course_modules, false) (written (trace_of r)) ->
      exists message,
        write_error env tbl_course_modules = Some message
        /\ In (ConsoleError ("Error creating modules: " ++ message)) (trace_of r))
  /\ (In (tbl_user_progress, false) (written (trace_of r)) ->
      exists message,
        write_error env tbl_user_progress = Some message
        /\ In (ConsoleError ("Error creating progress record: " ++ message)) (trace_of r)).
Proof.
  apply (GenerateFinalCourseFacts.materialize_reports_only_the_course_insert
           (refusing tbl_course_modules 1000 "Lesson text") (at_time 1000 "Lesson text")
           "POST" final_request sessions_only).
  - repeat split.
  - intros t Hm Hp. destruct t; try reflexivity; contradiction.
Defined.

(** C2, as stated, fails: the session stores one outline, the client
    sends another, and the prompt that goes to the provider is the one
    built from the client's, which is not the one built from the stored
    outline. *)
Lemma prompt_is_built_from_the_client_outline :
  let r := EditCourseOutline.serve parse (at_time 1000 reply) "POST" edit_request
             sessions_only in
  fetched (trace_of r)
  = [(EditCourseOutline.system_message,
      EditCourseOutline.editPrompt session client_outline ""
        "add a module on chlorophyll")]
  /\ (EditCourseOutline.editPrompt session client_outline ""
        "add a module on chlorophyll"
      =? EditCourseOutline.editPrompt session (Session.current_outline session) ""
           "add a module on chlorophyll")%string = false.
Proof. vm_compute. split; reflexivity. Qed.

(** The edit of the session of scenario A. *)
Lemma prompt_embeds_the_client_outline_witness :
  let r := EditCourseOutline.serve parse (at_time 1000 reply) "POST" edit_request
             sessions_only in
  let transcript :=
    EditCourseOutline.conversationContext (EditCourseOutline.history "session-1" sessions_only) in
  fetched (trace_of r)
  = [(EditCourseOutline.system_message,
      EditCourseOutline.editPrompt session client_outline transcript
        "add a module on chlorophyll")]
  /\ exists before after,
      forall stored client at_,
        EditCourseOutline.editPrompt (Session.set_outline stored at_ session) client
          transcript "add a module on chlorophyll"
        = before ++ stringify client ++ after.
Proof.
  apply (EditCourseOutlineFacts.prompt_embeds_the_client_outline parse
           (at_time 1000 reply) "POST" edit_request sessions_only
           "session-1" "add a module on chlorophyll" client_outline "user-1" session).
  - repeat split; discriminate.
  - reflexivity.
Defined.

(** From 10 percent: 40 is sent, then 30. *)
Lemma progress_is_max_and_time_is_added_witness :
  let r1 := UpdateProgress.serve (at_time 1000 reply) "POST" (Some "user-1") (update 40 7)
              begun in
  let r2 := UpdateProgress.serve (at_time 2000 reply) "POST" (Some "user-1") (update 30 3)
              (db_of r1) in
  exists u1 u2,
    stored_progress "user-1" "course-1" (db_of r1) = Some u1
    /\ stored_progress "user-1" "course-1" (db_of r2) = Some u2
    /\ Progress.progress_percentage u1 = Z.max 10 40
    /\ Progress.time_spent u1 = 5 + 7
    /\ Progress.progress_percentage u2 = Z.max (Progress.progress_percentage u1) 30
    /\ Progress.time_spent u2 = Progress.time_spent u1 + 3
    /\ (30 <= 40 -> Progress.progress_percentage u2 = Progress.progress_percentage u1)
    /\ (10 <= 40 -> 30 <= 40 -> Progress.progress_percentage u2 = 40)
    /\ (update 30 3 = update 40 7 ->
        Progress.progress_percentage u2 = Progress.progress_percentage u1
        /\ Progress.time_spent u2 = 5 + 2 * 7).
Proof.
  apply (UpdateProgressFacts.progress_is_max_and_time_is_added
           (at_time 1000 reply) (at_time 2000 reply) "POST" "user-1" (update 40 7)
           (update 30 3) begun "course-1" 40 30 (progress 10 5 0)).
  - repeat split; discriminate.
  - repeat split; discriminate.
  - reflexivity.
  - reflexivity.
  - reflexivity.
Defined.

(** C4, as stated, fails: the same 100 percent update at time 1000 and
    again at time 2000 leaves the course completed, with completed_at
    1000 after the first and 2000 after the second.  And the course is
    completed on conditions the claim does not name: not when the store
    refuses the course write, the update being reported as done all the
    same; not when the row carries the caller as clerk_user_id and no
    user_id; and a later update of 30 percent, the stored percentage
    staying at 100, stamps nothing. *)
Lemma second_update_restamps_completed_at :
  let r1 := UpdateProgress.serve (at_time 1000 reply) "POST" (Some "user-1") (update 100 7)
              begun in
  let r2 := UpdateProgress.serve (at_time 2000 reply) "POST" (Some "user-1") (update 100 7)
              (db_of r1) in
  let r3 := UpdateProgress.serve (at_time 3000 reply) "POST" (Some "user-1") (update 30 1)
              (db_of r2) in
  let refused := UpdateProgress.serve (refusing tbl_courses 1000 reply) "POST"
                   (Some "user-1") (update 100 7) begun in
  let foreign := UpdateProgress.serve (at_time 1000 reply) "POST" (Some "user-1")
                   (update 100 7) MoreScenarios.generated in
  reports_success (response_of r1) = true
  /\ reports_success (response_of r2) = true
  /\ map Course.status (courses (db_of r1)) = ["completed"]
  /\ map Course.completed_at (courses (db_of r1)) = [Some 1000]
  /\ map Course.status (courses (db_of r2)) = ["completed"]
  /\ map Course.completed_at (courses (db_of r2)) = [Some 2000]
  /\ reports_success (response_of r3) = true
  /\ map Progress.progress_percentage (user_progress (db_of r3)) = [100]
  /\ map Course.completed_at (courses (db_of r3)) = [Some 2000]
  /\ reports_success (response_of refused) = true
  /\ map Progress.progress_percentage (user_progress (db_of refused)) = [100]
  /\ map Course.status (courses (db_of refused)) = ["active"]
  /\ reports_success (response_of foreign) = true
  /\ map Progress.progress_percentage (user_progress (db_of foreign)) = [100]
  /\ courses (db_of foreign) = courses MoreScenarios.generated.
Proof. vm_compute. repeat split. Qed.

(** 100 percent, sent at time 1000 and again at time 2000. *)
Lemma completion_is_stamped_at_each_update_witness :
  let r1 := UpdateProgress.serve (at_time 1000 reply) "POST" (Some "user-1") (update 100 7)
              begun in
  let r2 := UpdateProgress.serve (at_time 2000 reply) "POST" (Some "user-1") (update 100 7)
              (db_of r1) in
  (Forall2 (completion (at_time 1000 reply) "user-1" "course-1")
     (courses begun) (courses (db_of r1))
   /\ Forall2 (completion (at_time 2000 reply) "user-1" "course-1")
        (courses (db_of r1)) (courses (db_of r2))
   /\ Forall2 (completion (at_time 2000 reply) "user-1" "course-1")
        (courses begun) (courses (db_of r2))
   /\ Forall (stamped "user-1" "course-1" 1000) (courses (db_of r1))
   /\ Forall (stamped "user-1" "course-1" 2000) (courses (db_of r2))
   /\ (forall env3 req3 lower,
         UpdateProgress.progress_percentage req3 = Some lower -> lower < 100 ->
         courses (db_of (UpdateProgress.serve env3 "POST" (Some "user-1") req3 (db_of r2)))
         = courses (db_of r2)))
  /\ map Course.completed_at (courses (db_of r1)) = [Some 1000]
  /\ map Course.completed_at (courses (db_of r2)) = [Some 2000]
  /\ map Course.user_id (courses (db_of r2)) = [Some "user-1"].
Proof.
  split; [|repeat split].
  apply (UpdateProgressFacts.completion_is_stamped_at_each_update
           (at_time 1000 reply) (at_time 2000 reply) "POST" "user-1" (update 100 7)
           begun "course-1" 100).
  - repeat split; discriminate.
  - discriminate.
  - reflexivity.
  - reflexivity.
  - reflexivity.
  - reflexivity.
Defined.

(** C5, as stated, fails: 101 and -1 are accepted and answered 200 like
    any other percentage.  Without a record of the course they are
    stored as sent; on the record at 10 percent, 101 is stored and -1
    leaves the 10. *)
Lemma out_of_range_percentages_are_accepted :
  let over := UpdateProgress.serve (at_time 1000 reply) "POST" (Some "user-1")
                (update 101 0) untouched in
  let under := UpdateProgress.serve (at_time 1000 reply) "POST" (Some "user-1")
                 (update (-1) 0) untouched in
  let over' := UpdateProgress.serve (at_time 1000 reply) "POST" (Some "user-1")
                 (update 101 0) begun in
  let under' := UpdateProgress.serve (at_time 1000 reply) "POST" (Some "user-1")
                  (update (-1) 0) begun in
  status (response_of over) = 200
  /\ reports_success (response_of over) = true
  /\ map Progress.progress_percentage (user_progress (db_of over)) = [101]
  /\ status (response_of under) = 200
  /\ reports_success (response_of under) = true
  /\ map Progress.progress_percentage (user_progress (db_of under)) = [-1]
  /\ status (response_of over') = 200
  /\ reports_success (response_of over') = true
  /\ map Progress.progress_percentage (user_progress (db_of over')) = [101]
  /\ status (response_of under') = 200
  /\ reports_success (response_of under') = true
  /\ map Progress.progress_percentage (user_progress (db_of under')) = [10].
Proof. vm_compute. repeat split. Qed.

(** 101 percent for a course without a progress record, and -1 percent
    for the course with its record at 10 percent. *)
Lemma percentage_is_not_range_checked_witness :
  let r := UpdateProgress.serve (at_time 1000 reply) "POST" (Some "user-1")
             (update 101 0) untouched in
  let r' := UpdateProgress.serve (at_time 1000 reply) "POST" (Some "user-1")
              (update (-1) 0) begun in
  ((forall cid pct,
       UpdateProgress.course_id (update 101 0) = Some cid -> cid <> "" ->
       UpdateProgress.progress_percentage (update 101 0) = Some pct ->
       status (response_of r) <> 400
       /\ (write_error (at_time 1000 reply) tbl_user_progress = None ->
           reports_success (response_of r) = true
           /\ (stored_progress "user-1" cid untouched = None ->
               exists p, In p (user_progress (db_of r))
                         /\ Progress.progress_percentage p = pct
                         /\ user_progress (db_of r) = (user_progress untouched ++ [p])%list
                         /\ body (response_of r) = ProgressSaved p)
           /\ (forall existing,
                 stored_progress "user-1" cid untouched = Some existing ->
                 exists p, stored_progress "user-1" cid (db_of r) = Some p
                           /\ Progress.progress_percentage p
                              = Z.max (Progress.progress_percentage existing) pct
                           /\ body (response_of r) = ProgressSaved p)))
   /\ (truthy_string (UpdateProgress.course_id (update 101 0)) = false
       \/ UpdateProgress.progress_percentage (update 101 0) = None ->
       status (response_of r) = 400 /\ db_of r = untouched /\ trace_of r = []))
  /\ (exists p, In p (user_progress (db_of r))
                /\ Progress.progress_percentage p = 101
                /\ user_progress (db_of r) = (user_progress untouched ++ [p])%list
                /\ body (response_of r) = ProgressSaved p)
  /\ (exists p, stored_progress "user-1" "course-1" (db_of r') = Some p
                /\ Progress.progress_percentage p = Z.max 10 (-1)
                /\ body (response_of r') = ProgressSaved p).
Proof.
  assert (Hpost : "POST" <> "OPTIONS") by discriminate.
  assert (Hcid : "course-1" <> "") by discriminate.
  pose proof (UpdateProgressFacts.percentage_is_not_range_checked
                (at_time 1000 reply) "POST" "user-1" (update 101 0) untouched Hpost) as H.
  pose proof (UpdateProgressFacts.percentage_is_not_range_checked
                (at_time 1000 reply) "POST" "user-1" (update (-1) 0) begun Hpost) as H'.
  cbv zeta in H, H'.
  split; [exact H|]. split.
  - destruct H as [H _].
    destruct (H "course-1" 101 eq_refl Hcid eq_refl) as [_ Hstored].
    destruct (Hstored eq_refl) as (_ & Hfirst & _). exact (Hfirst eq_refl).
  - destruct H' as [H' _].
    destruct (H' "course-1" (-1) eq_refl Hcid eq_refl) as [_ Hstored].
    destruct (Hstored eq_refl) as (_ & _ & Hnext).
    exact (Hnext (progress 10 5 0) eq_refl).
Defined.

(** C6, as stated, fails: the conversation insert is refused, the edit
    is reported as done, and the session has no conversation row. *)
Lemma edit_succeeds_without_its_conversation_rows :
  let r := EditCourseOutline.serve parse (refusing tbl_course_conversations 1000 reply)
             "POST" edit_request sessions_only in
  reports_success (response_of r) = true
  /\ written (trace_of r)
     = [(tbl_course_conversations, false); (tbl_course_generation_sessions, true)]
  /\ course_conversations (db_of r) = course_conversations sessions_only
  /\ List.length (EditCourseOutline.history "session-1" (db_of r)) = 0%nat.
Proof. vm_compute. repeat split. Qed.

(** The edit of the session of scenario A, every write applied: what is
    stored is the outline parsed from the provider's reply, not the
    outline the client sent. *)
Lemma edit_appends_two_entries_and_replaces_the_outline_witness :
  let env := at_time 1000 reply in
  let r := EditCourseOutline.serve parse env "POST" edit_request sessions_only in
  (exists sid msg updatedOutline,
      EditCourseOutline.session_id edit_request = Some sid
      /\ EditCourseOutline.user_message edit_request = Some msg
      /\ body (response_of r) = OutlineUpdated updatedOutline
      /\ (exists uid cur session content,
            EditCourseOutline.clerk_user_id edit_request = Some uid
            /\ EditCourseOutline.current_outline edit_request = Some cur
            /\ session_of sid uid sessions_only = Some session
            /\ fetched (trace_of r)
               = [(EditCourseOutline.system_message,
                   EditCourseOutline.editPrompt session cur
                     (EditCourseOutline.conversationContext
                        (EditCourseOutline.history sid sessions_only)) msg)]
            /\ provider env EditCourseOutline.system_message
                 (EditCourseOutline.editPrompt session cur
                    (EditCourseOutline.conversationContext
                       (EditCourseOutline.history sid sessions_only)) msg)
               = Completion content
            /\ parse_model_output parse content = inl updatedOutline)
      /\ course_conversations (db_of r)
         = (course_conversations sessions_only
            ++ [Conversation.mk sid "user" msg (now env);
                Conversation.mk sid "assistant"
                  (EditCourseOutline.assistant_message updatedOutline) (now env)])%list
      /\ List.length (EditCourseOutline.history sid (db_of r))
         = (List.length (EditCourseOutline.history sid sessions_only) + 2)%nat
      /\ Forall2
           (fun s s' =>
              s' = if (Session.id s =? sid)%string
                   then Session.set_outline updatedOutline (now env) s
                   else s)
           (course_generation_sessions sessions_only)
           (course_generation_sessions (db_of r))
      /\ Forall
           (fun s' => Session.id s' = sid -> Session.current_outline s' = updatedOutline)
           (course_generation_sessions (db_of r)))
  /\ parse_model_output parse reply = inl MoreScenarios.parsed_reply
  /\ map Session.current_outline (course_generation_sessions (db_of r))
     = [MoreScenarios.parsed_reply]
  /\ body (response_of r) = OutlineUpdated MoreScenarios.parsed_reply.
Proof.
  split; [|repeat split].
  apply (EditCourseOutlineFacts.edit_appends_two_entries_and_replaces_the_outline parse
           (at_time 1000 reply) "POST" edit_request sessions_only);
    reflexivity.
Defined.

(** C7, as stated, fails: the module insert is refused, the
    materialization is reported as done, and the course whose
    total_modules is 2 has no module row. *)
Lemma materialized_course_without_modules :
  let r := GenerateFinalCourse.serve (refusing tbl_course_modules 1000 "Lesson text")
             "POST" final_request sessions_only in
  reports_success (response_of r) = true
  /\ List.length (GenerateFinalCourse.modules_of client_outline) = 2%nat
  /\ map Course.total_modules (courses (db_of r)) = [2]
  /\ List.length (course_modules (db_of r)) = 0%nat
  /\ map Session.status (course_generation_sessions (db_of r)) = ["completed"].
Proof. vm_compute. repeat split. Qed.

(** The materialization of the client's outline of two modules, every
    write applied. *)
Lemma materialize_creates_course_modules_and_progress_witness :
  let env := at_time 1000 "Lesson text" in
  let r := GenerateFinalCourse.serve env "POST" final_request sessions_only in
  exists sid uid approved course rows,
    GenerateFinalCourse.session_id final_request = Some sid
    /\ GenerateFinalCourse.clerk_user_id final_request = Some uid
    /\ GenerateFinalCourse.approved_outline final_request = Some approved
    /\ courses (db_of r) = (courses sessions_only ++ [course])%list
    /\ Course.id course = new_id env
    /\ Course.clerk_user_id course = Some uid
    /\ Course.status course = "active"
    /\ Course.total_modules course
       = Z.of_nat (List.length (GenerateFinalCourse.modules_of approved))
    /\ course_modules (db_of r) = (course_modules sessions_only ++ rows)%list
    /\ List.length rows = List.length (GenerateFinalCourse.modules_of approved)
    /\ map CourseModule.order_index rows
       = map Z.of_nat (seq 1 (List.length (GenerateFinalCourse.modules_of approved)))
    /\ map CourseModule.title rows
       = map (fun m => get m "title") (GenerateFinalCourse.modules_of approved)
    /\ map CourseModule.description rows
       = map (fun m => get m "description") (GenerateFinalCourse.modules_of approved)
    /\ Forall (fun row => CourseModule.course_id row = new_id env) rows
    /\ user_progress (db_of r)
       = (user_progress sessions_only
          ++ [Progress.mk None (Some uid) (new_id env) 0 [] 0 (now env) ""])%list
    /\ Forall2
         (fun s s' =>
            s' = if (Session.id s =? sid)%string
                 then Session.set_status "completed" (now env) s
                 else s)
         (course_generation_sessions sessions_only)
         (course_generation_sessions (db_of r)).
Proof.
  apply (GenerateFinalCourseFacts.materialize_creates_course_modules_and_progress
           (at_time 1000 "Lesson text") "POST" final_request sessions_only);
    reflexivity.
Defined.

(** C8, as stated, fails: the reply has prose around its object, and a
    second pair of braces in the prose.  Its first balanced span is the
    object, which parses; the scan of the handlers runs on to the last
    closing brace, and what it yields does not parse, so the edit is
    answered 500. *)
Lemma scan_runs_to_the_last_brace :
  first_balanced_span chatty_reply = Some reply
  /\ parse reply
     = Parsed (JObject [("title", JString "Photosynthesis"); ("modules", JArray [])])
  /\ spec_parse_model_output parse chatty_reply
     = inl (JObject [("title", JString "Photosynthesis"); ("modules", JArray [])])
  /\ match_braces chatty_reply = Some (reply ++ " (send {}")
  /\ parse_model_output parse chatty_reply = inr "Unexpected token in JSON"
  /\ response_of (EditCourseOutline.serve parse (at_time 1000 chatty_reply) "POST"
                    edit_request sessions_only)
     = mkResponse 500 (Error "Unexpected token in JSON").
Proof. vm_compute. repeat split. Qed.

(** A reply that parses, one that parses nowhere, one without braces,
    and both handlers on the reply with prose. *)
Lemma malformed_output_is_answered_500_without_retry_witness :
  parse_model_output parse reply
  = inl (JObject [("title", JString "Photosynthesis"); ("modules", JArray [])])
  /\ parse_model_output parse chatty_reply
     = match parse ("{" ++ (dq ++ "title" ++ dq ++ ": " ++ dq ++ "Photosynthesis" ++ dq
                            ++ ", " ++ dq ++ "modules" ++ dq ++ ": []} (send {") ++ "}") with
       | Parsed v => inl v
       | SyntaxError message' => inr message'
       end
  /\ parse_model_output parse "I cannot help with that."
     = inr "Failed to parse AI response as JSON"
  /\ (let r := EditCourseOutline.serve parse (at_time 1000 chatty_reply) "POST"
                 edit_request sessions_only in
      response_of r = mkResponse 500 (Error "Unexpected token in JSON")
      /\ db_of r = sessions_only
      /\ List.length (fetched (trace_of r)) = 1%nat /\ written (trace_of r) = [])
  /\ (let r := GenerateCourseOutline.serve parse (at_time 1000 chatty_reply) "POST"
                 outline_request sessions_only in
      response_of r = mkResponse 500 (Error "Unexpected token in JSON")
      /\ db_of r = sessions_only
      /\ List.length (fetched (trace_of r)) = 1%nat /\ written (trace_of r) = []).
Proof.
  pose proof (malformed_output_is_answered_500_without_retry parse)
    as (Hdirect & Hscan & Hnone & Hedit & Houtline).
  split; [|split; [|split; [|split]]].
  - apply Hdirect. reflexivity.
  - apply (Hscan chatty_reply "Unexpected token in JSON" "Here you go: " _
             " to start over)");
      reflexivity.
  - apply (Hnone _ "Unexpected token in JSON"); [reflexivity|].
    apply match_braces_None. reflexivity.
  - apply (Hedit (at_time 1000 chatty_reply) "POST" edit_request sessions_only
             "session-1" "add a module on chlorophyll" client_outline "user-1" session
             chatty_reply "Unexpected token in JSON").
    + repeat split; discriminate.
    + reflexivity.
    + reflexivity.
    + reflexivity.
  - apply (Houtline (at_time 1000 chatty_reply) "POST" outline_request sessions_only
             "Photosynthesis" "for a biology exam" "beginner" "pass the exam" "3-5"
             "user-1" chatty_reply "Unexpected token in JSON").
    + repeat split; discriminate.
    + reflexivity.
    + reflexivity.
Defined.

(** 100 percent, then a late 30 percent. *)
Lemma completed_courses_stay_completed_witness :
  let late := mkInvocation (at_time 3000 reply) "POST" (Some "user-1") (update 30 1) in
  let done := mkInvocation (at_time 2000 reply) "POST" (Some "user-1") (update 100 1) in
  courses (db_of (UpdateProgress.serve (at_time 3000 reply) "POST" (Some "user-1")
                    (update 30 1) begun))
  = courses begun
  /\ Forall2 kept (courses begun) (courses (invoke_all [done; late] begun))
  /\ map Course.status (courses (invoke_all [done; late] begun)) = ["completed"].
Proof.
  destruct UpdateProgressFacts.completed_courses_stay_completed as [Hlow Hall].
  split; [|split].
  - apply Hlow. intros pct H. injection H as <-. reflexivity.
  - apply Hall.
  - reflexivity.
Defined.

End Runs.

(** * Further properties of the handlers *)

(** ** update-progress *)

Module UpdateProgressMore.
Import UpdateProgress UpdateProgressFacts.

Ltac branches env req pct :=
  destruct (truthy_string (module_id req)); exec;
  [destruct (write_error env tbl_module_progress); exec|];
  (destruct (100 <=? pct); exec; [destruct (write_error env tbl_courses); exec|]).

(** X1. An update that is not reported as done has changed nothing: it was
    turned away before any read (no caller, a missing field), or its
    progress write was refused, which stops the handler before its other
    writes. *)
Theorem failed_update_changes_nothing env method user req d :
  let r := serve env method user req d in
  reports_success (response_of r) = false ->
  db_of r = d
  /\ nothing_applied (trace_of r)
  /\ (status (response_of r) = 401 \/ status (response_of r) = 400 -> trace_of r = []).
Proof.
  intro r. subst r. unfold serve, run, nothing_applied.
  destruct (method =? "OPTIONS")%string.
  { intros _. repeat split. constructor. }
  unfold handler.
  destruct user as [uid|]; [|exec; intros _; repeat split; constructor].
  destruct (progress_percentage req) as [pct|];
    [|exec; intros _; repeat split; constructor].
  destruct (truthy_string (course_id req));
    [|exec; intros _; repeat split; constructor].
  exec.
  destruct (single _); exec;
    (destruct (write_error env tbl_user_progress); exec;
     [intros _; destruct d; split; [reflexivity|];
      split; [repeat constructor | intros [H|H]; discriminate H]|]);
    branches env req pct; discriminate.
Qed.

(** What an invocation does to the progress table: nothing, the update
    of the record found, or one more row when no single record is
    found. *)
Lemma serve_progress_cases env method user req d :
  let rows' := user_progress (db_of (serve env method user req d)) in
  rows' = user_progress d
  \/ (exists uid cid pct existing,
        stored_progress uid cid d = Some existing
        /\ rows' = update_rows uid cid (merge env req pct existing) (user_progress d))
  \/ (exists uid cid pct,
        stored_progress uid cid d = None
        /\ rows' = (user_progress d ++ [fresh env uid cid req pct])%list).
Proof.
  unfold serve, run.
  destruct (method =? "OPTIONS")%string; [now left|].
  unfold handler.
  destruct user as [uid|]; [|now left].
  destruct (progress_percentage req) as [pct|]; [|now left].
  destruct (truthy_string (course_id req)); [|now left].
  exec. set (cid := string_or (course_id req) "").
  destruct (single (filter (owned_by uid cid) (user_progress d))) as [existing|] eqn:Hs; exec;
    (destruct (write_error env tbl_user_progress); exec; [now left|]).
  - right. left. exists uid, cid, pct, existing. split; [exact Hs|].
    branches env req pct; reflexivity.
  - right. right. exists uid, cid, pct. split; [exact Hs|].
    branches env req pct; reflexivity.
Qed.

Lemma owned_by_fresh env uid cid req pct u c :
  owned_by u c (fresh env uid cid req pct) = true -> u = uid /\ c = cid.
Proof.
  unfold owned_by, fresh. cbn [Progress.user_id Progress.course_id].
  intro H. apply andb_true_iff in H as [Hu Hc].
  apply String.eqb_eq in Hu, Hc. split; congruence.
Qed.

Lemma single_None_short {A} (l : list A) :
  single l = None -> (List.length l <= 1)%nat -> l = [].
Proof.
  destruct l as [|a [|b l]]; simpl; intros H Hl; [reflexivity | discriminate | lia].
Qed.

Lemma count_after_update (P : Progress.t -> bool) uid cid f rows :
  (forall p, P (f p) = P p) ->
  List.length (filter P (update_rows uid cid f rows)) = List.length (filter P rows).
Proof.
  intro Hf. unfold update_rows.
  induction rows as [|p rows IH]; simpl; [reflexivity|].
  destruct (owned_by uid cid p); [rewrite Hf|]; destruct (P p); simpl; now rewrite IH.
Qed.

(** X2. The handler keeps the table to one record for each (user, course):
    it inserts only where it found none. *)
Theorem one_record_per_user_and_course env method user req d :
  unique_progress d ->
  unique_progress (db_of (serve env method user req d)).
Proof.
  intros Hd u c. specialize (Hd u c) as Huc.
  destruct (serve_progress_cases env method user req d)
    as [E | [(uid & cid & pct & existing & _ & E) | (uid & cid & pct & Hs & E)]];
    rewrite E.
  - exact Huc.
  - now rewrite count_after_update by (intro; apply owned_by_merge).
  - rewrite filter_app, length_app. cbn [filter].
    destruct (owned_by u c (fresh env uid cid req pct)) eqn:Ho; [|simpl; lia].
    apply owned_by_fresh in Ho as [-> ->].
    unfold stored_progress in Hs. rewrite (single_None_short _ Hs Huc). reflexivity.
Qed.

Lemma other_rows_updated uid cid f rows :
  (forall p, owned_by uid cid (f p) = owned_by uid cid p) ->
  filter (fun p => negb (owned_by uid cid p)) (update_rows uid cid f rows)
  = filter (fun p => negb (owned_by uid cid p)) rows.
Proof.
  intro Hf. unfold update_rows.
  induction rows as [|p rows IH]; simpl; [reflexivity|].
  destruct (owned_by uid cid p) eqn:E.
  - rewrite Hf, E. exact IH.
  - rewrite E. simpl. now rewrite IH.
Qed.

(** X3. An update reaches the caller's record of the one course and nothing
    else: the progress records of other users and other courses stay as
    they are, in their order, and the sessions, conversations and course
    modules are never written. *)
Theorem update_touches_only_the_callers_record env method uid req d cid pct :
  valid method req cid pct ->
  let r := serve env method (Some uid) req d in
  other_progress uid cid (db_of r) = other_progress uid cid d
  /\ course_generation_sessions (db_of r) = course_generation_sessions d
  /\ course_conversations (db_of r) = course_conversations d
  /\ course_modules (db_of r) = course_modules d.
Proof.
  intros H r. subst r. unfold other_progress. enter H.
  exec. set (others := fun p => negb (owned_by uid cid p)).
  destruct (single (filter (owned_by uid cid) (user_progress d))) as [existing|]; exec;
    (destruct (write_error env tbl_user_progress); exec; [now repeat split|]);
    branches env req pct;
    cbn [user_progress course_generation_sessions course_conversations course_modules
         with_progress with_courses with_module_progress];
    (split; [|now repeat split]).
  all: first [ apply other_rows_updated; intro; apply owned_by_merge
             | rewrite filter_app; cbn [filter]; subst others; cbv beta;
               unfold owned_by at 2; cbn [fresh Progress.user_id Progress.course_id];
               rewrite !String.eqb_refl; cbn [andb negb]; apply app_nil_r ].
Qed.

(** X4. An accepted update of an existing record keeps what the request
    leaves out: the completed modules are the list sent, or else the
    stored one; the notes are the notes sent unless they are missing or
    empty; the record keeps its user and course; last_accessed is the
    time of the call; and the answer carries the record as stored. *)
Theorem update_keeps_what_the_request_omits env method uid req d cid pct existing :
  valid method req cid pct ->
  stored_progress uid cid d = Some existing ->
  let r := serve env method (Some uid) req d in
  status (response_of r) = 200 ->
  exists updated,
    stored_progress uid cid (db_of r) = Some updated
    /\ body (response_of r) = ProgressSaved updated
    /\ Progress.completed_modules updated
       = match completed_modules req with
         | Some sent => sent
         | None => Progress.completed_modules existing
         end
    /\ Progress.notes updated
       = match notes req with
         | Some sent => if (sent =? "")%string then Progress.notes existing else sent
         | None => Progress.notes existing
         end
    /\ Progress.last_accessed updated = now env
    /\ Progress.user_id updated = Progress.user_id existing
    /\ Progress.clerk_user_id updated = Progress.clerk_user_id existing
    /\ Progress.course_id updated = Progress.course_id existing.
Proof.
  intros H Hs r Hr.
  pose proof (accepted_not_refused _ _ _ _ _ _ _ H Hr) as Hw.
  destruct (serve_update env method uid req d cid pct existing H Hs Hw) as [E1 E2].
  exists (merge env req pct existing existing). subst r. split.
  - rewrite <- (stored_after_merge env req pct existing uid cid d Hs).
    unfold stored_progress. now rewrite E2.
  - rewrite E1. repeat split.
Qed.

(** X5. Where no single record is found, an accepted update appends one row
    and nothing more: the percentage as sent, the time sent or 0, the
    completed modules sent or none, the notes sent or empty; the answer
    carries that row. *)
Theorem first_update_appends_one_record env method uid req d cid pct :
  valid method req cid pct ->
  stored_progress uid cid d = None ->
  let r := serve env method (Some uid) req d in
  status (response_of r) = 200 ->
  exists created,
    user_progress (db_of r) = (user_progress d ++ [created])%list
    /\ body (response_of r) = ProgressSaved created
    /\ Progress.user_id created = Some uid
    /\ Progress.course_id created = cid
    /\ Progress.progress_percentage created = pct
    /\ Progress.time_spent created = delta req
    /\ Progress.completed_modules created
       = match completed_modules req with Some sent => sent | None => [] end
    /\ Progress.notes created = match notes req with Some sent => sent | None => "" end.
Proof.
  intros H Hs r Hr.
  pose proof (accepted_not_refused _ _ _ _ _ _ _ H Hr) as Hw.
  destruct (serve_insert env method uid req d cid pct H Hs Hw) as [E1 E2].
  exists (fresh env uid cid req pct). subst r. rewrite E1, E2.
  do 5 (split; [reflexivity|]).
  split; [apply or_zero_delta|].
  split; [reflexivity|].
  cbn [fresh Progress.notes]. unfold string_or.
  destruct (notes req) as [sent|]; [|reflexivity].
  destruct (String.eqb_spec sent ""); congruence.
Qed.

End UpdateProgressMore.

(** ** edit-course-outline *)

Lemma no_session_of sid uid d :
  not_the_callers sid uid d ->
  filter (Session.owned_by sid uid) (course_generation_sessions d) = [].
Proof.
  unfold not_the_callers.
  induction (course_generation_sessions d) as [|s rows IH]; intro H; [reflexivity|].
  apply Forall_cons_iff in H as [Hs H]. cbn [filter]. unfold Session.owned_by at 1.
  destruct (String.eqb_spec (Session.id s) sid) as [E|_]; cbn [andb]; [|now apply IH].
  destruct (String.eqb_spec (Session.clerk_user_id s) uid) as [E'|_]; [|now apply IH].
  now destruct (Hs E).
Qed.

Module EditCourseOutlineMore.
Import EditCourseOutline EditCourseOutlineFacts.

Ltac quiet := split; [|split]; [reflexivity | reflexivity | simpl; lia].

Section Parser.
Variable JSON_parse : string -> ParseResult.

(** X6. A session of another user, or of no one, is answered 404 after the
    one read that looked for it: nothing of it is in the answer, the
    provider is not called and nothing is written. *)
Theorem foreign_session_is_not_edited env method req d sid msg cur uid :
  valid method req sid msg cur uid ->
  not_the_callers sid uid d ->
  serve JSON_parse env method req d
  = (mkResponse 404 (Error "Session not found or unauthorized"), d,
     [Read tbl_course_generation_sessions]).
Proof.
  intros (Hm & Hs & Hs' & Hu & Hu' & Hc & Hc' & Hi & Hi') Hnone.
  unfold serve, run. rewrite (not_options _ Hm). unfold handler.
  rewrite Hc, Hs, Hu, Hi, Hc'.
  destruct (truthy_string_Some _ Hs') as [-> ->].
  destruct (truthy_string_Some _ Hu') as [-> ->].
  destruct (truthy_string_Some _ Hi') as [-> ->].
  exec. rewrite (no_session_of sid uid d Hnone). exec. now destruct d.
Qed.

(** The two ways an invocation ends: without a write and without the
    report of success, or, for a valid request on a session of the
    caller, with the report and the two writes as the store took them. *)
Lemma edit_outcomes env method req d :
  let r := serve JSON_parse env method req d in
  (reports_success (response_of r) = false /\ db_of r = d
   /\ written (trace_of r) = [] /\ (List.length (fetched (trace_of r)) <= 1)%nat)
  \/ (exists sid msg cur uid session updatedOutline,
        valid method req sid msg cur uid
        /\ session_of sid uid d = Some session
        /\ response_of r = mkResponse 200 (OutlineUpdated updatedOutline)
        /\ db_of r
           = fst (attempt env tbl_course_generation_sessions
                    (with_sessions
                       (Session.update sid (Session.set_outline updatedOutline (now env))))
                    (fst (attempt env tbl_course_conversations
                            (with_conversations
                               (fun rows => (rows ++ exchange env sid msg updatedOutline)%list))
                            d)))
        /\ List.length (fetched (trace_of r)) = 1%nat).
Proof.
  intro r.
  destruct (reports_success (response_of r)) eqn:Hok.
  - right. destruct (success_inv JSON_parse env method req d Hok)
      as (sid & msg & cur & uid & session & H & Hf).
    pose proof (edit_run JSON_parse env method req d sid msg cur uid session H Hf) as E.
    cbv zeta in E. subst r. rewrite E in Hok |- *.
    destruct (provider env system_message _); [discriminate|].
    destruct (parse_model_output JSON_parse content) as [updatedOutline|]; [|discriminate].
    exists sid, msg, cur, uid, session, updatedOutline.
    unfold attempt.
    destruct (write_error env tbl_course_conversations);
      destruct (write_error env tbl_course_generation_sessions);
      (split; [exact H|]); (split; [exact Hf|]); repeat split.
  - left. split; [reflexivity|]. revert Hok. subst r. unfold serve, run.
    destruct (method =? "OPTIONS")%string; [intros _; quiet|].
    unfold handler.
    destruct (current_outline req) as [cur|]; [|exec; intros _; quiet].
    destruct (negb (truthy_string (session_id req)) || negb (truthy_string (user_message req))
              || negb (truthy cur) || negb (truthy_string (clerk_user_id req)));
      [exec; intros _; quiet|].
    exec. destruct (single _) as [session|]; [|exec; intros _; destruct d; quiet].
    exec.
    destruct (provider env system_message _) as [|content]; exec;
      [intros _; destruct d; quiet|].
    destruct (parse_model_output JSON_parse content); exec;
      [|intros _; destruct d; quiet].
    destruct (write_error env tbl_course_conversations);
      destruct (write_error env tbl_course_generation_sessions); exec; discriminate.
Qed.

(** X7. An edit that is not reported as done has written nothing, whatever
    the reason: a missing field, a session that is not the caller's, the
    provider's refusal or a reply that is no JSON.  And no invocation
    calls the provider more than once. *)
Theorem failed_edit_changes_nothing env method req d :
  let r := serve JSON_parse env method req d in
  (reports_success (response_of r) = false -> db_of r = d /\ written (trace_of r) = [])
  /\ (List.length (fetched (trace_of r)) <= 1)%nat.
Proof.
  intro r. subst r. pose proof (edit_outcomes env method req d) as H. cbv zeta in H.
  destruct H as [(_ & Hd & Hw & Hf)|H].
  - now repeat split.
  - destruct H as (sid & msg & cur & uid & session & updatedOutline & _ & _ & Hr & _ & Hf).
    rewrite Hr, Hf. split; [discriminate | lia].
Qed.

Lemma set_outline_same sid o at_ rows :
  Forall2 (same_session_but_outline (Some sid)) rows
    (Session.update sid (Session.set_outline o at_) rows).
Proof.
  unfold Session.update.
  induction rows as [|s rows IH]; cbn [map]; constructor; [|exact IH].
  destruct (String.eqb_spec (Session.id s) sid) as [E|N].
  - repeat split. intro H. now rewrite E in H.
  - now repeat split.
Qed.

Lemma same_session_refl sid rows :
  Forall2 (same_session_but_outline sid) rows rows.
Proof. induction rows; constructor; [now repeat split | assumption]. Qed.

(** X9. Whatever a request asks and however the invocation ends, an edit
    leaves every session its id, its owner, its five parameters and its
    status, and leaves the sessions of other ids as they are; it removes
    and alters no conversation row, adding rows of the request's session
    only; and it leaves the courses, the modules and the progress
    records alone. *)
Theorem edit_rewrites_only_the_outline env method req d :
  let r := serve JSON_parse env method req d in
  Forall2 (same_session_but_outline (session_id req))
    (course_generation_sessions d) (course_generation_sessions (db_of r))
  /\ (exists added,
        course_conversations (db_of r) = (course_conversations d ++ added)%list
        /\ Forall (fun c => session_id req = Some (Conversation.session_id c)) added)
  /\ courses (db_of r) = courses d
  /\ course_modules (db_of r) = course_modules d
  /\ user_progress (db_of r) = user_progress d
  /\ module_progress (db_of r) = module_progress d.
Proof.
  intro r. subst r. pose proof (edit_outcomes env method req d) as H. cbv zeta in H.
  destruct H as [(_ & Hd & _)|H].
  - rewrite Hd. split; [apply same_session_refl|].
    split; [exists []; now rewrite app_nil_r|]. now repeat split.
  - destruct H as (sid & msg & cur & uid & session & updatedOutline & Hv & _ & _ & Hd & _).
    destruct Hv as (_ & Hs & _). rewrite Hd, Hs. unfold attempt.
    destruct (write_error env tbl_course_conversations);
      destruct (write_error env tbl_course_generation_sessions);
      cbn [fst with_sessions with_conversations course_generation_sessions
           course_conversations courses course_modules user_progress module_progress];
      (split; [first [apply set_outline_same | apply same_session_refl]|]);
      (split; [|now repeat split]).
    1,2: exists []; now rewrite app_nil_r.
    1,2: exists (exchange env sid msg updatedOutline); split; [reflexivity|];
         now repeat constructor.
Qed.

Lemma insert_latest c sorted :
  Forall (fun c' => Conversation.created_at c' <= Conversation.created_at c) sorted ->
  insert_by_created_at c sorted = (sorted ++ [c])%list.
Proof.
  induction 1 as [|c' rest Hc' _ IH]; cbn [insert_by_created_at app]; [reflexivity|].
  destruct (Z.ltb_spec (Conversation.created_at c) (Conversation.created_at c')); [lia|].
  now rewrite IH.
Qed.

Lemma Forall_insert_by_created_at (P : Conversation.t -> Prop) c sorted :
  P c -> Forall P sorted -> Forall P (insert_by_created_at c sorted).
Proof.
  intros Hc. induction 1 as [|c' rest Hc' Hrest IH]; cbn [insert_by_created_at];
    [now repeat constructor|].
  destruct (Conversation.created_at c <? Conversation.created_at c');
    repeat constructor; assumption.
Qed.

Lemma Forall_order_by_created_at (P : Conversation.t -> Prop) rows :
  Forall P rows -> Forall P (order_by_created_at rows).
Proof.
  unfold order_by_created_at.
  enough (G : forall acc, Forall P acc -> Forall P rows ->
                          Forall P (fold_left (fun sorted c => insert_by_created_at c sorted)
                                      rows acc))
    by (apply G; constructor).
  induction rows as [|c rows IH]; intros acc Hacc Hrows; cbn [fold_left]; [assumption|].
  apply Forall_cons_iff in Hrows as [Hc Hrows].
  apply IH; [now apply Forall_insert_by_created_at | assumption].
Qed.

Lemma order_latest rows c :
  Forall (fun c' => Conversation.created_at c' <= Conversation.created_at c) rows ->
  order_by_created_at (rows ++ [c]) = (order_by_created_at rows ++ [c])%list.
Proof.
  intro H. unfold order_by_created_at at 1. rewrite fold_left_app. cbn [fold_left].
  fold (order_by_created_at rows).
  now apply insert_latest, Forall_order_by_created_at.
Qed.

(** The rows an applied edit appends are the last of the session's
    history, in their order, when no stored row of the session is dated
    later than the edit. *)
Lemma history_after_exchange env sid msg updatedOutline d sessions' :
  Forall (fun c => Conversation.session_id c = sid -> Conversation.created_at c <= now env)
    (course_conversations d) ->
  history sid
    (with_sessions sessions'
       (with_conversations (fun rows => (rows ++ exchange env sid msg updatedOutline)%list) d))
  = (history sid d ++ exchange env sid msg updatedOutline)%list.
Proof.
  intro Hold. unfold history.
  cbn [with_sessions with_conversations course_conversations].
  rewrite filter_app. cbn [exchange filter Conversation.session_id].
  rewrite String.eqb_refl.
  set (old := filter _ (course_conversations d)).
  assert (Hle : Forall (fun c' => Conversation.created_at c' <= now env) old).
  { apply Forall_forall. intros c Hin. apply filter_In in Hin as [Hin Hs].
    rewrite Forall_forall in Hold. apply (Hold c Hin). now apply String.eqb_eq. }
  change (old ++ [?u; ?a])%list with (old ++ [u] ++ [a])%list.
  rewrite app_assoc, order_latest.
  - rewrite order_latest by exact Hle. now rewrite <- app_assoc.
  - apply Forall_app. split; [exact Hle|]. repeat constructor. cbn. lia.
Qed.

Lemma filter_update sid uid f rows :
  (forall s, Session.id (f s) = Session.id s
             /\ Session.clerk_user_id (f s) = Session.clerk_user_id s) ->
  filter (Session.owned_by sid uid) (Session.update sid f rows)
  = map f (filter (Session.owned_by sid uid) rows).
Proof.
  intro Hf. unfold Session.update.
  induction rows as [|s rows IH]; cbn [map filter]; [reflexivity|].
  destruct (String.eqb_spec (Session.id s) sid) as [E|N].
  - assert (Ho : Session.owned_by sid uid (f s) = Session.owned_by sid uid s)
      by (unfold Session.owned_by; now destruct (Hf s) as [-> ->]).
    rewrite Ho, IH. now destruct (Session.owned_by sid uid s).
  - assert (Ho : Session.owned_by sid uid s = false)
      by (unfold Session.owned_by; apply String.eqb_neq in N; now rewrite N).
    rewrite Ho. exact IH.
Qed.

Lemma session_after_update sid uid f d session :
  (forall s, Session.id (f s) = Session.id s
             /\ Session.clerk_user_id (f s) = Session.clerk_user_id s) ->
  session_of sid uid d = Some session ->
  forall d', course_generation_sessions d' = Session.update sid f (course_generation_sessions d) ->
  session_of sid uid d' = Some (f session).
Proof.
  intros Hf Hs d' E. unfold session_of in *. rewrite E, (filter_update sid uid f _ Hf).
  destruct (filter _ (course_generation_sessions d)) as [|s [|? ?]]; try discriminate.
  now injection Hs as ->.
Qed.

(** X10. What an edit stores is what the next edit of the session sends: its
    prompt is built on the session with the outline the first edit
    stored, and its transcript is the transcript of the first edit
    followed by that edit's message and reply, when the store applied the
    two writes and no row of the session is dated later than the first
    edit (rows of one instant being read in the order of their
    insertion). *)
Theorem next_edit_replays_the_exchange
  env env' method req req' d sid uid session msg cur msg' cur' updatedOutline :
  valid method req sid msg cur uid ->
  valid method req' sid msg' cur' uid ->
  session_of sid uid d = Some session ->
  write_error env tbl_course_conversations = None ->
  write_error env tbl_course_generation_sessions = None ->
  Forall (fun c => Conversation.session_id c = sid -> Conversation.created_at c <= now env)
    (course_conversations d) ->
  let r := serve JSON_parse env method req d in
  body (response_of r) = OutlineUpdated updatedOutline ->
  let r' := serve JSON_parse env' method req' (db_of r) in
  history sid (db_of r) = (history sid d ++ exchange env sid msg updatedOutline)%list
  /\ fetched (trace_of r')
     = [(system_message,
         editPrompt (Session.set_outline updatedOutline (now env) session) cur'
           (conversationContext (history sid d ++ exchange env sid msg updatedOutline))
           msg')].
Proof.
  intros Hv Hv' Hs Hw1 Hw2 Hold r Hbody r'.
  pose proof (edit_run JSON_parse env method req d sid msg cur uid session Hv Hs) as E.
  cbv zeta in E. subst r'. subst r. rewrite E in Hbody |- *. clear E.
  destruct (provider env system_message _); [discriminate|].
  destruct (parse_model_output JSON_parse content) as [o|]; [|discriminate].
  unfold attempt in *. rewrite Hw1, Hw2 in *.
  cbn [response_of db_of fst snd body] in *. injection Hbody as ->.
  assert (Hh := history_after_exchange env sid msg updatedOutline d
                  (Session.update sid (Session.set_outline updatedOutline (now env))) Hold).
  split; [exact Hh|].
  match goal with |- context [serve _ _ _ _ ?d'] => set (d1 := d') in * end.
  assert (Hs' : session_of sid uid d1
                = Some (Session.set_outline updatedOutline (now env) session)).
  { apply (session_after_update sid uid _ d session); [now split | exact Hs | reflexivity]. }
  rewrite (edit_run JSON_parse env' method req' d1 sid msg' cur' uid _ Hv' Hs'), Hh.
  destruct (provider env' system_message _); [reflexivity|].
  destruct (parse_model_output JSON_parse content0); [|reflexivity].
  unfold attempt.
  destruct (write_error env' tbl_course_conversations);
    destruct (write_error env' tbl_course_generation_sessions); reflexivity.
Qed.

(** X8. The request is turned away with a 400, before anything is read,
    exactly when a field is missing or falsy: an absent or empty session
    id, message or user id, or an outline that is absent, null, false, 0
    or the empty string.  An empty object or array is an outline. *)
Theorem edit_is_rejected_when_a_field_is_missing env method req d :
  method <> "OPTIONS" ->
  let r := serve JSON_parse env method req d in
  (status (response_of r) = 400 <-> edit_fields_present req = false)
  /\ (edit_fields_present req = false -> db_of r = d /\ trace_of r = []).
Proof.
  intros Hm r. subst r. unfold serve, run, edit_fields_present.
  rewrite (not_options _ Hm). unfold handler, truthy_value.
  destruct (current_outline req) as [cur|];
    [|destruct (truthy_string (session_id req)), (truthy_string (user_message req)),
        (truthy_string (clerk_user_id req)); exec; now repeat split].
  destruct (truthy_string (session_id req)), (truthy_string (user_message req)),
    (truthy cur), (truthy_string (clerk_user_id req)); exec;
    try (now repeat split).
  split; [|discriminate]. split; [|discriminate].
  destruct (single _); exec; [|discriminate].
  destruct (provider env system_message _); exec; [discriminate|].
  destruct (parse_model_output JSON_parse content); exec; [|discriminate].
  destruct (write_error env tbl_course_conversations);
    destruct (write_error env tbl_course_generation_sessions); exec; discriminate.
Qed.

End Parser.
End EditCourseOutlineMore.

(** ** generate-course-outline *)

Module GenerateCourseOutlineMore.
Import GenerateCourseOutline GenerateCourseOutlineFacts.

Section Parser.
Variable JSON_parse : string -> ParseResult.

Lemma outline_valid method req :
  method <> "OPTIONS" ->
  outline_fields_present req = true ->
  exists topic' context' level goals duration uid,
    valid method req topic' context' level goals duration uid.
Proof.
  intros Hm H. unfold outline_fields_present in H.
  repeat (apply andb_prop in H as [H ?]).
  repeat match goal with
         | T : truthy_string _ = true |- _ => apply truthy_string_inv in T as (? & ? & ?)
         end.
  do 6 eexists. unfold valid. repeat split; eassumption.
Qed.

(** X11. The request is turned away with a 400, before the provider is
    called, exactly when one of its six fields is absent or the empty
    string.  Nothing is trimmed: a field of blanks is a field. *)
Theorem outline_is_rejected_when_a_field_is_missing env method req d :
  method <> "OPTIONS" ->
  let r := serve JSON_parse env method req d in
  (status (response_of r) = 400 <-> outline_fields_present req = false)
  /\ (outline_fields_present req = false -> db_of r = d /\ trace_of r = []).
Proof.
  intros Hm r. subst r.
  destruct (outline_fields_present req) eqn:Hp.
  - destruct (outline_valid method req Hm Hp)
      as (topic' & context' & level & goals & duration & uid & Hv).
    rewrite (outline_run JSON_parse env method req d _ _ _ _ _ _ Hv). cbv zeta.
    split; [|discriminate]. split; [|discriminate].
    destruct (provider env system_message _); [discriminate|].
    destruct (parse_model_output JSON_parse content); [|discriminate].
    destruct (write_error env tbl_course_generation_sessions); discriminate.
  - unfold serve, run. rewrite (not_options _ Hm). unfold handler.
    unfold outline_fields_present in Hp.
    destruct (truthy_string (topic req)), (truthy_string (context req)),
      (truthy_string (knowledge_level req)), (truthy_string (learning_goals req)),
      (truthy_string (preferred_duration req)), (truthy_string (clerk_user_id req));
      try discriminate Hp; exec; now repeat split.
Qed.

(** The ways an invocation ends: with nothing stored and no report of
    success, or with one session stored and reported. *)
Lemma outline_outcomes env method req d :
  let r := serve JSON_parse env method req d in
  (reports_success (response_of r) = false /\ db_of r = d
   /\ nothing_applied (trace_of r) /\ (List.length (fetched (trace_of r)) <= 1)%nat)
  \/ (exists topic' context' level goals duration uid content courseOutline,
        valid method req topic' context' level goals duration uid
        /\ provider env system_message
             (personalizedPrompt topic' context' level goals duration)
           = Completion content
        /\ parse_model_output JSON_parse content = inl courseOutline
        /\ r = (mkResponse 200 (SessionCreated (new_id env) courseOutline),
                with_sessions
                  (fun rows =>
                     (rows ++ [Session.mk (new_id env) uid topic' context' level goals
                                 duration courseOutline "outline_review" (now env)])%list) d,
                [Fetch system_message (personalizedPrompt topic' context' level goals duration);
                 Write tbl_course_generation_sessions true])).
Proof.
  intro r. subst r. unfold nothing_applied.
  destruct (String.eqb_spec method "OPTIONS") as [->|Hm].
  { left. repeat split; [constructor | simpl; lia]. }
  destruct (outline_fields_present req) eqn:Hp.
  - destruct (outline_valid method req Hm Hp)
      as (topic' & context' & level & goals & duration & uid & Hv).
    rewrite (outline_run JSON_parse env method req d _ _ _ _ _ _ Hv). cbv zeta.
    destruct (provider env system_message _) as [|content] eqn:Hprov;
      [left; repeat split; [constructor | simpl; lia]|].
    destruct (parse_model_output JSON_parse content) as [courseOutline|] eqn:Hparse;
      [|left; repeat split; [constructor | simpl; lia]].
    destruct (write_error env tbl_course_generation_sessions);
      [left; repeat split; [repeat constructor | simpl; lia]|].
    right. exists topic', context', level, goals, duration, uid, content, courseOutline.
    split; [exact Hv|]. split; [exact Hprov|]. split; [exact Hparse | reflexivity].
  - left. unfold serve, run. rewrite (not_options _ Hm). unfold handler.
    unfold outline_fields_present in Hp.
    destruct (truthy_string (topic req)), (truthy_string (context req)),
      (truthy_string (knowledge_level req)), (truthy_string (learning_goals req)),
      (truthy_string (preferred_duration req)), (truthy_string (clerk_user_id req));
      try discriminate Hp; exec; repeat split; first [simpl; lia | constructor].
Qed.


(** X12. An outline that is reported as generated has stored exactly one
    session, appended to the table: it has the id the answer carries, the
    caller as its owner, the five fields of the request as they came, the
    outline parsed from the provider's reply, which is the outline of the
    answer, and the status outline_review.  Nothing else is written. *)
Theorem generated_outline_is_stored_as_one_session env method req d :
  let r := serve JSON_parse env method req d in
  reports_success (response_of r) = true ->
  exists session,
    db_of r = with_sessions (fun rows => (rows ++ [session])%list) d
    /\ body (response_of r)
       = SessionCreated (Session.id session) (Session.current_outline session)
    /\ Session.id session = new_id env
    /\ clerk_user_id req = Some (Session.clerk_user_id session)
    /\ topic req = Some (Session.topic session)
    /\ context req = Some (Session.context session)
    /\ knowledge_level req = Some (Session.knowledge_level session)
    /\ learning_goals req = Some (Session.learning_goals session)
    /\ preferred_duration req = Some (Session.preferred_duration session)
    /\ Session.status session = "outline_review"
    /\ Session.updated_at session = now env
    /\ written (trace_of r) = [(tbl_course_generation_sessions, true)]
    /\ exists content,
        fetched (trace_of r)
        = [(system_message,
            personalizedPrompt (Session.topic session) (Session.context session)
              (Session.knowledge_level session) (Session.learning_goals session)
              (Session.preferred_duration session))]
        /\ provider env system_message
             (personalizedPrompt (Session.topic session) (Session.context session)
                (Session.knowledge_level session) (Session.learning_goals session)
                (Session.preferred_duration session))
           = Completion content
        /\ parse_model_output JSON_parse content = inl (Session.current_outline session).
Proof.
  intros r Hok. subst r.
  pose proof (outline_outcomes env method req d) as H. cbv zeta in H.
  destruct H as [(Hno & _)|H]; [congruence|].
  destruct H as (topic' & context' & level & goals & duration & uid & content & courseOutline
                 & Hv & Hprov & Hparse & ->).
  destruct Hv as (_ & Ht & _ & Hc & _ & Hk & _ & Hg & _ & Hd & _ & Hu & _).
  eexists. split; [reflexivity|]. cbn [Session.id Session.current_outline
    Session.clerk_user_id Session.topic Session.context Session.knowledge_level
    Session.learning_goals Session.preferred_duration Session.status Session.updated_at].
  do 11 (split; [first [assumption | reflexivity]|]).
  exists content. now repeat split.
Qed.

(** X13. An outline request that is not reported as done has stored nothing:
    the session insert is the handler's only write, and its refusal is
    thrown and answered 500.  No invocation calls the provider more than
    once, and none touches a table other than the sessions. *)
Theorem failed_outline_stores_nothing env method req d :
  let r := serve JSON_parse env method req d in
  (reports_success (response_of r) = false -> db_of r = d /\ nothing_applied (trace_of r))
  /\ (List.length (fetched (trace_of r)) <= 1)%nat
  /\ course_conversations (db_of r) = course_conversations d
  /\ courses (db_of r) = courses d
  /\ course_modules (db_of r) = course_modules d
  /\ user_progress (db_of r) = user_progress d
  /\ module_progress (db_of r) = module_progress d.
Proof.
  intro r. subst r.
  pose proof (outline_outcomes env method req d) as H. cbv zeta in H.
  destruct H as [(Hno & Hd & Hw & Hf)|H].
  - rewrite Hd. now repeat split.
  - destruct H as (topic' & context' & level & goals & duration & uid & content & courseOutline
                   & _ & _ & _ & ->).
    split; [discriminate|]. split; [simpl; lia|]. now repeat split.
Qed.

(** X14. The session an outline request creates is found under the id of the
    answer by its creator, and by no other user, the id being new to the
    table: an edit or a materialization by another user is answered
    404. *)
Theorem created_session_is_open_to_its_creator_only env method req d :
  let r := serve JSON_parse env method req d in
  reports_success (response_of r) = true ->
  Forall (fun s => Session.id s <> new_id env) (course_generation_sessions d) ->
  exists uid session,
    clerk_user_id req = Some uid
    /\ body (response_of r)
       = SessionCreated (Session.id session) (Session.current_outline session)
    /\ session_of (Session.id session) uid (db_of r) = Some session
    /\ forall other, other <> uid -> not_the_callers (Session.id session) other (db_of r).
Proof.
  intros r Hok Hnew. subst r.
  pose proof (outline_outcomes env method req d) as H. cbv zeta in H.
  destruct H as [(Hno & _)|H]; [congruence|].
  destruct H as (topic' & context' & level & goals & duration & uid & content & courseOutline
                 & Hv & _ & _ & ->).
  destruct Hv as (_ & _ & _ & _ & _ & _ & _ & _ & _ & _ & _ & Hu & _).
  exists uid, (Session.mk (new_id env) uid topic' context' level goals duration courseOutline
                 "outline_review" (now env)).
  split; [exact Hu|]. split; [reflexivity|].
  cbn [db_of fst snd Session.id]. unfold session_of, not_the_callers.
  cbn [with_sessions course_generation_sessions]. split.
  - rewrite filter_app.
    assert (E : filter (Session.owned_by (new_id env) uid) (course_generation_sessions d) = []).
    { apply no_session_of. unfold not_the_callers.
      eapply Forall_impl; [|exact Hnew]. cbv beta. intros s Hs Hid. contradiction. }
    rewrite E. cbn [filter app]. unfold Session.owned_by. cbn [Session.id Session.clerk_user_id].
    now rewrite !String.eqb_refl.
  - intros other Hother. apply Forall_app. split.
    + eapply Forall_impl; [|exact Hnew]. cbv beta. intros s Hs Hid. contradiction.
    + repeat constructor. cbn [Session.clerk_user_id]. congruence.
Qed.

End Parser.
End GenerateCourseOutlineMore.

(** ** generate-final-course *)

Module GenerateFinalCourseMore.
Import GenerateFinalCourse GenerateFinalCourseFacts.

(** The modules whose titles could be read are modules whose rows can
    be built: the second pass over the outline's modules does not throw
    where the first did not. *)
Lemma rows_when_objectives cid content items :
  forall i j objectives,
    map_items (fun _ m =>
                 match read_property m "title" with
                 | inl t => inl (sent t)
                 | inr message => inr message
                 end) i items = inl objectives ->
    exists rows,
      map_items (fun index module =>
                   match read_property module "title", read_property module "description" with
                   | inl t, inl d =>
                       inl (CourseModule.mk cid t d content (Z.of_nat index + 1) [] [])
                   | inr message, _ | _, inr message => inr message
                   end) j items = inl rows.
Proof.
  induction items as [|m items IH]; intros i j objectives; cbn [map_items].
  - intros _. now exists [].
  - destruct m; cbn [read_property]; try discriminate;
      (destruct (map_items _ (S i) items) as [rest|] eqn:E; [|discriminate];
       intros _; destruct (IH (S i) (S j) rest E) as (rows & ->); eexists; reflexivity).
Qed.

(** The objectives of the course row: the titles of the outline's
    modules, in order, a module without a title giving null. *)
Lemma objectives_are_titles items :
  forall i objectives,
    map_items (fun _ m =>
                 match read_property m "title" with
                 | inl t => inl (sent t)
                 | inr message => inr message
                 end) i items = inl objectives ->
    objectives = map (fun m => sent (get m "title")) items.
Proof.
  induction items as [|m items IH]; intros i objectives; cbn [map_items map].
  - intro H. now injection H as <-.
  - destruct m; cbn [read_property]; try discriminate;
      (destruct (map_items _ (S i) items) as [rest|] eqn:E; [|discriminate];
       intro H; injection H as <-; now rewrite (IH (S i) rest E)).
Qed.

Ltac stopped :=
  unfold nothing_applied;
  split; [reflexivity|]; split; [first [reflexivity | match goal with x : DB |- _ => now destruct x end]|];
  split; [repeat constructor | simpl; lia].

(** The ways an invocation ends: without the report of success and
    with nothing stored, or with the course stored and reported, the
    other writes as the store took them. *)
Lemma final_outcomes env method req d :
  let r := serve env method req d in
  (reports_success (response_of r) = false /\ db_of r = d
   /\ nothing_applied (trace_of r) /\ (List.length (fetched (trace_of r)) <= 1)%nat)
  \/ (exists sid approved uid session courseContent objectives rows,
        final_valid method req sid approved uid
        /\ session_of sid uid d = Some session
        /\ provider env system_message (personalizedPrompt session approved)
           = Completion courseContent
        /\ objectives_of (get approved "modules") = inl objectives
        /\ module_rows (new_id env) courseContent (modules_of approved) = inl rows
        /\ write_error env tbl_courses = None
        /\ (let course := course_row env sid uid session approved objectives in
            response_of r
            = mkResponse 200
                (CourseCreated
                   (mkCoursePayload (new_id env) (Course.title course)
                      (Course.description course) courseContent
                      (or_else (get approved "modules") (JArray []))))
            /\ courses (db_of r) = (courses d ++ [course])%list)
        /\ course_generation_sessions (db_of r)
           = match write_error env tbl_course_generation_sessions with
             | None => Session.update sid (Session.set_status "completed" (now env))
                         (course_generation_sessions d)
             | Some _ => course_generation_sessions d
             end
        /\ course_conversations (db_of r) = course_conversations d
        /\ course_modules (db_of r)
           = (course_modules d ++ added env tbl_course_modules rows)%list
        /\ user_progress (db_of r)
           = (user_progress d
              ++ added env tbl_user_progress
                   [Progress.mk None (Some uid) (new_id env) 0 [] 0 (now env) ""])%list
        /\ module_progress (db_of r) = module_progress d
        /\ fetched (trace_of r) = [(system_message, personalizedPrompt session approved)]).
Proof.
  intro r. subst r. unfold serve, run.
  destruct (String.eqb_spec method "OPTIONS") as [|Hm]; [left; stopped|].
  unfold handler.
  destruct (approved_outline req) as [approved|] eqn:Ha; [|left; exec; stopped].
  destruct (truthy_string (session_id req)) eqn:Hs; [|left; exec; stopped].
  destruct (truthy approved) eqn:Ha'; [|left; exec; stopped].
  destruct (truthy_string (clerk_user_id req)) eqn:Hi; [|left; exec; stopped].
  apply truthy_string_inv in Hs as (sid & Hs & Hs').
  apply truthy_string_inv in Hi as (uid & Hi & Hi').
  rewrite Hs, Hi.
  destruct (truthy_string_Some _ Hs') as [_ ->].
  destruct (truthy_string_Some _ Hi') as [_ ->].
  exec.
  destruct (single (filter (Session.owned_by sid uid) (course_generation_sessions d)))
    as [session|] eqn:Hf; [|left; exec; stopped].
  exec.
  destruct (provider env system_message _) as [|courseContent] eqn:Hp; exec;
    [left; stopped|].
  destruct (objectives_of (get approved "modules")) as [objectives|] eqn:Ho; exec;
    [|left; stopped].
  destruct (write_error env tbl_courses) eqn:Hw; exec; [left; stopped|].
  right. exists sid, approved, uid, session, courseContent, objectives.
  assert (Hv : final_valid method req sid approved uid) by (now repeat split).
  unfold modules_of, added.
  destruct (get approved "modules") as [[| | | |items|]|] eqn:Hg;
    try (discriminate Ho);
    try (exists []; exec;
         destruct (write_error env tbl_user_progress); exec;
         destruct (write_error env tbl_course_generation_sessions); exec;
         destruct (write_error env tbl_course_modules);
         do 6 (split; [first [assumption | reflexivity]|]);
         cbn [course_generation_sessions course_conversations courses course_modules
              user_progress module_progress with_sessions with_courses with_progress
              with_modules];
         rewrite ?app_nil_r; now repeat split).
  cbn [objectives_of] in Ho.
  destruct (rows_when_objectives (new_id env) courseContent items O O objectives Ho)
    as (rows & Hr).
  exists rows. fold (module_rows (new_id env) courseContent items) in Hr.
  cbn [course_row Course.id]. rewrite Hr. exec.
  destruct (write_error env tbl_course_modules); exec;
    destruct (write_error env tbl_user_progress); exec;
    destruct (write_error env tbl_course_generation_sessions); exec;
    do 6 (split; [first [assumption | reflexivity]|]);
    cbn [course_generation_sessions course_conversations courses course_modules
         user_progress module_progress with_sessions with_courses with_progress
         with_modules];
    rewrite ?app_nil_r; now repeat split.
Qed.

(** X15. A session of another user, or of no one, is answered 404 after the
    one read that looked for it: the provider is not called and nothing
    is written. *)
Theorem foreign_session_is_not_materialized env method req d sid approved uid :
  final_valid method req sid approved uid ->
  not_the_callers sid uid d ->
  serve env method req d
  = (mkResponse 404 (Error "Session not found or unauthorized"), d,
     [Read tbl_course_generation_sessions]).
Proof.
  intros (Hm & Hs & Hs' & Ha & Ha' & Hi & Hi') Hnone.
  unfold serve, run. rewrite (not_options _ Hm). unfold handler.
  rewrite Ha, Hs, Hi, Ha'.
  destruct (truthy_string_Some _ Hs') as [-> ->].
  destruct (truthy_string_Some _ Hi') as [-> ->].
  exec. rewrite (no_session_of sid uid d Hnone). exec. now destruct d.
Qed.

(** X16. The request is turned away with a 400, before anything is read,
    exactly when a field is missing or falsy: an absent or empty session
    id or user id, or an outline that is absent, null, false, 0 or the
    empty string. *)
Theorem final_is_rejected_when_a_field_is_missing env method req d :
  method <> "OPTIONS" ->
  let r := serve env method req d in
  (status (response_of r) = 400 <-> final_fields_present req = false)
  /\ (final_fields_present req = false -> db_of r = d /\ trace_of r = []).
Proof.
  intros Hm r. subst r. unfold serve, run, final_fields_present.
  rewrite (not_options _ Hm). unfold handler, truthy_value.
  destruct (approved_outline req) as [approved|];
    [|destruct (truthy_string (session_id req)), (truthy_string (clerk_user_id req));
      exec; now repeat split].
  destruct (truthy_string (session_id req)), (truthy approved),
    (truthy_string (clerk_user_id req)); exec; try (now repeat split).
  split; [|discriminate]. split; [|discriminate].
  destruct (single _); exec; [|discriminate].
  destruct (provider env system_message _); exec; [discriminate|].
  destruct (objectives_of _); exec; [|discriminate].
  destruct (write_error env tbl_courses); exec; [discriminate|].
  destruct (get approved "modules") as [[| | | |items|]|]; exec;
    try (destruct (module_rows _ _ items); exec; [|discriminate]);
    try (destruct (write_error env tbl_course_modules); exec);
    destruct (write_error env tbl_user_progress); exec;
    destruct (write_error env tbl_course_generation_sessions); exec; discriminate.
Qed.

Lemma unmappable modules :
  mappable modules = false <-> exists message, objectives_of modules = inr message.
Proof.
  unfold mappable, objectives_of.
  destruct modules as [[| | | |items|]|];
    try (split; [discriminate | intros (? & ?); discriminate]);
    try (split; [intros _; eexists; reflexivity | reflexivity]).
  generalize O.
  induction items as [|m items IH]; intro i; cbn [forallb map_items].
  - split; [discriminate | intros (? & ?); discriminate].
  - destruct m; cbn [read_property andb];
      try (split; [intros _; eexists; reflexivity | reflexivity]);
      (rewrite (IH (S i)); destruct (map_items _ (S i) items);
       split; intros (message & H); try discriminate H; eexists; reflexivity).
Qed.

(** X17. A materialization that is not reported as done has stored nothing:
    what can stop the handler (a missing field, a session that is not
    the caller's, the provider's refusal, modules that cannot be mapped,
    the refusal of the course insert) stops it before any write is
    applied.  And no invocation calls the provider more than once. *)
Theorem failed_materialization_stores_nothing env method req d :
  let r := serve env method req d in
  (reports_success (response_of r) = false -> db_of r = d /\ nothing_applied (trace_of r))
  /\ (List.length (fetched (trace_of r)) <= 1)%nat.
Proof.
  intro r. subst r. pose proof (final_outcomes env method req d) as H. cbv zeta in H.
  destruct H as [(_ & Hd & Hw & Hf)|H]; [now repeat split|].
  destruct H as (sid & approved & uid & session & courseContent & objectives & rows
                 & _ & _ & _ & _ & _ & _ & (Hr & _) & _ & _ & _ & _ & _ & Hf).
  rewrite Hr, Hf. split; [discriminate | simpl; lia].
Qed.

(** X18. The outline's modules are mapped before the course is inserted.  A
    [modules] value that is neither absent nor null nor an array, or an
    array with a null entry, throws there: the request is answered 500
    after the chat request and nothing is written; any other value lets
    the course insert be attempted. *)
Theorem unmappable_modules_stop_the_materialization
  env method req d sid approved uid session courseContent :
  final_valid method req sid approved uid ->
  session_of sid uid d = Some session ->
  provider env system_message (personalizedPrompt session approved)
  = Completion courseContent ->
  let r := serve env method req d in
  (mappable (get approved "modules") = false ->
   status (response_of r) = 500 /\ db_of r = d /\ written (trace_of r) = [])
  /\ (mappable (get approved "modules") = true ->
      exists applied rest, written (trace_of r) = (tbl_courses, applied) :: rest).
Proof.
  intros (Hm & Hs & Hs' & Ha & Ha' & Hi & Hi') Hf Hp r. subst r.
  unfold serve, run. rewrite (not_options _ Hm). unfold handler.
  rewrite Ha, Hs, Hi, Ha'.
  destruct (truthy_string_Some _ Hs') as [-> ->].
  destruct (truthy_string_Some _ Hi') as [-> ->].
  unfold session_of in Hf. exec. rewrite Hf. exec. rewrite Hp. exec.
  destruct (mappable (get approved "modules")) eqn:Hmap.
  - split; [discriminate|]. intros _.
    destruct (objectives_of (get approved "modules")) as [objectives|message] eqn:Ho;
      [|assert (mappable (get approved "modules") = false)
          by (apply unmappable; now exists message); congruence].
    exec.
    destruct (write_error env tbl_courses); exec; [now eexists; eexists|].
    destruct (get approved "modules") as [[| | | |items|]|]; exec;
      try (destruct (module_rows _ _ items); exec);
      try (destruct (write_error env tbl_course_modules); exec);
      try (destruct (write_error env tbl_user_progress); exec;
           destruct (write_error env tbl_course_generation_sessions); exec);
      eexists; eexists; reflexivity.
  - split; [|discriminate]. intros _.
    apply unmappable in Hmap as (message & Ho). rewrite Ho. exec.
    destruct d. now repeat split.
Qed.

Lemma set_status_same sid st at_ rows :
  Forall2 (same_session_but_status (Some sid)) rows
    (Session.update sid (Session.set_status st at_) rows).
Proof.
  unfold Session.update.
  induction rows as [|s rows IH]; cbn [map]; constructor; [|exact IH].
  destruct (String.eqb_spec (Session.id s) sid) as [E|N].
  - repeat split. intro H. now rewrite E in H.
  - now repeat split.
Qed.

Lemma same_status_refl sid rows :
  Forall2 (same_session_but_status sid) rows rows.
Proof. induction rows; constructor; [now repeat split | assumption]. Qed.

(** X19. Whatever a request asks and however the invocation ends, a
    materialization leaves every session its id, its owner, its five
    parameters and its outline, and leaves the sessions of other ids as
    they are; it leaves the conversations and the module progress alone;
    and it removes and alters no course, module or progress row: it adds
    at most one course, modules of that course only, and at most one
    progress record, for that course. *)
Theorem materialization_only_adds_rows env method req d :
  let r := serve env method req d in
  Forall2 (same_session_but_status (session_id req))
    (course_generation_sessions d) (course_generation_sessions (db_of r))
  /\ course_conversations (db_of r) = course_conversations d
  /\ module_progress (db_of r) = module_progress d
  /\ exists new_courses new_modules new_progress,
      courses (db_of r) = (courses d ++ new_courses)%list
      /\ course_modules (db_of r) = (course_modules d ++ new_modules)%list
      /\ user_progress (db_of r) = (user_progress d ++ new_progress)%list
      /\ (List.length new_courses <= 1)%nat
      /\ (List.length new_progress <= 1)%nat
      /\ Forall (fun c => Course.id c = new_id env) new_courses
      /\ Forall (fun m => CourseModule.course_id m = new_id env) new_modules
      /\ Forall (fun p => Progress.course_id p = new_id env) new_progress.
Proof.
  intro r. subst r. pose proof (final_outcomes env method req d) as H. cbv zeta in H.
  destruct H as [(_ & Hd & _)|H].
  - rewrite Hd. split; [apply same_status_refl|]. do 2 (split; [reflexivity|]).
    exists [], [], []. rewrite !app_nil_r. repeat split; first [simpl; lia | constructor].
  - destruct H as (sid & approved & uid & session & courseContent & objectives & rows
                   & Hv & _ & _ & _ & Hrows & _ & (_ & Hc) & Hs & Hconv & Hmod & Hprog
                   & Hmp & _).
    destruct Hv as (_ & Hsid & _).
    rewrite Hs, Hsid. split.
    { destruct (write_error env tbl_course_generation_sessions);
        [apply same_status_refl | apply set_status_same]. }
    do 2 (split; [assumption|]).
    eexists _, _, _. do 3 (split; [eassumption|]).
    apply module_rows_spec in Hrows as (_ & _ & _ & _ & Hrows).
    unfold added.
    split; [simpl; lia|].
    split; [destruct (write_error env tbl_user_progress); simpl; lia|].
    split; [now repeat constructor|].
    split.
    + destruct (write_error env tbl_course_modules); [constructor|].
      eapply Forall_impl; [|exact Hrows]. cbv beta. now intros m [? _].
    + destruct (write_error env tbl_user_progress); now repeat constructor.
Qed.

(** X20. What the course row and the answer of a materialization carry.  The
    title is the outline's title, or the topic of the session when the
    outline has none; the description likewise, with a sentence on the
    topic; topic, context and knowledge level are the session's; the
    objectives are the titles of the outline's modules in their order;
    the metadata keep the session id, the approved outline and the time.
    The answer gives the id, title and description of the row, the
    provider's text as it came, and the outline's modules unchanged. *)
Theorem materialized_course_carries_the_outline env method req d :
  let r := serve env method req d in
  reports_success (response_of r) = true ->
  exists sid approved uid session courseContent course,
    final_valid method req sid approved uid
    /\ session_of sid uid d = Some session
    /\ fetched (trace_of r) = [(system_message, personalizedPrompt session approved)]
    /\ provider env system_message (personalizedPrompt session approved)
       = Completion courseContent
    /\ courses (db_of r) = (courses d ++ [course])%list
    /\ (truthy_value (get approved "title") = true ->
        Some (Course.title course) = get approved "title")
    /\ (truthy_value (get approved "title") = false ->
        Course.title course = JString (Session.topic session))
    /\ (truthy_value (get approved "description") = true ->
        Some (Course.description course) = get approved "description")
    /\ (truthy_value (get approved "description") = false ->
        Course.description course
        = JString ("A comprehensive course on " ++ Session.topic session))
    /\ Course.topic course = Session.topic session
    /\ Course.context course = Session.context session
    /\ Course.knowledge_level course = Session.knowledge_level session
    /\ Course.objectives course
       = map (fun m => sent (get m "title")) (modules_of approved)
    /\ Course.ai_generated course = true
    /\ Course.user_id course = None
    /\ Course.completed_at course = None
    /\ Course.metadata course = Course.mk_metadata sid approved (now env)
    /\ body (response_of r)
       = CourseCreated
           (mkCoursePayload (Course.id course) (Course.title course)
              (Course.description course) courseContent (JArray (modules_of approved))).
Proof.
  intros r Hok. subst r. pose proof (final_outcomes env method req d) as H. cbv zeta in H.
  destruct H as [(Hno & _)|H]; [congruence|].
  destruct H as (sid & approved & uid & session & courseContent & objectives & rows
                 & Hv & Hs & Hp & Ho & _ & _ & (Hr & Hc) & _ & _ & _ & _ & _ & Hf).
  exists sid, approved, uid, session, courseContent,
    (course_row env sid uid session approved objectives).
  do 5 (split; [assumption|]).
  unfold course_row. cbn [Course.title Course.description Course.topic Course.context
    Course.knowledge_level Course.objectives Course.ai_generated Course.user_id
    Course.completed_at Course.metadata Course.id].
  unfold or_else, truthy_value.
  split; [destruct (get approved "title") as [t|]; [|discriminate];
          now intros ->|].
  split; [destruct (get approved "title") as [t|]; [|reflexivity];
          now intros ->|].
  split; [destruct (get approved "description") as [t|]; [|discriminate];
          now intros ->|].
  split; [destruct (get approved "description") as [t|]; [|reflexivity];
          now intros ->|].
  do 3 (split; [reflexivity|]).
  split.
  { unfold modules_of, objectives_of in *.
    destruct (get approved "modules") as [[| | | |items|]|];
      try discriminate Ho; try (now injection Ho as <-).
    exact (objectives_are_titles items O objectives Ho). }
  do 4 (split; [reflexivity|]).
  rewrite Hr. cbn [body course_row Course.title Course.description]. unfold or_else.
  do 3 f_equal. unfold modules_of, objectives_of in *.
  destruct (get approved "modules") as [[| | | |items|]|]; try discriminate Ho; reflexivity.
Qed.

End GenerateFinalCourseMore.

(** ** get-user-analytics *)

Module GetUserAnalyticsMore.
Import GetUserAnalytics GetUserAnalyticsFacts.

Lemma count_streak_bounds today l :
  forall s, s <= count_streak today l s <= s + Z.of_nat (List.length l).
Proof.
  induction l as [|t rest IH]; intro s; cbn [count_streak List.length]; [lia|].
  destruct (_ =? s); [|lia]. specialize (IH (s + 1)). lia.
Qed.

Lemma length_insert_desc x sorted :
  List.length (insert_desc x sorted) = S (List.length sorted).
Proof.
  induction sorted as [|y rest IH]; cbn [insert_desc List.length]; [reflexivity|].
  destruct (y <? x); cbn [List.length]; congruence.
Qed.

Lemma length_order_desc l : List.length (order_desc l) = List.length l.
Proof.
  unfold order_desc. induction l as [|x l IH]; cbn [fold_right List.length]; [reflexivity|].
  now rewrite length_insert_desc, IH.
Qed.

Lemma order_desc_In y l : In y (order_desc l) <-> In y l.
Proof.
  unfold order_desc. induction l as [|x l IH]; cbn [fold_right In]; [tauto|].
  rewrite insert_desc_In, IH. intuition.
Qed.

Lemma accesses_records userId d :
  accesses userId d = order_desc (map Progress.last_accessed (records_of userId d)).
Proof. reflexivity. Qed.

(** X21. The streak is never negative and never more than the number of the
    user's progress records: each record counts for at most one day, so
    that a user with one course cannot have a streak above 1. *)
Theorem streak_is_bounded_by_the_records env userId d :
  0 <= calculateLearningStreak env userId d
       <= Z.of_nat (List.length (records_of userId d)).
Proof.
  unfold calculateLearningStreak. rewrite accesses_records.
  pose proof (length_order_desc (map Progress.last_accessed (records_of userId d))) as L.
  rewrite length_map in L. rewrite <- L.
  destruct (order_desc _) as [|t rest]; [simpl; lia|].
  pose proof (count_streak_bounds (midnight (now env)) (t :: rest) 0). lia.
Qed.

(** X22. The streak is counted back from today.  When none of the user's
    records was last accessed today, the streak is 0, whatever the days
    before; when one was, and none is dated after today, it is at least
    1. *)
Theorem streak_is_counted_from_today env userId d :
  (Forall (fun p => day_of (Progress.last_accessed p) <> day_of (now env))
     (records_of userId d) ->
   calculateLearningStreak env userId d = 0)
  /\ (Exists (fun p => day_of (Progress.last_accessed p) = day_of (now env))
        (records_of userId d) ->
      Forall (fun p => day_of (Progress.last_accessed p) <= day_of (now env))
        (records_of userId d) ->
      1 <= calculateLearningStreak env userId d).
Proof.
  unfold calculateLearningStreak. rewrite accesses_records.
  set (times := map Progress.last_accessed (records_of userId d)).
  pose proof (order_desc_sorted times) as Hsorted.
  pose proof (fun y => order_desc_In y times) as Hin.
  split.
  - intro Hnot. destruct (order_desc times) as [|t rest]; [reflexivity|].
    cbn [count_streak]. rewrite days_diff.
    assert (Ht : In t times) by (apply Hin; now left).
    apply in_map_iff in Ht as (p & <- & Hp).
    rewrite Forall_forall in Hnot. specialize (Hnot p Hp).
    destruct (Z.eqb_spec (day_of (now env) - day_of (Progress.last_accessed p)) 0);
      [lia | reflexivity].
  - intros Htoday Hpast.
    apply Exists_exists in Htoday as (p & Hp & Hday).
    assert (Hp' : In (Progress.last_accessed p) (order_desc times))
      by (apply Hin; now apply in_map).
    destruct (order_desc times) as [|t rest]; [contradiction|].
    cbn [count_streak]. rewrite days_diff.
    assert (Ht : In t times) by (apply Hin; now left).
    apply in_map_iff in Ht as (q & <- & Hq).
    rewrite Forall_forall in Hpast. specialize (Hpast q Hq).
    assert (Hge : Progress.last_accessed p <= Progress.last_accessed q).
    { destruct Hp' as [E|Hrest]; [lia|].
      apply StronglySorted_inv in Hsorted as [_ Hall].
      rewrite Forall_forall in Hall. now apply Hall. }
    apply day_of_mono in Hge.
    destruct (Z.eqb_spec (day_of (now env) - day_of (Progress.last_accessed q)) 0); [|lia].
    pose proof (count_streak_bounds (midnight (now env)) rest (0 + 1)). lia.
Qed.

Section DateString.
Import WeeklyProgress.
Variable toDateString : Z -> string.

Lemma entry_after_add day day' spent l :
  entry_of day (add_item day' spent l)
  = if (day' =? day)%string
    then Some (match entry_of day l with
               | Some e => mkDaily day' (time_spent e + spent) (sessions e + 1)
               | None => mkDaily day' (0 + spent) (0 + 1)
               end)
    else entry_of day l.
Proof.
  unfold entry_of.
  induction l as [|e rest IH]; cbn [add_item find date].
  - destruct (day' =? day)%string; reflexivity.
  - destruct (String.eqb_spec (date e) day') as [E|N]; cbn [find date].
    + subst day'. destruct (date e =? day)%string; reflexivity.
    + destruct (String.eqb_spec (date e) day) as [E'|N'].
      * subst day. apply String.eqb_neq in N. rewrite String.eqb_sym in N. now rewrite N.
      * exact IH.
Qed.

Lemma dates_after_add day spent l :
  map date (add_item day spent l)
  = if existsb (fun e => (date e =? day)%string) l then map date l
    else (map date l ++ [day])%list.
Proof.
  induction l as [|e rest IH]; cbn [add_item map existsb app date]; [reflexivity|].
  destruct (String.eqb_spec (date e) day) as [E|N]; cbn [orb map date].
  - now rewrite E.
  - rewrite IH. now destruct (existsb _ rest).
Qed.

Lemma existsb_date_In day l :
  existsb (fun e => (date e =? day)%string) l = true <-> In day (map date l).
Proof.
  rewrite existsb_exists, in_map_iff. split.
  - intros (e & He & E). apply String.eqb_eq in E. now exists e.
  - intros (e & E & He). exists e. split; [exact He | now apply String.eqb_eq].
Qed.

Lemma entry_date day l e : entry_of day l = Some e -> date e = day /\ In e l.
Proof.
  unfold entry_of. intro H. apply find_some in H as [Hin E].
  apply String.eqb_eq in E. now split.
Qed.

Lemma entry_of_In l e :
  NoDup (map date l) -> In e l -> entry_of (date e) l = Some e.
Proof.
  unfold entry_of. induction l as [|e' rest IH]; cbn [map find]; intros Hn Hin;
    [contradiction|].
  apply NoDup_cons_iff in Hn as [Hnew Hn].
  destruct Hin as [->|Hin]; [now rewrite String.eqb_refl|].
  destruct (String.eqb_spec (date e') (date e)) as [E|_]; [|now apply IH].
  exfalso. apply Hnew. rewrite E. now apply in_map.
Qed.

(** What the loop has made of [dailyProgress] after [rows]. *)
Lemma grouped rows :
  forall l,
    let l' := fold_left
                (fun dailyProgress item =>
                   add_item (toDateString (Progress.last_accessed item))
                     (or_zero (Some (Progress.time_spent item))) dailyProgress)
                rows l in
    (NoDup (map date l) -> NoDup (map date l'))
    /\ (forall day, In day (map date l') <->
                    In day (map date l)
                    \/ In day (map (fun p => toDateString (Progress.last_accessed p)) rows))
    /\ (forall day e', entry_of day l' = Some e' ->
          date e' = day
          /\ time_spent e'
             = match entry_of day l with Some e => time_spent e | None => 0 end
               + total (map Progress.time_spent (on_day toDateString day rows))
          /\ sessions e'
             = match entry_of day l with Some e => sessions e | None => 0 end
               + Z.of_nat (List.length (on_day toDateString day rows))).
Proof.
  induction rows as [|p rows IH]; intro l; cbn [fold_left].
  - cbv zeta. split; [auto|]. split; [cbn [map In]; tauto|].
    intros day e' H. rewrite H. cbn [on_day filter map total fold_right List.length].
    apply entry_date in H as [H _]. split; [exact H | lia].
  - set (day_p := toDateString (Progress.last_accessed p)).
    set (spent := or_zero (Some (Progress.time_spent p))).
    assert (Hspent : spent = Progress.time_spent p).
    { unfold spent, or_zero. destruct (Z.eqb_spec (Progress.time_spent p) 0); lia. }
    specialize (IH (add_item day_p spent l)). cbv zeta in IH |- *.
    destruct IH as (IHn & IHd & IHe).
    split; [|split].
    + intro Hn. apply IHn. rewrite dates_after_add.
      destruct (existsb _ l) eqn:Ex; [exact Hn|].
      apply NoDup_app; [exact Hn | repeat constructor; intros [] |].
      intros day Hin [<-|[]]. apply existsb_date_In in Hin. congruence.
    + intro day. rewrite IHd, dates_after_add. cbn [map In]. fold day_p.
      destruct (existsb _ l) eqn:Ex.
      * apply existsb_date_In in Ex. intuition (subst; auto).
      * rewrite in_app_iff. cbn [In]. intuition.
    + intros day e' H. destruct (IHe day e' H) as (Hd & Ht & Hs).
      split; [exact Hd|]. rewrite entry_after_add in Ht, Hs.
      unfold on_day. cbn [filter]. fold day_p.
      destruct (String.eqb_spec day_p day) as [E|N].
      * cbn [map total fold_right List.length]. fold (total (map Progress.time_spent
          (filter (fun p0 => (toDateString (Progress.last_accessed p0) =? day)%string) rows))).
        unfold on_day in Ht, Hs.
        destruct (entry_of day l) as [e|]; cbn [time_spent sessions] in Ht, Hs; lia.
      * exact (conj Ht Hs).
Qed.

(** X23. The progress of the week has one entry for each day on which a
    record of the user was last accessed within the last seven days, the
    days being told apart by their date text; the entry counts the
    records of the day as its sessions, at least one, and adds up their
    whole time spent.  Records of other users and records last accessed
    more than seven days ago count nowhere. *)
Theorem weekly_progress_groups_the_records_by_day env userId d :
  let rows := weeklyData env userId d in
  let answer := getWeeklyProgress toDateString env userId d in
  (forall p, In p rows <->
             In p (user_progress d) /\ Progress.user_id p = Some userId
             /\ now env - 7 * MS_PER_DAY <= Progress.last_accessed p)
  /\ NoDup (map date answer)
  /\ (forall day, In day (map date answer) <->
                  exists p, In p rows /\ toDateString (Progress.last_accessed p) = day)
  /\ (forall entry, In entry answer ->
        sessions entry = Z.of_nat (List.length (on_day toDateString (date entry) rows))
        /\ 1 <= sessions entry
        /\ time_spent entry
           = total (map Progress.time_spent (on_day toDateString (date entry) rows))).
Proof.
  cbv zeta. unfold getWeeklyProgress.
  set (rows := weeklyData env userId d).
  pose proof (grouped rows []) as H. cbv zeta in H.
  set (answer := fold_left _ rows []) in *.
  destruct H as (Hn & Hd & He).
  assert (Hnodup : NoDup (map date answer)) by (apply Hn; constructor).
  split.
  { intro p. unfold rows, weeklyData, oneWeekAgo. rewrite filter_In.
    destruct (Progress.user_id p) as [u|]; cbn [andb].
    - destruct (String.eqb_spec u userId) as [->|N]; cbn [andb].
      + rewrite Z.leb_le. intuition.
      + intuition; congruence.
    - intuition; discriminate. }
  split; [exact Hnodup|].
  split.
  { intro day. rewrite Hd. cbn [map In]. rewrite in_map_iff.
    split; [intros [[]|(p & E & Hp)] | intros (p & Hp & E)]; eauto. }
  intros entry Hin.
  pose proof (entry_of_In answer entry Hnodup Hin) as Hentry.
  destruct (He (date entry) entry Hentry) as (_ & Ht & Hs).
  cbn [entry_of find] in Ht, Hs.
  split; [lia|]. split; [|lia].
  assert (Hday : In (date entry) (map date answer)) by (now apply in_map).
  apply Hd in Hday as [[]|Hday]. apply in_map_iff in Hday as (p & E & Hp).
  assert (Hon : In p (on_day toDateString (date entry) rows))
    by (unfold on_day; apply filter_In; split; [exact Hp | now apply String.eqb_eq]).
  destruct (on_day toDateString (date entry) rows); [contradiction|].
  cbn [List.length] in Hs. lia.
Qed.

End DateString.
End GetUserAnalyticsMore.

(** ** From one handler to the next *)

Module Pipeline.

Lemma update_keeps_rows_without_user env method user req d :
  (forall c, In c (courses d) -> Course.user_id c = None ->
             In c (courses (db_of (UpdateProgress.serve env method user req d))))
  /\ (forall p, In p (user_progress d) -> Progress.user_id p = None ->
                In p (user_progress (db_of (UpdateProgress.serve env method user req d)))).
Proof.
  split.
  - intros c Hin Hnone.
    destruct (UpdateProgressFacts.serve_courses_cases env method user req d)
      as [E | (uid & cid & pct & _ & _ & E)]; rewrite E; [exact Hin|].
    unfold UpdateProgress.complete_course. apply in_map_iff. exists c. split; [|exact Hin].
    unfold UpdateProgress.course_of. rewrite Hnone. now rewrite andb_false_r.
  - intros p Hin Hnone.
    pose proof (UpdateProgressMore.serve_progress_cases env method user req d) as H.
    cbv zeta in H.
    destruct H as [E | [(uid & cid & pct & existing & _ & E) | (uid & cid & pct & _ & E)]];
      rewrite E; [exact Hin | | apply in_or_app; now left].
    unfold UpdateProgress.update_rows. apply in_map_iff. exists p. split; [|exact Hin].
    unfold UpdateProgress.owned_by. now rewrite Hnone.
Qed.

Lemma updates_keep_rows_without_user invocations :
  forall d,
    (forall c, In c (courses d) -> Course.user_id c = None ->
               In c (courses (invoke_all invocations d)))
    /\ (forall p, In p (user_progress d) -> Progress.user_id p = None ->
                  In p (user_progress (invoke_all invocations d))).
Proof.
  unfold invoke_all.
  induction invocations as [|i rest IH]; intro d; cbn [fold_left]; [now split|].
  destruct (IH (invoke d i)) as [IHc IHp].
  destruct (update_keeps_rows_without_user (inv_env i) (inv_method i) (inv_user i)
              (inv_request i) d) as [Hc Hp].
  split.
  - intros c Hin Hnone. apply IHc; [now apply Hc | exact Hnone].
  - intros p Hin Hnone. apply IHp; [now apply Hp | exact Hnone].
Qed.

(** X24. What a materialization stores is out of the reach of the progress
    updates.  The course and the initial progress record are stored
    under the caller's clerk_user_id, without a user_id, and
    update-progress selects by user_id: so, through any sequence of
    progress updates, by whatever users and at whatever percentages, the
    course row stays as it was stored, active and not completed, and the
    initial record stays at 0; and no user has a record of the course
    that an update would find, the materialization having added
    none. *)
Theorem materialized_rows_are_out_of_reach_of_updates env method req d invocations :
  let r := GenerateFinalCourse.serve env method req d in
  reports_success (response_of r) = true ->
  write_error env tbl_user_progress = None ->
  let d' := invoke_all invocations (db_of r) in
  exists uid course,
    GenerateFinalCourse.clerk_user_id req = Some uid
    /\ courses (db_of r) = (courses d ++ [course])%list
    /\ Course.id course = new_id env
    /\ Course.status course = "active"
    /\ Course.completed_at course = None
    /\ In course (courses d')
    /\ user_progress (db_of r) = (user_progress d ++ [initial_progress env uid])%list
    /\ In (initial_progress env uid) (user_progress d')
    /\ forall user cid, stored_progress user cid (db_of r) = stored_progress user cid d.
Proof.
  intros r Hok Hw d'. subst d' r.
  pose proof (GenerateFinalCourseMore.final_outcomes env method req d) as H. cbv zeta in H.
  destruct H as [(Hno & _)|H]; [congruence|].
  destruct H as (sid & approved & uid & session & courseContent & objectives & rows
                 & Hv & _ & _ & _ & _ & _ & (_ & Hc) & _ & _ & _ & Hp & _ & _).
  destruct Hv as (_ & _ & _ & _ & _ & Hu & _).
  unfold added in Hp. rewrite Hw in Hp.
  destruct (updates_keep_rows_without_user invocations
              (db_of (GenerateFinalCourse.serve env method req d))) as [Kc Kp].
  exists uid, (GenerateFinalCourse.course_row env sid uid session approved objectives).
  split; [exact Hu|]. split; [exact Hc|]. do 3 (split; [reflexivity|]).
  split; [apply Kc; [rewrite Hc; apply in_or_app; right; now left | reflexivity]|].
  split; [exact Hp|].
  split; [apply Kp; [rewrite Hp; apply in_or_app; right; now left | reflexivity]|].
  intros user cid. unfold stored_progress. rewrite Hp, filter_app.
  cbn [filter initial_progress]. unfold UpdateProgress.owned_by at 2.
  cbn [Progress.user_id]. now rewrite app_nil_r.
Qed.

Section Parser.
Variable JSON_parse : string -> ParseResult.

Lemma same_parameters_refl rows : Forall2 same_parameters rows rows.
Proof. induction rows; constructor; [now repeat split | assumption]. Qed.

Lemma same_parameters_trans l1 l2 l3 :
  Forall2 same_parameters l1 l2 -> Forall2 same_parameters l2 l3 ->
  Forall2 same_parameters l1 l3.
Proof.
  intro H12. revert l3.
  induction H12 as [|a b l1 l2 Hab _ IH]; intros l3 H23; inversion H23; subst;
    constructor; [|now apply IH].
  unfold same_parameters in *. intuition congruence.
Qed.

Lemma edit_keeps_parameters env method req d :
  let d' := db_of (EditCourseOutline.serve JSON_parse env method req d) in
  Forall2 same_parameters (course_generation_sessions d) (course_generation_sessions d')
  /\ courses d' = courses d.
Proof.
  pose proof (EditCourseOutlineMore.edit_outcomes JSON_parse env method req d) as H.
  cbv zeta in H |- *.
  destruct H as [(_ & Hd & _)|H].
  - rewrite Hd. split; [apply same_parameters_refl | reflexivity].
  - destruct H as (sid & msg & cur & uid & session & updatedOutline & _ & _ & _ & Hd & _).
    rewrite Hd. unfold attempt.
    destruct (write_error env tbl_course_conversations);
      destruct (write_error env tbl_course_generation_sessions);
      cbn [fst with_sessions with_conversations course_generation_sessions courses];
      (split; [|reflexivity]); try apply same_parameters_refl;
      (eapply Forall2_impl; [|apply (EditCourseOutlineMore.set_outline_same sid)]);
      intros a b Hab; unfold same_session_but_outline in Hab; unfold same_parameters;
      intuition.
Qed.

Lemma edits_keep_parameters edits :
  forall d,
    Forall2 same_parameters (course_generation_sessions d)
      (course_generation_sessions (edit_all JSON_parse edits d))
    /\ courses (edit_all JSON_parse edits d) = courses d.
Proof.
  unfold edit_all.
  induction edits as [|e rest IH]; intro d; cbn [fold_left];
    [split; [apply same_parameters_refl | reflexivity]|].
  destruct (IH (edit JSON_parse d e)) as [IHs IHc].
  pose proof (edit_keeps_parameters (edit_env e) (edit_method e) (edit_request e) d) as H.
  cbv zeta in H. destruct H as [Hs Hc]. fold (edit JSON_parse d e) in Hs, Hc.
  split; [eapply same_parameters_trans; eassumption | congruence].
Qed.

Lemma related_row (rows rows' : list Session.t) s' :
  Forall2 same_parameters rows rows' -> In s' rows' ->
  exists s, In s rows /\ same_parameters s s'.
Proof.
  induction 1 as [|a b l l' Hab _ IH]; intros Hin; [contradiction|].
  destruct Hin as [->|Hin]; [exists a; split; [now left | exact Hab]|].
  destruct (IH Hin) as (s & Hs & Hr). exists s. split; [now right | exact Hr].
Qed.

(** X25. From the request for an outline to the course.  The session that an
    outline request opens, its id being new to the table, can be
    materialized by its creator only; and whatever edits are made
    between, by whomever and however they end, the course that a
    materialization of this session creates has the topic, the context
    and the knowledge level of the outline request, and its prompt is
    built on the five parameters of that request. *)
Theorem course_carries_the_parameters_of_the_outline_request
  env method req d edits env' method' req' :
  let opened := GenerateCourseOutline.serve JSON_parse env method req d in
  reports_success (response_of opened) = true ->
  Forall (fun s => Session.id s <> new_id env) (course_generation_sessions d) ->
  let r := GenerateFinalCourse.serve env' method' req'
             (edit_all JSON_parse edits (db_of opened)) in
  GenerateFinalCourse.session_id req' = Some (new_id env) ->
  reports_success (response_of r) = true ->
  exists course session approved,
    courses (db_of r) = (courses d ++ [course])%list
    /\ GenerateFinalCourse.clerk_user_id req' = GenerateCourseOutline.clerk_user_id req
    /\ Course.clerk_user_id course = GenerateCourseOutline.clerk_user_id req
    /\ Some (Course.topic course) = GenerateCourseOutline.topic req
    /\ Some (Course.context course) = GenerateCourseOutline.context req
    /\ Some (Course.knowledge_level course) = GenerateCourseOutline.knowledge_level req
    /\ GenerateFinalCourse.approved_outline req' = Some approved
    /\ fetched (trace_of r)
       = [(GenerateFinalCourse.system_message,
           GenerateFinalCourse.personalizedPrompt session approved)]
    /\ Some (Session.topic session) = GenerateCourseOutline.topic req
    /\ Some (Session.context session) = GenerateCourseOutline.context req
    /\ Some (Session.knowledge_level session) = GenerateCourseOutline.knowledge_level req
    /\ Some (Session.learning_goals session) = GenerateCourseOutline.learning_goals req
    /\ Some (Session.preferred_duration session)
       = GenerateCourseOutline.preferred_duration req.
Proof.
  intros opened Hok Hnew r Hsid Hok'. subst r opened.
  pose proof (GenerateCourseOutlineMore.outline_outcomes JSON_parse env method req d) as H.
  cbv zeta in H. destruct H as [(Hno & _)|H]; [congruence|].
  destruct H as (topic' & context' & level & goals & duration & uid & content & courseOutline
                 & Hv & _ & _ & E).
  rewrite E in *. clear E Hok. cbn [db_of fst snd] in *.
  set (s0 := Session.mk (new_id env) uid topic' context' level goals duration courseOutline
               "outline_review" (now env)) in *.
  set (d1 := with_sessions (fun rows => (rows ++ [s0])%list) d) in *.
  destruct (edits_keep_parameters edits d1) as [Hs Hc].
  set (d2 := edit_all JSON_parse edits d1) in *.
  pose proof (GenerateFinalCourseMore.final_outcomes env' method' req' d2) as H.
  cbv zeta in H. destruct H as [(Hno & _)|H]; [congruence|].
  destruct H as (sid & approved & uid' & session & courseContent & objectives & rows
                 & Hv' & Hfound & _ & _ & _ & _ & (_ & Hcourses) & _ & _ & _ & _ & _ & Hf).
  destruct Hv' as (_ & Hsid' & _ & Ha & _ & Hu' & _).
  rewrite Hsid in Hsid'. injection Hsid' as <-.
  assert (Hin : In session (course_generation_sessions d2)
                /\ Session.id session = new_id env /\ Session.clerk_user_id session = uid').
  { unfold session_of in Hfound.
    destruct (filter _ (course_generation_sessions d2)) as [|x [|? ?]] eqn:Ef;
      try discriminate Hfound.
    injection Hfound as ->.
    assert (Hx : In session (filter (Session.owned_by (new_id env) uid')
                               (course_generation_sessions d2)))
      by (rewrite Ef; now left).
    apply filter_In in Hx as [Hx Ho]. unfold Session.owned_by in Ho.
    apply andb_prop in Ho as [Ho1 Ho2].
    apply String.eqb_eq in Ho1, Ho2. now repeat split. }
  destruct Hin as (Hin & Hid & Howner).
  destruct (related_row _ _ session Hs Hin) as (s & Hs0 & Hrel).
  assert (s = s0).
  { unfold d1 in Hs0. cbn [with_sessions course_generation_sessions] in Hs0.
    apply in_app_or in Hs0 as [Hold|[<-|[]]]; [|reflexivity].
    rewrite Forall_forall in Hnew. destruct Hrel as (Hrid & _).
    exfalso. apply (Hnew s Hold). congruence. }
  subst s. destruct Hrel as (_ & Ro & Rt & Rc & Rk & Rg & Rd).
  cbn [s0 Session.clerk_user_id Session.topic Session.context Session.knowledge_level
       Session.learning_goals Session.preferred_duration] in Ro, Rt, Rc, Rk, Rg, Rd.
  destruct Hv as (_ & Ht & _ & Hct & _ & Hk & _ & Hg & _ & Hd & _ & Hu & _).
  exists (GenerateFinalCourse.course_row env' (new_id env) uid' session approved objectives),
    session, approved.
  split; [rewrite Hcourses, Hc; reflexivity|].
  cbn [GenerateFinalCourse.course_row Course.clerk_user_id Course.topic Course.context
       Course.knowledge_level].
  rewrite Ht, Hct, Hk, Hg, Hd, Hu, Hu', Rt, Rc, Rk, Rg, Rd.
  repeat split; first [assumption | congruence].
Qed.

End Parser.
End Pipeline.

(** ** The client *)

Module ClientFacts.

Section Handlers.
Variable trim : string -> string.
Variable JSON_parse : string -> ParseResult.

Lemma edit_without_user env sessionId message outline d :
  Api.editCourseOutline JSON_parse env
    (EditCourseOutline.mk (Some sessionId) (Some message) outline None) d
  = (inr "Missing required fields", d, []).
Proof.
  unfold Api.editCourseOutline, EditCourseOutline.serve, run, EditCourseOutline.handler.
  cbn [EditCourseOutline.current_outline EditCourseOutline.session_id
       EditCourseOutline.user_message EditCourseOutline.clerk_user_id truthy_string].
  change ("POST" =? "OPTIONS")%string with false. cbv iota.
  destruct outline as [cur|]; [|reflexivity].
  destruct (negb (negb (sessionId =? "")%string)), (negb (negb (message =? "")%string)),
    (negb (truthy cur)); reflexivity.
Qed.

Lemma final_without_user env sessionId outline d :
  Api.generateFinalCourse env (GenerateFinalCourse.mk (Some sessionId) outline None) d
  = (inr "Missing required fields", d, []).
Proof.
  unfold Api.generateFinalCourse, GenerateFinalCourse.serve, run, GenerateFinalCourse.handler.
  cbn [GenerateFinalCourse.approved_outline GenerateFinalCourse.session_id
       GenerateFinalCourse.clerk_user_id truthy_string].
  change ("POST" =? "OPTIONS")%string with false. cbv iota.
  destruct outline as [approved|]; [|reflexivity].
  destruct (negb (negb (sessionId =? "")%string)), (negb (truthy approved)); reflexivity.
Qed.

(** X26. The review panel cannot change an outline.  Its request carries the
    session, the message and the outline, and no clerk_user_id, so the
    server turns it away with Missing required fields before it reads
    anything: whatever the message and the state of the panel, nothing
    is stored, the provider is not called and the outline shown stays as
    it was.  A message that is sent is added to the history shown, the
    input is cleared, and the failure is shown as a toast. *)
Theorem review_panel_edit_is_always_rejected env at_ later sessionId s d :
  let o := CourseOutlineReview.handleSendMessage trim JSON_parse env at_ later sessionId s d in
  CourseOutlineReview.store o = d
  /\ CourseOutlineReview.served o = []
  /\ CourseOutlineReview.currentOutline (CourseOutlineReview.state o)
     = CourseOutlineReview.currentOutline s
  /\ if (trim (CourseOutlineReview.userMessage s) =? "")%string
        || CourseOutlineReview.isProcessing s
     then CourseOutlineReview.state o = s /\ CourseOutlineReview.toasts o = []
     else CourseOutlineReview.toasts o
          = [CourseOutlineReview.mkToast "Update failed" "Missing required fields" true]
          /\ CourseOutlineReview.conversationHistory (CourseOutlineReview.state o)
             = (CourseOutlineReview.conversationHistory s
                ++ [CourseOutlineReview.mkMessage "user" (CourseOutlineReview.userMessage s)
                      at_])%list
          /\ CourseOutlineReview.userMessage (CourseOutlineReview.state o) = ""
          /\ CourseOutlineReview.isProcessing (CourseOutlineReview.state o) = false.
Proof.
  intro o. subst o. unfold CourseOutlineReview.handleSendMessage.
  cbn [truthy_string]. rewrite negb_involutive.
  destruct ((trim (CourseOutlineReview.userMessage s) =? "")%string
            || CourseOutlineReview.isProcessing s); [now repeat split|].
  rewrite edit_without_user. now repeat split.
Qed.

(** X27. The review panel cannot create a course.  Its request carries the
    session and the outline, and no clerk_user_id, so the server turns it
    away with Missing required fields before it reads anything: nothing
    is stored, the provider is not called, no course is handed on, and
    the failure is shown as a toast. *)
Theorem review_panel_creation_is_always_rejected env sessionId s d :
  let o := CourseOutlineReview.handleCreateCourse env sessionId s d in
  CourseOutlineReview.store o = d
  /\ CourseOutlineReview.served o = []
  /\ CourseOutlineReview.created o = None
  /\ CourseOutlineReview.toasts o
     = [CourseOutlineReview.mkToast "Course creation failed" "Missing required fields" true]
  /\ CourseOutlineReview.isCreating (CourseOutlineReview.state o) = false
  /\ CourseOutlineReview.currentOutline (CourseOutlineReview.state o)
     = CourseOutlineReview.currentOutline s.
Proof.
  intro o. subst o. unfold CourseOutlineReview.handleCreateCourse.
  rewrite final_without_user. now repeat split.
Qed.

End Handlers.

Section Lessons.
Import CourseContent.
Variable lessons : nat.

Lemma toggle_tidy i s :
  0 <= i < Z.of_nat lessons -> tidy lessons s -> tidy lessons (toggleLessonComplete i s).
Proof.
  intros Hi [Hn Hr]. unfold toggleLessonComplete, tidy.
  destruct (existsb (Z.eqb i) (completedLessons s)) eqn:E; cbn [completedLessons].
  - split; [now apply NoDup_filter|].
    apply Forall_forall. intros j Hj. apply filter_In in Hj as [Hj _].
    rewrite Forall_forall in Hr. now apply Hr.
  - split.
    + apply NoDup_app; [exact Hn | repeat constructor; intros [] |].
      intros j Hj [<-|[]].
      assert (existsb (Z.eqb i) (completedLessons s) = true)
        by (apply existsb_exists; exists i; split; [exact Hj | apply Z.eqb_refl]).
      congruence.
    + apply Forall_app. split; [exact Hr | now repeat constructor].
Qed.

Lemma toggle_current i s : currentLesson (toggleLessonComplete i s) = currentLesson s.
Proof.
  unfold toggleLessonComplete. now destruct (existsb _ _).
Qed.

Lemma click_keeps s c :
  (0 < lessons)%nat ->
  0 <= currentLesson s < Z.of_nat lessons /\ tidy lessons s ->
  0 <= currentLesson (click lessons s c) < Z.of_nat lessons /\ tidy lessons (click lessons s c).
Proof.
  intros Hpos [Hc Ht]. destruct c as [index|index| | |]; cbn [click].
  - destruct (Nat.ltb_spec index lessons); [|now split].
    cbn [currentLesson]. split; [lia | exact Ht].
  - destruct (Nat.ltb_spec index lessons); [|now split].
    rewrite toggle_current. split; [exact Hc | apply toggle_tidy; [lia | exact Ht]].
  - destruct (currentLesson s =? 0); [now split|]. cbn [currentLesson]. split; [lia | exact Ht].
  - rewrite toggle_current. split; [exact Hc | now apply toggle_tidy].
  - destruct (currentLesson s =? Z.of_nat lessons - 1); [now split|].
    cbn [currentLesson]. split; [lia | exact Ht].
Qed.

Lemma bounded_length (l : list Z) :
  NoDup l -> Forall (fun i => 0 <= i < Z.of_nat lessons) l -> (List.length l <= lessons)%nat.
Proof.
  intros Hn Hr.
  assert (Hi : incl (map Z.to_nat l) (seq 0 lessons)).
  { intros k Hk. apply in_map_iff in Hk as (i & <- & Hi).
    rewrite Forall_forall in Hr. specialize (Hr i Hi). apply in_seq. lia. }
  assert (Hd : NoDup (map Z.to_nat l)).
  { clear Hi. induction l as [|i l IH]; cbn [map]; [constructor|].
    apply NoDup_cons_iff in Hn as [Hnew Hn]. apply Forall_cons_iff in Hr as [Hi Hr].
    constructor; [|now apply IH].
    intro Hk. apply in_map_iff in Hk as (j & E & Hj).
    rewrite Forall_forall in Hr. specialize (Hr j Hj).
    assert (j = i) by lia. subst j. contradiction. }
  pose proof (NoDup_incl_length Hd Hi) as L.
  now rewrite length_map, length_seq in L.
Qed.

(** X28. Whatever is clicked in the lesson view, in whatever order: the
    lesson shown is one of the lessons, and the lessons marked complete
    are lessons, each marked once, so that no more lessons are complete
    than the course has and the progress shown is at most 100 percent.
    The circle of a lesson marks it when it is not marked and unmarks it
    when it is, and changes the mark of no other lesson. *)
Theorem lesson_view_counts_each_lesson_once (l : list Click) :
  (0 < lessons)%nat ->
  let s := clicks lessons l in
  0 <= currentLesson s < Z.of_nat lessons
  /\ NoDup (completedLessons s)
  /\ Forall (fun i => 0 <= i < Z.of_nat lessons) (completedLessons s)
  /\ (List.length (completedLessons s) <= lessons)%nat
  /\ forall i j,
      In j (completedLessons (toggleLessonComplete i s))
      <-> (if j =? i then ~ In i (completedLessons s) else In j (completedLessons s)).
Proof.
  intros Hpos s.
  assert (H : 0 <= currentLesson s < Z.of_nat lessons /\ tidy lessons s).
  { subst s. unfold clicks.
    enough (G : forall s0, 0 <= currentLesson s0 < Z.of_nat lessons /\ tidy lessons s0 ->
                           0 <= currentLesson (fold_left (click lessons) l s0)
                                < Z.of_nat lessons
                           /\ tidy lessons (fold_left (click lessons) l s0)).
    { apply G. cbn [initial currentLesson]. split; [lia|]. split; constructor. }
    induction l as [|c l IH]; intros s0 H0; cbn [fold_left]; [exact H0|].
    apply IH. now apply click_keeps. }
  destruct H as (Hc & Hn & Hr).
  split; [exact Hc|]. split; [exact Hn|]. split; [exact Hr|].
  split; [now apply bounded_length|].
  intros i j. unfold toggleLessonComplete.
  destruct (existsb (Z.eqb i) (completedLessons s)) eqn:E; cbn [completedLessons].
  - apply existsb_exists in E as (k & Hk & Ek). apply Z.eqb_eq in Ek. subst k.
    rewrite filter_In. destruct (Z.eqb_spec j i) as [->|N]; cbn [negb].
    + split; [intros [_ H]; discriminate H | intro H; contradiction].
    + tauto.
  - assert (Hnot : ~ In i (completedLessons s)).
    { intro Hin. assert (existsb (Z.eqb i) (completedLessons s) = true)
        by (apply existsb_exists; exists i; split; [exact Hin | apply Z.eqb_refl]).
      congruence. }
    rewrite in_app_iff. cbn [In]. destruct (Z.eqb_spec j i) as [->|N].
    + tauto.
    + split; [intros [H|[H|[]]]; [exact H | congruence] | tauto].
Qed.

End Lessons.
End ClientFacts.

(** ** The user's profile and the wizard *)

Module WizardFacts.
Import UserProfiles.

Lemma found_again (p : Profile) uid rows :
  filter (profile_of uid) rows = [] ->
  clerk_user_id p = uid ->
  filter (profile_of uid) (rows ++ [p]) = [p].
Proof.
  intros E Hp. rewrite filter_app, E. cbn [filter app]. unfold profile_of.
  rewrite Hp. now rewrite String.eqb_refl.
Qed.

(** X29. [ensureUserExists] keeps one profile for each user.  Without a user
    it answers null and reads nothing.  Where each user has at most one
    profile, this stays so; a profile it answers is stored for the user,
    and asking again, whenever and whatever the store would then say to
    an insert, answers the same profile and stores nothing; and when it
    answers null it has stored nothing. *)
Theorem profile_is_created_once env clerkUser rows :
  one_profile_each rows ->
  ensureUserExists env None rows = (None, rows, [])
  /\ let r := ensureUserExists env (Some clerkUser) rows in
     one_profile_each (snd (fst r))
     /\ (forall p, fst (fst r) = Some p ->
           clerk_user_id p = id clerkUser /\ In p (snd (fst r))
           /\ forall env', ensureUserExists env' (Some clerkUser) (snd (fst r))
                           = (Some p, snd (fst r), []))
     /\ (fst (fst r) = None -> snd (fst r) = rows).
Proof.
  intro Hone. split; [reflexivity|]. cbv zeta. unfold ensureUserExists.
  pose proof (Hone (id clerkUser)) as Hu.
  destruct (filter (profile_of (id clerkUser)) rows) as [|p0 [|? ?]] eqn:Ef;
    cbn [single]; cbn [List.length] in Hu; [| |lia].
  - destruct (insert_error env); cbn [fst snd].
    + split; [exact Hone|]. split; [discriminate | reflexivity].
    + split.
      * intro uid. rewrite filter_app. rewrite length_app.
        cbn [filter].
        change (profile_of uid (new_profile env clerkUser))
          with (id clerkUser =? uid)%string.
        destruct (String.eqb_spec (id clerkUser) uid) as [<-|N]; cbn [List.length].
        -- rewrite Ef. simpl. lia.
        -- specialize (Hone uid). lia.
      * split; [|discriminate]. intros p Hp. injection Hp as <-.
        split; [reflexivity|]. split; [apply in_or_app; right; now left|].
        intro env'.
        now rewrite (found_again (new_profile env clerkUser) (id clerkUser) rows Ef eq_refl).
  - cbn [fst snd]. split; [exact Hone|]. split; [|discriminate].
    intros p Hp. injection Hp as <-.
    assert (Hin : In p0 (filter (profile_of (id clerkUser)) rows)) by (rewrite Ef; now left).
    apply filter_In in Hin as [Hin Hid]. apply String.eqb_eq in Hid.
    split; [exact Hid|]. split; [exact Hin|]. intro env'. now rewrite Ef.
Qed.

Section Handlers.
Import CourseGenerator.
Variable trim : string -> string.
Hypothesis trim_empty : trim "" = "".
Variable JSON_parse : string -> ParseResult.



End Handlers.
End WizardFacts.

(** ** Further scenarios, run *)

Module MoreRuns.
Import Scenario MoreScenarios.

(** The progress write is refused. *)
Lemma failed_update_changes_nothing_witness :
  let r := UpdateProgress.serve (refusing tbl_user_progress 1000 reply) "POST"
             (Some "user-1") (update 50 3) begun in
  db_of r = begun
  /\ nothing_applied (trace_of r)
  /\ (status (response_of r) = 401 \/ status (response_of r) = 400 -> trace_of r = []).
Proof.
  apply (UpdateProgressMore.failed_update_changes_nothing
           (refusing tbl_user_progress 1000 reply) "POST" (Some "user-1") (update 50 3) begun).
  reflexivity.
Defined.

Lemma unique_progress_begun : unique_progress begun.
Proof.
  intros uid cid. cbn [begun user_progress filter].
  destruct (UpdateProgress.owned_by uid cid (progress 10 5 0)); simpl; lia.
Qed.

(** One record before, one record after. *)
Lemma one_record_per_user_and_course_witness :
  unique_progress begun
  /\ unique_progress
       (db_of (UpdateProgress.serve (at_time 1000 reply) "POST" (Some "user-1")
                 (update 50 3) begun)).
Proof.
  split; [exact unique_progress_begun|].
  apply (UpdateProgressMore.one_record_per_user_and_course
           (at_time 1000 reply) "POST" (Some "user-1") (update 50 3) begun).
  exact unique_progress_begun.
Defined.

(** An update of the user's course in the month's records. *)
Lemma update_touches_only_the_callers_record_witness :
  let r := UpdateProgress.serve (at_time 1000 reply) "POST" (Some "user-1") (update 50 3)
             a_month in
  other_progress "user-1" "course-1" (db_of r) = other_progress "user-1" "course-1" a_month
  /\ course_generation_sessions (db_of r) = course_generation_sessions a_month
  /\ course_conversations (db_of r) = course_conversations a_month
  /\ course_modules (db_of r) = course_modules a_month.
Proof.
  apply (UpdateProgressMore.update_touches_only_the_callers_record
           (at_time 1000 reply) "POST" "user-1" (update 50 3) a_month "course-1" 50).
  repeat split; discriminate.
Defined.

(** The request carries a percentage and a time, nothing else. *)
Lemma update_keeps_what_the_request_omits_witness :
  let r := UpdateProgress.serve (at_time 1000 reply) "POST" (Some "user-1") (update 50 3)
             begun in
  exists updated,
    stored_progress "user-1" "course-1" (db_of r) = Some updated
    /\ body (response_of r) = ProgressSaved updated
    /\ Progress.completed_modules updated = []
    /\ Progress.notes updated = ""
    /\ Progress.last_accessed updated = 1000
    /\ Progress.user_id updated = Some "user-1"
    /\ Progress.clerk_user_id updated = None
    /\ Progress.course_id updated = "course-1".
Proof.
  apply (UpdateProgressMore.update_keeps_what_the_request_omits
           (at_time 1000 reply) "POST" "user-1" (update 50 3) begun "course-1" 50
           (progress 10 5 0)).
  - repeat split; discriminate.
  - reflexivity.
  - reflexivity.
Defined.

(** The first update of a course. *)
Lemma first_update_appends_one_record_witness :
  let r := UpdateProgress.serve (at_time 1000 reply) "POST" (Some "user-1") (update 50 3)
             untouched in
  exists created,
    user_progress (db_of r) = (user_progress untouched ++ [created])%list
    /\ body (response_of r) = ProgressSaved created
    /\ Progress.user_id created = Some "user-1"
    /\ Progress.course_id created = "course-1"
    /\ Progress.progress_percentage created = 50
    /\ Progress.time_spent created = 3
    /\ Progress.completed_modules created = []
    /\ Progress.notes created = "".
Proof.
  apply (UpdateProgressMore.first_update_appends_one_record
           (at_time 1000 reply) "POST" "user-1" (update 50 3) untouched "course-1" 50).
  - repeat split; discriminate.
  - reflexivity.
  - reflexivity.
Defined.

(** Another user asks for an edit of the session of scenario A. *)
Lemma foreign_session_is_not_edited_witness :
  EditCourseOutline.serve parse (at_time 1000 reply) "POST" foreign_edit_request sessions_only
  = (mkResponse 404 (Error "Session not found or unauthorized"), sessions_only,
     [Read tbl_course_generation_sessions]).
Proof.
  apply (EditCourseOutlineMore.foreign_session_is_not_edited parse
           (at_time 1000 reply) "POST" foreign_edit_request sessions_only
           "session-1" "add a module on chlorophyll" client_outline "user-2").
  - repeat split; discriminate.
  - repeat constructor. discriminate.
Defined.

(** The provider's reply has prose around the object and does not
    parse. *)
Lemma failed_edit_changes_nothing_witness :
  let r := EditCourseOutline.serve parse (at_time 1000 chatty_reply) "POST" edit_request
             sessions_only in
  db_of r = sessions_only /\ written (trace_of r) = []
  /\ (List.length (fetched (trace_of r)) <= 1)%nat.
Proof.
  destruct (EditCourseOutlineMore.failed_edit_changes_nothing parse
              (at_time 1000 chatty_reply) "POST" edit_request sessions_only) as [H Hf].
  destruct (H eq_refl) as [Hd Hw]. exact (conj Hd (conj Hw Hf)).
Defined.

(** The request of the review panel. *)
Lemma edit_is_rejected_when_a_field_is_missing_witness :
  let r := EditCourseOutline.serve parse (at_time 1000 reply) "POST" anonymous_edit_request
             sessions_only in
  (status (response_of r) = 400 <-> edit_fields_present anonymous_edit_request = false)
  /\ (edit_fields_present anonymous_edit_request = false ->
      db_of r = sessions_only /\ trace_of r = []).
Proof.
  apply (EditCourseOutlineMore.edit_is_rejected_when_a_field_is_missing parse
           (at_time 1000 reply) "POST" anonymous_edit_request sessions_only).
  discriminate.
Defined.

(** Two edits of the session of scenario A. *)
Lemma next_edit_replays_the_exchange_witness :
  let env := at_time 1000 reply in
  let r := EditCourseOutline.serve parse env "POST" edit_request sessions_only in
  let r' := EditCourseOutline.serve parse (at_time 2000 reply) "POST" second_edit_request
              (db_of r) in
  let said := EditCourseOutline.exchange env "session-1" "add a module on chlorophyll"
                parsed_reply in
  EditCourseOutline.history "session-1" (db_of r)
  = (EditCourseOutline.history "session-1" sessions_only ++ said)%list
  /\ fetched (trace_of r')
     = [(EditCourseOutline.system_message,
         EditCourseOutline.editPrompt (Session.set_outline parsed_reply 1000 session)
           parsed_reply
           (EditCourseOutline.conversationContext
              (EditCourseOutline.history "session-1" sessions_only ++ said))
           "make it shorter")].
Proof.
  apply (EditCourseOutlineMore.next_edit_replays_the_exchange parse
           (at_time 1000 reply) (at_time 2000 reply) "POST" edit_request second_edit_request
           sessions_only "session-1" "user-1" session "add a module on chlorophyll"
           client_outline "make it shorter" parsed_reply parsed_reply).
  - repeat split; discriminate.
  - repeat split; discriminate.
  - reflexivity.
  - reflexivity.
  - reflexivity.
  - constructor.
  - reflexivity.
Defined.

(** An outline request whose context is empty. *)
Lemma outline_is_rejected_when_a_field_is_missing_witness :
  let r := GenerateCourseOutline.serve parse (at_time 1000 reply) "POST"
             incomplete_outline_request nothing_stored in
  (status (response_of r) = 400 <-> outline_fields_present incomplete_outline_request = false)
  /\ (outline_fields_present incomplete_outline_request = false ->
      db_of r = nothing_stored /\ trace_of r = []).
Proof.
  apply (GenerateCourseOutlineMore.outline_is_rejected_when_a_field_is_missing parse
           (at_time 1000 reply) "POST" incomplete_outline_request nothing_stored).
  discriminate.
Defined.

(** The outline request of scenario A on an empty store. *)
Lemma generated_outline_is_stored_as_one_session_witness :
  let env := opening 1000 in
  let r := GenerateCourseOutline.serve parse env "POST" outline_request nothing_stored in
  exists session,
    db_of r = with_sessions (fun rows => (rows ++ [session])%list) nothing_stored
    /\ body (response_of r)
       = SessionCreated (Session.id session) (Session.current_outline session)
    /\ Session.id session = "session-1"
    /\ GenerateCourseOutline.clerk_user_id outline_request
       = Some (Session.clerk_user_id session)
    /\ GenerateCourseOutline.topic outline_request = Some (Session.topic session)
    /\ GenerateCourseOutline.context outline_request = Some (Session.context session)
    /\ GenerateCourseOutline.knowledge_level outline_request
       = Some (Session.knowledge_level session)
    /\ GenerateCourseOutline.learning_goals outline_request
       = Some (Session.learning_goals session)
    /\ GenerateCourseOutline.preferred_duration outline_request
       = Some (Session.preferred_duration session)
    /\ Session.status session = "outline_review"
    /\ Session.updated_at session = 1000
    /\ written (trace_of r) = [(tbl_course_generation_sessions, true)]
    /\ exists content,
        fetched (trace_of r)
        = [(GenerateCourseOutline.system_message,
            GenerateCourseOutline.personalizedPrompt (Session.topic session)
              (Session.context session) (Session.knowledge_level session)
              (Session.learning_goals session) (Session.preferred_duration session))]
        /\ provider env GenerateCourseOutline.system_message
             (GenerateCourseOutline.personalizedPrompt (Session.topic session)
                (Session.context session) (Session.knowledge_level session)
                (Session.learning_goals session) (Session.preferred_duration session))
           = Completion content
        /\ parse_model_output parse content = inl (Session.current_outline session).
Proof.
  apply (GenerateCourseOutlineMore.generated_outline_is_stored_as_one_session parse
           (opening 1000) "POST" outline_request nothing_stored).
  reflexivity.
Defined.

(** The session insert is refused. *)
Lemma failed_outline_stores_nothing_witness :
  let r := GenerateCourseOutline.serve parse
             (refusing tbl_course_generation_sessions 1000 reply) "POST" outline_request
             sessions_only in
  db_of r = sessions_only /\ nothing_applied (trace_of r)
  /\ status (response_of r) = 500.
Proof.
  destruct (GenerateCourseOutlineMore.failed_outline_stores_nothing parse
              (refusing tbl_course_generation_sessions 1000 reply) "POST" outline_request
              sessions_only) as [H _].
  destruct (H eq_refl) as [Hd Hw]. exact (conj Hd (conj Hw eq_refl)).
Defined.

(** A second session, beside the session of scenario A. *)
Lemma created_session_is_open_to_its_creator_only_witness :
  let env := mkEnv 1000 "session-2" (fun _ => None) (fun _ _ => Completion reply) in
  let r := GenerateCourseOutline.serve parse env "POST" outline_request sessions_only in
  exists uid session,
    GenerateCourseOutline.clerk_user_id outline_request = Some uid
    /\ body (response_of r)
       = SessionCreated (Session.id session) (Session.current_outline session)
    /\ session_of (Session.id session) uid (db_of r) = Some session
    /\ forall other, other <> uid -> not_the_callers (Session.id session) other (db_of r).
Proof.
  apply (GenerateCourseOutlineMore.created_session_is_open_to_its_creator_only parse
           (mkEnv 1000 "session-2" (fun _ => None) (fun _ _ => Completion reply)) "POST"
           outline_request sessions_only).
  - reflexivity.
  - repeat constructor. discriminate.
Defined.

(** Another user asks for the course of the session of scenario A. *)
Lemma foreign_session_is_not_materialized_witness :
  GenerateFinalCourse.serve (at_time 1000 reply) "POST" foreign_final_request sessions_only
  = (mkResponse 404 (Error "Session not found or unauthorized"), sessions_only,
     [Read tbl_course_generation_sessions]).
Proof.
  apply (GenerateFinalCourseMore.foreign_session_is_not_materialized
           (at_time 1000 reply) "POST" foreign_final_request sessions_only
           "session-1" client_outline "user-2").
  - repeat split; discriminate.
  - repeat constructor. discriminate.
Defined.

(** The request of the review panel. *)
Lemma final_is_rejected_when_a_field_is_missing_witness :
  let r := GenerateFinalCourse.serve (at_time 1000 reply) "POST" anonymous_final_request
             sessions_only in
  (status (response_of r) = 400 <-> final_fields_present anonymous_final_request = false)
  /\ (final_fields_present anonymous_final_request = false ->
      db_of r = sessions_only /\ trace_of r = []).
Proof.
  apply (GenerateFinalCourseMore.final_is_rejected_when_a_field_is_missing
           (at_time 1000 reply) "POST" anonymous_final_request sessions_only).
  discriminate.
Defined.

(** The course insert is refused. *)
Lemma failed_materialization_stores_nothing_witness :
  let r := GenerateFinalCourse.serve (refusing tbl_courses 1000 reply) "POST" final_request
             sessions_only in
  db_of r = sessions_only /\ nothing_applied (trace_of r)
  /\ written (trace_of r) = [(tbl_courses, false)].
Proof.
  destruct (GenerateFinalCourseMore.failed_materialization_stores_nothing
              (refusing tbl_courses 1000 reply) "POST" final_request sessions_only)
    as [H _].
  destruct (H eq_refl) as [Hd Hw]. exact (conj Hd (conj Hw eq_refl)).
Defined.

(** An outline whose second module is null. *)
Lemma unmappable_modules_stop_the_materialization_witness :
  let r := GenerateFinalCourse.serve (at_time 1000 reply) "POST" broken_final_request
             sessions_only in
  mappable (get broken_outline "modules") = false
  /\ status (response_of r) = 500 /\ db_of r = sessions_only /\ written (trace_of r) = [].
Proof.
  split; [reflexivity|].
  apply (GenerateFinalCourseMore.unmappable_modules_stop_the_materialization
           (at_time 1000 reply) "POST" broken_final_request sessions_only
           "session-1" broken_outline "user-1" session reply).
  - repeat split; discriminate.
  - reflexivity.
  - reflexivity.
  - reflexivity.
Defined.

(** The materialization of scenario A. *)
Lemma materialized_course_carries_the_outline_witness :
  let env := at_time 1000 reply in
  let r := GenerateFinalCourse.serve env "POST" final_request sessions_only in
  exists sid approved uid session courseContent course,
    final_valid "POST" final_request sid approved uid
    /\ session_of sid uid sessions_only = Some session
    /\ fetched (trace_of r)
       = [(GenerateFinalCourse.system_message,
           GenerateFinalCourse.personalizedPrompt session approved)]
    /\ provider env GenerateFinalCourse.system_message
         (GenerateFinalCourse.personalizedPrompt session approved)
       = Completion courseContent
    /\ courses (db_of r) = (courses sessions_only ++ [course])%list
    /\ (truthy_value (get approved "title") = true ->
        Some (Course.title course) = get approved "title")
    /\ (truthy_value (get approved "title") = false ->
        Course.title course = JString (Session.topic session))
    /\ (truthy_value (get approved "description") = true ->
        Some (Course.description course) = get approved "description")
    /\ (truthy_value (get approved "description") = false ->
        Course.description course
        = JString ("A comprehensive course on " ++ Session.topic session))
    /\ Course.topic course = Session.topic session
    /\ Course.context course = Session.context session
    /\ Course.knowledge_level course = Session.knowledge_level session
    /\ Course.objectives course
       = map (fun m => GenerateFinalCourse.sent (get m "title"))
           (GenerateFinalCourse.modules_of approved)
    /\ Course.ai_generated course = true
    /\ Course.user_id course = None
    /\ Course.completed_at course = None
    /\ Course.metadata course = Course.mk_metadata sid approved 1000
    /\ body (response_of r)
       = CourseCreated
           (mkCoursePayload (Course.id course) (Course.title course)
              (Course.description course) courseContent
              (JArray (GenerateFinalCourse.modules_of approved))).
Proof.
  apply (GenerateFinalCourseMore.materialized_course_carries_the_outline
           (at_time 1000 reply) "POST" final_request sessions_only).
  reflexivity.
Defined.

(** Scenario C: tomorrow no record has been accessed on the day yet;
    this evening two have. *)
Lemma streak_is_counted_from_today_witness :
  GetUserAnalytics.calculateLearningStreak tomorrow "user-1" three_courses = 0
  /\ 1 <= GetUserAnalytics.calculateLearningStreak this_evening "user-1" three_courses.
Proof.
  split.
  - apply (proj1 (GetUserAnalyticsMore.streak_is_counted_from_today tomorrow "user-1"
                    three_courses)).
    repeat constructor; discriminate.
  - apply (proj2 (GetUserAnalyticsMore.streak_is_counted_from_today this_evening "user-1"
                    three_courses)).
    + apply Exists_cons_hd. reflexivity.
    + repeat constructor; discriminate.
Defined.

(** The week before this evening, in the month's records. *)
Lemma weekly_progress_groups_the_records_by_day_witness :
  let rows := WeeklyProgress.weeklyData this_evening "user-1" a_month in
  let answer := WeeklyProgress.getWeeklyProgress day_number this_evening "user-1" a_month in
  answer = [WeeklyProgress.mkDaily "20" 45 2; WeeklyProgress.mkDaily "19" 45 1]
  /\ NoDup (map WeeklyProgress.date answer)
  /\ (forall entry, In entry answer ->
        WeeklyProgress.sessions entry
        = Z.of_nat (List.length (WeeklyProgress.on_day day_number
                                   (WeeklyProgress.date entry) rows))
        /\ 1 <= WeeklyProgress.sessions entry
        /\ WeeklyProgress.time_spent entry
           = WeeklyProgress.total
               (map Progress.time_spent
                  (WeeklyProgress.on_day day_number (WeeklyProgress.date entry) rows))).
Proof.
  pose proof (GetUserAnalyticsMore.weekly_progress_groups_the_records_by_day day_number
                this_evening "user-1" a_month) as (_ & Hn & _ & He).
  split; [reflexivity|]. split; [exact Hn | exact He].
Defined.

(** The course of scenario A, and a learner who reports 100 percent. *)
Lemma materialized_rows_are_out_of_reach_of_updates_witness :
  let env := at_time 1000 reply in
  let r := GenerateFinalCourse.serve env "POST" final_request sessions_only in
  let d' := invoke_all
              [mkInvocation (at_time 2000 reply) "POST" (Some "user-1") (update 100 5)]
              (db_of r) in
  exists uid course,
    GenerateFinalCourse.clerk_user_id final_request = Some uid
    /\ courses (db_of r) = (courses sessions_only ++ [course])%list
    /\ Course.id course = "course-1"
    /\ Course.status course = "active"
    /\ Course.completed_at course = None
    /\ In course (courses d')
    /\ user_progress (db_of r)
       = (user_progress sessions_only ++ [initial_progress env uid])%list
    /\ In (initial_progress env uid) (user_progress d')
    /\ forall user cid,
        stored_progress user cid (db_of r) = stored_progress user cid sessions_only.
Proof.
  apply (Pipeline.materialized_rows_are_out_of_reach_of_updates
           (at_time 1000 reply) "POST" final_request sessions_only
           [mkInvocation (at_time 2000 reply) "POST" (Some "user-1") (update 100 5)]).
  - reflexivity.
  - reflexivity.
Defined.

(** An outline is requested, edited once, and made a course. *)
Lemma course_carries_the_parameters_of_the_outline_request_witness :
  let opened := GenerateCourseOutline.serve parse (opening 1000) "POST" outline_request
                  nothing_stored in
  let r := GenerateFinalCourse.serve (at_time 3000 reply) "POST" final_request
             (edit_all parse [mkEdit (at_time 2000 reply) "POST" edit_request]
                (db_of opened)) in
  exists course session approved,
    courses (db_of r) = (courses nothing_stored ++ [course])%list
    /\ GenerateFinalCourse.clerk_user_id final_request
       = GenerateCourseOutline.clerk_user_id outline_request
    /\ Course.clerk_user_id course = GenerateCourseOutline.clerk_user_id outline_request
    /\ Some (Course.topic course) = GenerateCourseOutline.topic outline_request
    /\ Some (Course.context course) = GenerateCourseOutline.context outline_request
    /\ Some (Course.knowledge_level course)
       = GenerateCourseOutline.knowledge_level outline_request
    /\ GenerateFinalCourse.approved_outline final_request = Some approved
    /\ fetched (trace_of r)
       = [(GenerateFinalCourse.system_message,
           GenerateFinalCourse.personalizedPrompt session approved)]
    /\ Some (Session.topic session) = GenerateCourseOutline.topic outline_request
    /\ Some (Session.context session) = GenerateCourseOutline.context outline_request
    /\ Some (Session.knowledge_level session)
       = GenerateCourseOutline.knowledge_level outline_request
    /\ Some (Session.learning_goals session)
       = GenerateCourseOutline.learning_goals outline_request
    /\ Some (Session.preferred_duration session)
       = GenerateCourseOutline.preferred_duration outline_request.
Proof.
  apply (Pipeline.course_carries_the_parameters_of_the_outline_request parse
           (opening 1000) "POST" outline_request nothing_stored
           [mkEdit (at_time 2000 reply) "POST" edit_request]
           (at_time 3000 reply) "POST" final_request).
  - reflexivity.
  - constructor.
  - reflexivity.
  - reflexivity.
Defined.

(** Three lessons: the second is opened and marked, the first is marked
    and unmarked by its circle, and the next lesson is asked for twice. *)
Lemma lesson_view_counts_each_lesson_once_witness :
  let s := CourseContent.clicks 3
             [CourseContent.Row 1; CourseContent.MarkComplete; CourseContent.Circle 0;
              CourseContent.Circle 0; CourseContent.NextLesson; CourseContent.NextLesson] in
  s = CourseContent.mkState 2 [1]
  /\ 0 <= CourseContent.currentLesson s < Z.of_nat 3
  /\ NoDup (CourseContent.completedLessons s)
  /\ Forall (fun i => 0 <= i < Z.of_nat 3) (CourseContent.completedLessons s)
  /\ (List.length (CourseContent.completedLessons s) <= 3)%nat
  /\ forall i j,
      In j (CourseContent.completedLessons (CourseContent.toggleLessonComplete i s))
      <-> (if j =? i then ~ In i (CourseContent.completedLessons s)
           else In j (CourseContent.completedLessons s)).
Proof.
  split; [reflexivity|].
  apply (ClientFacts.lesson_view_counts_each_lesson_once 3
           [CourseContent.Row 1; CourseContent.MarkComplete; CourseContent.Circle 0;
            CourseContent.Circle 0; CourseContent.NextLesson; CourseContent.NextLesson]).
  lia.
Defined.

(** A first visit, and a later one when the store would refuse an
    insert. *)
Lemma profile_is_created_once_witness :
  let r := UserProfiles.ensureUserExists ClientScenarios.first_visit
             (Some ClientScenarios.ada) [] in
  fst (fst r)
  = Some (UserProfiles.mkProfile "profile-1" "user-1" "ada@example.org" "ada@example.org"
            [] [] "en" 1000 1001)
  /\ UserProfiles.ensureUserExists ClientScenarios.later_visit (Some ClientScenarios.ada)
       (snd (fst r))
     = (fst (fst r), snd (fst r), [])
  /\ UserProfiles.one_profile_each (snd (fst r)).
Proof.
  assert (Hnone : UserProfiles.one_profile_each []) by (intro uid; simpl; lia).
  destruct (WizardFacts.profile_is_created_once ClientScenarios.first_visit
              ClientScenarios.ada [] Hnone) as (_ & Hone & Hsame & _).
  split; [reflexivity|]. split; [|exact Hone].
  exact (proj2 (proj2 (Hsame _ eq_refl)) ClientScenarios.later_visit).
Defined.


End MoreRuns.
